(** * se-rag-prep: content acquisition and flattening pipeline

    A shallow embedding of the Python sources

    - [github_downloader.py]  (class [GitHubDownloader])
    - [github_scout_assets/resources/github_resource.py]
      (class [GitHubResource])
    - [github_scout_assets/resources/scoutos_resource.py]
      (class [ScoutosResource]: [write_documents], [get_tables])
    - [github_scout_assets/components/github_repositories.py]
      (the assets [scout_collection], [scout_table] and
      [github_table_fill])

    followed by the properties of the specification that concern them
    (Part II) and by further properties of the code (Part III).

    Conventions.  A Python [str] is a Rocq [string]; a character is a code
    point below 256, so [lower] and [strip] are the restrictions of Python's
    Unicode versions to that range.  [None] is [option]'s [None].  Code that
    talks to the outside (git, the file system, HTTP) is written in a small
    monad that threads the log of the calls made so far and asks an
    environment for the reply to each call; a raised exception is the left
    injection of a sum.  Console output and progress messages are left
    out; the error and warning entries that the Gist Fetcher and the two
    assets write to the logger are events of the log. *)

From Stdlib Require Import String Ascii List ZArith Lia Bool Arith.
From Stdlib Require Import Permutation Sorted DecimalString QArith.
Import ListNotations.

Local Open Scope list_scope.
Local Open Scope string_scope.
Local Close Scope Q_scope.
Local Open Scope nat_scope.

(* ================================================================== *)
(** * Part I. The programs *)
(* ================================================================== *)

(** ** Python built-ins used by the sources *)

Module Py.

(** [s.split(sep)] for a one-character separator: never empty, and the
    empty string splits into one empty field. *)
Fixpoint split (sep : ascii) (s : string) : list string :=
  match s with
  | EmptyString => [EmptyString]
  | String c rest =>
      if Ascii.eqb c sep then EmptyString :: split sep rest
      else match split sep rest with
           | [] => [String c EmptyString]
           | w :: ws => String c w :: ws
           end
  end.

(** [sep.join(parts)] *)
Definition join (sep : string) (parts : list string) : string :=
  String.concat sep parts.

Fixpoint lstrip (p : ascii -> bool) (s : string) : string :=
  match s with
  | EmptyString => EmptyString
  | String c rest => if p c then lstrip p rest else s
  end.

Fixpoint rstrip (p : ascii -> bool) (s : string) : string :=
  match s with
  | EmptyString => EmptyString
  | String c rest =>
      match rstrip p rest with
      | EmptyString => if p c then EmptyString else String c EmptyString
      | r => String c r
      end
  end.

(** [s.strip(chars)] with the characters to remove given as a predicate *)
Definition strip_by (p : ascii -> bool) (s : string) : string :=
  rstrip p (lstrip p s).

(** [s.strip("/")] and the like *)
Definition strip_char (c : ascii) : string -> string :=
  strip_by (Ascii.eqb c).

(** [str.isspace] on code points below 256: tab, LF, VT, FF, CR, the four
    separators 0x1c-0x1f, space, NEL (0x85) and no-break space (0xa0). *)
Definition isspace (c : ascii) : bool :=
  let n := nat_of_ascii c in
  ((9 <=? n) && (n <=? 13)) || ((28 <=? n) && (n <=? 32))
  || (n =? 133) || (n =? 160).

(** [s.strip()] *)
Definition strip : string -> string := strip_by isspace.

(** [str.lower] on code points below 256: A-Z, and the Latin-1 capitals
    0xC0-0xDE except the multiplication sign 0xD7, move up by 32. *)
Definition lower_char (c : ascii) : ascii :=
  let n := nat_of_ascii c in
  if ((65 <=? n) && (n <=? 90))
     || ((192 <=? n) && (n <=? 222) && negb (n =? 215))
  then ascii_of_nat (n + 32) else c.

Fixpoint lower (s : string) : string :=
  match s with
  | EmptyString => EmptyString
  | String c rest => String (lower_char c) (lower rest)
  end.

(** [s.startswith(p)] *)
Definition startswith (s p : string) : bool := String.prefix p s.

(** [s.endswith(p)] *)
Definition endswith (s p : string) : bool :=
  let n := String.length s in
  let m := String.length p in
  (m <=? n) && String.eqb (String.substring (n - m) m s) p.

(** [needle in hay] *)
Fixpoint contains (needle hay : string) : bool :=
  String.prefix needle hay
  || match hay with
     | EmptyString => false
     | String _ rest => contains needle rest
     end.

(** [s[:n]] *)
Fixpoint take (n : nat) (s : string) : string :=
  match n, s with
  | S k, String c rest => String c (take k rest)
  | _, _ => EmptyString
  end.

(** [s.find(c)], with [None] for -1 *)
Fixpoint find (c : ascii) (s : string) : option nat :=
  match s with
  | EmptyString => None
  | String d rest =>
      if Ascii.eqb d c then Some 0
      else option_map S (find c rest)
  end.

(** [s.rfind(c)], with [None] for -1 *)
Fixpoint rfind (c : ascii) (s : string) : option nat :=
  match s with
  | EmptyString => None
  | String d rest =>
      match rfind c rest with
      | Some i => Some (S i)
      | None => if Ascii.eqb d c then Some 0 else None
      end
  end.

(** [s[n:]] *)
Fixpoint drop (n : nat) (s : string) : string :=
  match n, s with
  | S k, String _ rest => drop k rest
  | _, _ => s
  end.

(** the line feed, ["\n"] in the sources *)
Definition LF : ascii := ascii_of_nat 10.
Definition nl : string := String LF EmptyString.

(** [x in xs] for a list or set of strings *)
Definition mem (x : string) (xs : list string) : bool :=
  existsb (String.eqb x) xs.

(** [d.get(key, default)] on a dict with string keys *)
Fixpoint lookup {A} (key : string) (d : list (string * A)) : option A :=
  match d with
  | [] => None
  | (k, v) :: rest => if String.eqb k key then Some v else lookup key rest
  end.

(** [str(n)] for a natural number *)
Definition str_of_nat (n : nat) : string :=
  NilZero.string_of_uint (Nat.to_uint n).

(** Python exceptions the sources distinguish in their [except] clauses;
    every other subclass of [Exception] is [OtherException]. *)
Inductive exn : Type :=
| TimeoutExpired
| CalledProcessError
| FileNotFoundError
| ValueError
| TypeError
| AttributeError
| RequestException
| OtherException.

(** a computation that returns or raises *)
Definition result (A : Type) : Type := (exn + A)%type.

(** the levels of the log entries that are recorded: [logger.error] and
    [logger.warning]; progress messages at level info are left out *)
Inductive level : Type :=
| LogError
| LogWarning.

End Py.

(** ** [urllib.parse.urlparse]

    The sources only read [urlparse(url).path].  The library is not part of
    the repository, so the programs below take the map from a URL to its path
    as a parameter ([None] when [urlparse] raises).  [Urllib.path] follows the
    library's splitting steps (scheme, network location, fragment, query,
    parameters of the last segment) and is what the examples run with. *)

Module Urllib.
Import Py.

Definition is_alpha (c : ascii) : bool :=
  let n := nat_of_ascii c in
  ((65 <=? n) && (n <=? 90)) || ((97 <=? n) && (n <=? 122)).

Definition is_digit (c : ascii) : bool :=
  let n := nat_of_ascii c in (48 <=? n) && (n <=? 57).

(** [scheme_chars]: letters, digits and [+-.] *)
Definition scheme_char (c : ascii) : bool :=
  is_alpha c || is_digit c
  || Ascii.eqb c "+" || Ascii.eqb c "-" || Ascii.eqb c ".".

Fixpoint all_chars (p : ascii -> bool) (s : string) : bool :=
  match s with
  | EmptyString => true
  | String c rest => p c && all_chars p rest
  end.

(** the URL with its scheme and colon removed, when it has a scheme *)
Definition drop_scheme (url : string) : string :=
  match url, find ":" url with
  | String c _, Some (S i) =>
      if is_alpha c && all_chars scheme_char (take (S i) url)
      then drop (S (S i)) url else url
  | _, _ => url
  end.

(** the scheme, lower-cased, or the empty string *)
Definition scheme_of (url : string) : string :=
  match url, find ":" url with
  | String c _, Some (S i) =>
      if is_alpha c && all_chars scheme_char (take (S i) url)
      then lower (take (S i) url) else EmptyString
  | _, _ => EmptyString
  end.

(** [s] up to the first character satisfying [p] *)
Fixpoint upto (p : ascii -> bool) (s : string) : string :=
  match s with
  | EmptyString => EmptyString
  | String c rest => if p c then EmptyString else String c (upto p rest)
  end.

(** [s] from the first character satisfying [p] on *)
Fixpoint from (p : ascii -> bool) (s : string) : string :=
  match s with
  | EmptyString => EmptyString
  | String c rest => if p c then s else from p rest
  end.

Definition netloc_end (c : ascii) : bool :=
  Ascii.eqb c "/" || Ascii.eqb c "?" || Ascii.eqb c "#".

(** what follows the network location, when the URL has one *)
Definition drop_netloc (url : string) : string :=
  if String.prefix "//" url then from netloc_end (drop 2 url) else url.

Definition uses_params : list string :=
  [""; "ftp"; "hdl"; "prospero"; "http"; "imap"; "https"; "shttp"; "rtsp";
   "rtsps"; "rtspu"; "sip"; "sips"; "mms"; "sftp"; "tel"].

(** [_splitparams]: cut at the first [;] of the last path segment *)
Definition drop_params (path : string) : string :=
  match rfind "/" path with
  | Some i =>
      match find ";" (drop i path) with
      | Some j => take (i + j) path
      | None => path
      end
  | None =>
      match find ";" path with
      | Some j => take j path
      | None => path
      end
  end.

Definition path (url : string) : option string :=
  let rest := drop_netloc (drop_scheme url) in
  let rest := upto (Ascii.eqb "#") rest in
  let rest := upto (Ascii.eqb "?") rest in
  Some (if existsb (String.eqb (scheme_of url)) uses_params
        then drop_params rest else rest).

End Urllib.

(** ** URL Resolver: [parse_github_url]

    The method is defined twice, with the same body, in [GitHubDownloader]
    and in [GitHubResource]. *)

Module UrlResolver.
Import Py.

Section WithUrlparse.
(** [urlparse(url).path], or [None] when [urlparse] raises *)
Variable urlparse_path : string -> option string.

(** [parsed.path.strip("/").split("/")] *)
Definition path_parts (url : string) : option (list string) :=
  option_map (fun p => split "/" (strip_char "/" p)) (urlparse_path url).

Definition parse_github_url (url : string)
  : string * option string * option string :=
  match path_parts url with
  | None => (url, None, None)                (* except Exception *)
  | Some path_parts =>
      if length path_parts <? 2 then (url, None, None)
      else if (4 <=? length path_parts)
              && String.eqb (nth 2 path_parts "") "tree"
      then
        let owner := nth 0 path_parts "" in
        let repo := nth 1 path_parts "" in
        let branch := nth 3 path_parts "" in
        let subdirectory :=
          if 4 <? length path_parts
          then Some (join "/" (skipn 4 path_parts)) else None in
        let base_url :=
          "https://github.com/" ++ owner ++ "/" ++ repo ++ ".git" in
        (base_url, Some branch, subdirectory)
      else (url, None, None)
  end.
End WithUrlparse.

End UrlResolver.

(** ** Calls to the outside

    A program of type [M W E A] is run against a world [W] (which answers
    each call, possibly depending on the log so far) and a log of events
    [E]; it extends the log and returns a value or raises. *)

Module Eff.
Import Py.

Definition M (W E A : Type) : Type := W -> list E -> result A * list E.

Definition ret {W E A} (a : A) : M W E A := fun _ log => (inr a, log).

Definition raise {W E A} (e : exn) : M W E A := fun _ log => (inl e, log).

Definition bind {W E A B} (m : M W E A) (k : A -> M W E B) : M W E B :=
  fun w log =>
    match m w log with
    | (inr a, log') => k a w log'
    | (inl e, log') => (inl e, log')
    end.

(** [try: m  except ... : handler] *)
Definition try_except {W E A} (m : M W E A) (handler : exn -> M W E A)
  : M W E A :=
  fun w log =>
    match m w log with
    | (inr a, log') => (inr a, log')
    | (inl e, log') => handler e w log'
    end.

(** one call: ask the world, record the event, return or raise the reply *)
Definition perform {W E A} (ask : W -> list E -> result A)
           (record : result A -> E) : M W E A :=
  fun w log => let r := ask w log in (r, (log ++ [record r])%list).

(** a call that cannot raise *)
Definition observe {W E A} (ask : W -> list E -> A) (record : A -> E)
  : M W E A :=
  fun w log => let a := ask w log in (inr a, (log ++ [record a])%list).

End Eff.

Notation "x <- m ;; k" := (Eff.bind m (fun x => k))
  (at level 61, m at next level, right associativity).
Notation "m ;;; k" := (Eff.bind m (fun _ => k))
  (at level 61, right associativity).

(** ** Tree Flattener: what the two [flatten_repository_to_markdown] share

    [GitHubDownloader] and [GitHubResource] differ in the header block and in
    what they do with the result; from "Check if it's a git repository" to
    the end of the walk their bodies are the same text. *)

Module TreeFlattener.
Import Py.

(** a path below [repo_path], by its components *)
Definition relpath : Type := list string.

(** What the flattener reads of the directory [repo_path]. *)
Record Tree : Type := {
  root_parts : list string;             (* repo_path.parts *)
  root_name : string;                   (* repo_path.name *)
  root_str : string;                    (* str(repo_path) *)
  is_dir : bool;                        (* repo_path.is_dir() *)
  iterdir_nonempty : result bool;       (* any(repo_path.iterdir()) *)
  path_exists : relpath -> bool;        (* (repo_path / rel).exists() *)
  git_remote : result (Z * string);     (* git remote get-url origin:
                                           returncode and stdout *)
  is_file : relpath -> result bool;     (* file_path.is_file(): it raises
                                           on an error other than "no such
                                           file", e.g. permission denied *)
  st_size : relpath -> result Z;        (* file_path.stat().st_size *)
  read_text : relpath -> result string  (* open(..., errors='ignore').read() *)
}.

(** [file_path.parts] and [file_path.name] for [file_path = repo_path / rel] *)
Definition parts (t : Tree) (rel : relpath) : list string :=
  (root_parts t ++ rel)%list.

Definition name (t : Tree) (rel : relpath) : string :=
  last rel (root_name t).

(** [PurePath.suffix]: from the last dot of the name on, unless that dot
    is the first or the last character *)
Definition suffix (name : string) : string :=
  match rfind "." name with
  | Some i =>
      if (0 <? i) && (i <? String.length name - 1) then drop i name
      else ""
  | None => ""
  end.

Definition code_extensions : list string :=
  [".py"; ".sql"; ".yaml"; ".yml"; ".toml"; ".json"; ".md"; ".txt"; ".sh";
   ".js"; ".ts"; ".css"; ".html"; ".r"; ".R"; ".ipynb"].

Definition language_map : list (string * string) :=
  [(".py", "python"); (".sql", "sql"); (".yaml", "yaml"); (".yml", "yaml");
   (".toml", "toml"); (".json", "json"); (".sh", "bash");
   (".js", "javascript"); (".ts", "typescript"); (".css", "css");
   (".html", "html"); (".r", "r"); (".R", "r"); (".ipynb", "json")].

Definition readme_files : list string :=
  ["README.md"; "readme.md"; "README.txt"; "README"].

Definition size_limit : Z := 1024 * 1024.

(** *** The order of [sorted(repo_path.rglob("*"))]

    POSIX paths compare by their components, components as strings,
    strings by code point. *)
Fixpoint lex_compare {A} (cmp : A -> A -> comparison) (l1 l2 : list A)
  : comparison :=
  match l1, l2 with
  | [], [] => Eq
  | [], _ :: _ => Lt
  | _ :: _, [] => Gt
  | a :: l1', b :: l2' =>
      match cmp a b with
      | Eq => lex_compare cmp l1' l2'
      | c => c
      end
  end.

(** strings by code point *)
Definition str_compare (s1 s2 : string) : comparison :=
  lex_compare Ascii.compare (list_ascii_of_string s1)
              (list_ascii_of_string s2).

Definition path_compare (p q : list string) : comparison :=
  lex_compare str_compare p q.

Definition path_leb (p q : list string) : bool :=
  match path_compare p q with
  | Gt => false
  | _ => true
  end.

Section Sorting.
Context {A : Type} (leb : A -> A -> bool).

Fixpoint insert (x : A) (l : list A) : list A :=
  match l with
  | [] => [x]
  | y :: l' => if leb x y then x :: l else y :: insert x l'
  end.

(** [sorted(l)]: a stable sort *)
Fixpoint sorted (l : list A) : list A :=
  match l with
  | [] => []
  | x :: l' => insert x (sorted l')
  end.
End Sorting.

(** the walk order of a listing of [repo_path] *)
Definition walk_order (t : Tree) (listing : list relpath) : list relpath :=
  sorted (fun p q => path_leb (parts t p) (parts t q)) listing.

(** *** Steps of the flattener *)

(** the lines added for the reply to [git remote get-url origin] *)
Definition git_lines (reply : result (Z * string)) : list string :=
  match reply with
  | inr (returncode, stdout) =>
      if (returncode =? 0)%Z
      then ["**Git Remote:** " ++ strip stdout; ""]
      else []
  | inl _ => []                                     (* except Exception: pass *)
  end.

(** "Check if it's a git repository and add metadata" *)
Definition git_metadata (t : Tree) : list string :=
  if path_exists t [".git"] then git_lines (git_remote t) else [].

(** "Add README content if it exists": the first name that exists and
    can be read *)
Fixpoint readme_section (t : Tree) (names : list string) : list string :=
  match names with
  | [] => []
  | readme_name :: rest =>
      if path_exists t [readme_name] then
        match read_text t [readme_name] with
        | inr readme_content => ["## README"; ""; readme_content; ""]
        | inl _ => readme_section t rest            (* except Exception: pass *)
        end
      else readme_section t rest
  end.

(** the body of the loop for one [file_path]: the lines it appends, or
    [None] when the file is passed over.  The test [file_path.is_file()]
    stands outside the inner [try] blocks: when it raises, the loop ends
    and the exception reaches the handler of the whole function. *)
Definition file_section (t : Tree) (rel : relpath)
  : result (option (list string)) :=
  match is_file t rel with
  | inl e => inl e
  | inr regular =>
      let ext := lower (suffix (name t rel)) in
      if regular && mem ext code_extensions then
        (* Skip git files and other system files *)
        if mem ".git" (parts t rel) || startswith (name t rel) "."
        then inr None
        else
          (* Skip very large files (>1MB) *)
          match st_size t rel with
          | inl _ => inr None
          | inr size =>
              if (size >? size_limit)%Z then inr None
              else
                match read_text t rel with
                | inl _ => inr None                 (* "Could not read" *)
                | inr file_content =>
                    let language :=
                      match lookup ext language_map with
                      | Some l => l
                      | None => "text"
                      end in
                    let title := "## File: " ++ join "/" rel in
                    let fence := "```" ++ language in
                    inr (Some ([title; ""]
                               ++ (if String.eqb ext ".md" then [file_content]
                                   else [fence; file_content; "```"])
                               ++ [""])%list)
                end
          end
      else inr None
  end.

(** "Recursively collect all files": [markdown_content] and
    [files_processed] after the loop, or the exception that ended it *)
Definition walk (t : Tree) (listing : list relpath)
           (markdown_content : list string) : result (list string * nat) :=
  fold_left
    (fun state file_path =>
       match state with
       | inl e => inl e
       | inr (markdown_content, files_processed) =>
           match file_section t file_path with
           | inl e => inl e
           | inr (Some lines) =>
               inr ((markdown_content ++ lines)%list, S files_processed)
           | inr None => inr (markdown_content, files_processed)
           end
       end)
    (walk_order t listing) (inr (markdown_content, 0)).

(** from the README to the final test on [files_processed], after the
    header and the lines [git_lines] of the git metadata; [rglob] is the
    result of [repo_path.rglob("*")], in the order the file system gave
    it *)
Definition collect_with (git_lines : list string) (t : Tree)
           (rglob : result (list relpath)) (header : list string)
  : result (option (list string)) :=
  let markdown_content :=
    (header ++ git_lines ++ readme_section t readme_files)%list in
  match rglob with
  | inl e => inl e
  | inr listing =>
      match walk t listing markdown_content with
      | inl e => inl e
      | inr (markdown_content, files_processed) =>
          if files_processed =? 0 then inr None
          else inr (Some markdown_content)
      end
  end.

(** from the git metadata to the final test on [files_processed] *)
Definition collect (t : Tree) (rglob : result (list relpath))
           (header : list string) : result (option (list string)) :=
  collect_with (git_metadata t) t rglob header.

(** "Skip if it's not a directory or is empty" *)
Definition not_a_directory_or_empty (t : Tree) : result bool :=
  if negb (is_dir t) then inr true
  else match iterdir_nonempty t with
       | inl e => inl e
       | inr nonempty => inr (negb nonempty)
       end.

End TreeFlattener.

(** ** [github_downloader.py]: Repository Fetcher *)

Module GitHubDownloader.
Import Py Eff.

(** a [pathlib.Path]: a given path, or [p / name] *)
Inductive path : Type :=
| Path (s : string)
| Join (p : path) (name : string)
| Parent (p : path).                               (* p.parent *)

(** an element of a command line: a literal, or [str(p)] for a path *)
Inductive arg : Type :=
| Lit (s : string)
| StrOf (p : path).

Inductive event : Type :=
| Mkdir (p : path) (r : result unit)              (* mkdir(parents, exist_ok) *)
| Run (argv : list arg) (cwd : option path) (timeout : Z) (r : result Z)
                                                  (* subprocess.run, its returncode *)
| WriteText (p : path) (content : string) (r : result unit)
                                                  (* open(p, 'w') ... f.write *)
| Exists (p : path) (b : bool)                    (* p.exists() *)
| RunOutput (argv : list arg) (cwd : option path) (timeout : Z)
            (r : result (Z * string)).
                                                  (* subprocess.run, its
                                                     returncode and stdout *)

Record World : Type := {
  os_mkdir : list event -> path -> result unit;
  os_run : list event -> list arg -> option path -> Z -> result Z;
  os_write : list event -> path -> string -> result unit;
  os_exists : list event -> path -> bool;
  os_run_output :
    list event -> list arg -> option path -> Z -> result (Z * string)
}.

Definition Prog := M World event.

Definition mkdir (p : path) : Prog unit :=
  perform (fun w log => os_mkdir w log p) (Mkdir p).

Definition subprocess_run (argv : list arg) (cwd : option path) (timeout : Z)
  : Prog Z :=
  perform (fun w log => os_run w log argv cwd timeout) (Run argv cwd timeout).

Definition write_text (p : path) (content : string) : Prog unit :=
  perform (fun w log => os_write w log p content) (WriteText p content).

Definition exists_ (p : path) : Prog bool :=
  observe (fun w log => os_exists w log p) (Exists p).

Definition subprocess_run_output (argv : list arg) (cwd : option path)
           (timeout : Z) : Prog (Z * string) :=
  perform (fun w log => os_run_output w log argv cwd timeout)
          (RunOutput argv cwd timeout).

Definition git (args : list string) : list arg := map Lit ("git" :: args).

Definition parse_github_url := UrlResolver.parse_github_url.

Definition clone_subdirectory
           (repo_url branch subdirectory : string) (target_dir : path)
  : Prog bool :=
  try_except
    (mkdir target_dir ;;;
     (* Initialize git repository *)
     rc <- subprocess_run (git ["init"]) (Some target_dir) 30 ;;
     if negb (rc =? 0)%Z then ret false else
     (* Add remote origin *)
     rc <- subprocess_run (git ["remote"; "add"; "origin"; repo_url])
                          (Some target_dir) 30 ;;
     if negb (rc =? 0)%Z then ret false else
     (* Enable sparse-checkout *)
     rc <- subprocess_run (git ["config"; "core.sparseCheckout"; "true"])
                          (Some target_dir) 30 ;;
     if negb (rc =? 0)%Z then ret false else
     (* Configure sparse-checkout to include only the subdirectory *)
     let sparse_checkout_file :=
       Join (Join (Join target_dir ".git") "info") "sparse-checkout" in
     mkdir (Parent sparse_checkout_file) ;;;
     write_text sparse_checkout_file (subdirectory ++ "/" ++ nl) ;;;
     (* Fetch the specific branch *)
     rc <- subprocess_run (git ["fetch"; "origin"; branch])
                          (Some target_dir) 300 ;;
     if negb (rc =? 0)%Z then ret false else
     (* Checkout the branch *)
     rc <- subprocess_run (git ["checkout"; "origin/" ++ branch])
                          (Some target_dir) 60 ;;
     if negb (rc =? 0)%Z then ret false else
     (* Verify that the subdirectory exists *)
     present <- exists_ (Join target_dir subdirectory) ;;
     if negb present then ret false else ret true)
    (fun _ => ret false).   (* TimeoutExpired, and any other Exception *)

(** [if subdirectory:] on an [Optional[str]] *)
Definition truthy (s : option string) : bool :=
  match s with
  | Some (String _ _) => true
  | _ => false
  end.

Section WithUrlparse.
Variable urlparse_path : string -> option string.

Definition clone_repository (repo_url : string) (target_dir : path)
  : Prog bool :=
  try_except
    (let '(base_url, branch, subdirectory) :=
       parse_github_url urlparse_path repo_url in
     if truthy subdirectory then
       (* Clone only the subdirectory *)
       match branch, subdirectory with
       | Some branch, Some subdirectory =>
           clone_subdirectory base_url branch subdirectory target_dir
       | _, _ => raise TypeError   (* not reached: a subdirectory comes with a branch *)
       end
     else
       (* Clone the entire repository *)
       rc <- subprocess_run [Lit "git"; Lit "clone"; Lit base_url; StrOf target_dir]
                            None 300 ;;
       if (rc =? 0)%Z then ret true else ret false)
    (fun e =>
       match e with
       | TimeoutExpired | CalledProcessError | FileNotFoundError => ret false
       | _ => raise e
       end).
End WithUrlparse.

(** "Check if it's a git repository and add metadata": the lines added
    to the document *)
Definition git_metadata (t : TreeFlattener.Tree) (repo_path : path)
  : Prog (list string) :=
  if TreeFlattener.path_exists t [".git"] then
    try_except
      ((* Try to get git remote info *)
       result <- subprocess_run_output (git ["remote"; "get-url"; "origin"])
                                       (Some repo_path) 10 ;;
       ret (TreeFlattener.git_lines (inr result)))
      (fun _ => ret [])                             (* except Exception: pass *)
  else ret [].

(** [flatten_repository_to_markdown(repo_path, output_path)]; [t] is what
    the file system shows of [repo_path], [now] is
    [time.strftime('%Y-%m-%d %H:%M:%S')] *)
Definition flatten_repository_to_markdown
           (t : TreeFlattener.Tree)
           (rglob : result (list TreeFlattener.relpath))
           (now : string) (output_path : path) : Prog bool :=
  try_except
    (match TreeFlattener.not_a_directory_or_empty t with
     | inl e => raise e
     | inr true => ret false
     | inr false =>
         let repo_name := TreeFlattener.root_name t in
         (* Skip .DS_Store and other system files *)
         if startswith repo_name "." then ret false else
         let header :=
           ["# " ++ repo_name;
            "";
            "Repository flattened from: `" ++ TreeFlattener.root_str t ++ "`";
            "Generated: " ++ now;
            ""] in
         git_lines <- git_metadata t (Path (TreeFlattener.root_str t)) ;;
         match TreeFlattener.collect_with git_lines t rglob header with
         | inl e => raise e
         | inr None => ret false                    (* "No relevant files found" *)
         | inr (Some markdown_content) =>
             (* Write the markdown file *)
             mkdir (Parent output_path) ;;;
             write_text output_path (join nl markdown_content) ;;;
             ret true
         end
     end)
    (fun _ => ret false).

End GitHubDownloader.

(** ** JSON values and Python dictionaries *)

Module Json.
Import Py.

(** what [response.json()] can return, and what a document holds *)
#[local] Unset Elimination Schemes.
Inductive value : Type :=
| Null                                   (* None *)
| Bool (b : bool)
| Int (z : Z)
| Float (q : Q)                          (* a float, by its exact value *)
| Str (s : string)
| List (l : list value)
| Dict (d : list (string * value)).      (* keys in insertion order *)
#[local] Set Elimination Schemes.

Definition dict : Type := list (string * value).

(** [bool(v)] *)
Definition truthy (v : value) : bool :=
  match v with
  | Null => false
  | Bool b => b
  | Int z => negb (z =? 0)%Z
  | Float q => negb (Qeq_bool q 0)
  | Str s => negb (String.eqb s "")
  | List l => match l with [] => false | _ => true end
  | Dict d => match d with [] => false | _ => true end
  end.

(** [a or b] *)
Definition or (a b : value) : value := if truthy a then a else b.

(** [d.get(key, default)] on a dict *)
Definition dict_get (d : dict) (key : string) (default : value) : value :=
  match lookup key d with
  | Some v => v
  | None => default
  end.

(** [v.get(key, default)]: only a dict has [get] *)
Definition get (v : value) (key : string) (default : value) : result value :=
  match v with
  | Dict d => inr (dict_get d key default)
  | _ => inl AttributeError
  end.

(** [d[key] = v] *)
Fixpoint set (d : dict) (key : string) (v : value) : dict :=
  match d with
  | [] => [(key, v)]
  | (k, old) :: rest =>
      if String.eqb k key then (k, v) :: rest else (k, old) :: set rest key v
  end.

(** [v == s] for a string [s] *)
Definition eq_str (v : value) (s : string) : bool :=
  match v with
  | Str s' => String.eqb s' s
  | _ => false
  end.

(** ['\n'.join(items)]: a [TypeError] unless every item is a string *)
Fixpoint strings (items : list value) : result (list string) :=
  match items with
  | [] => inr []
  | Str s :: rest =>
      match strings rest with
      | inr l => inr (s :: l)
      | inl e => inl e
      end
  | _ :: _ => inl TypeError
  end.

Definition join_lines (items : list value) : result string :=
  match strings items with
  | inr l => inr (join nl l)
  | inl e => inl e
  end.

(** [v[:n]] where only the success matters: strings and lists slice,
    everything else raises *)
Definition sliceable (v : value) : bool :=
  match v with
  | Str _ | List _ => true
  | _ => false
  end.

End Json.

(** ** [github_resource.py]: [GitHubResource] *)

Module GitHubResource.
Import Py Eff.

Definition parse_github_url := UrlResolver.parse_github_url.

(** *** Tree Flattener *)

(** [flatten_repository_to_markdown(repo_path, owner, repo)]; [now] is
    [time.strftime('%Y-%m-%d %H:%M:%S')] *)
Definition flatten_repository_to_markdown
           (t : TreeFlattener.Tree)
           (rglob : result (list TreeFlattener.relpath))
           (now owner repo : string) : option string :=
  match TreeFlattener.not_a_directory_or_empty t with
  | inl _ => None                                   (* "Error flattening" *)
  | inr true => None
  | inr false =>
      let header :=
        ["# " ++ owner ++ "/" ++ repo;
         "";
         "Repository: https://github.com/" ++ owner ++ "/" ++ repo;
         "Flattened: " ++ now;
         ""] in
      match TreeFlattener.collect t rglob header with
      | inl _ => None                               (* "Error flattening" *)
      | inr None => None                            (* "No relevant files found" *)
      | inr (Some markdown_content) => Some (join nl markdown_content)
      end
  end.

(** *** Description Extractor *)

Definition fallback_description (owner repo : string) : string :=
  "Repository " ++ owner ++ "/" ++ repo
  ++ " containing code and documentation files.".

Definition nonempty (s : string) : bool :=
  match s with
  | EmptyString => false
  | String _ _ => true
  end.

(** the first loop: the stripped lines of the README section *)
Fixpoint scan_readme (owner repo : string) (lines : list string)
         (in_readme : bool) (readme_lines : list string) : list string :=
  match lines with
  | [] => readme_lines
  | line :: rest =>
      if String.eqb (strip line) "## README" then
        scan_readme owner repo rest true readme_lines
      else if startswith line "## File:" && in_readme then
        readme_lines                                (* End of README section *)
      else if in_readme && nonempty (strip line) then
        (* Skip markdown headers that are just the repo name *)
        if startswith line "#"
           && (contains (lower repo) (lower line)
               || contains (lower owner) (lower line))
        then scan_readme owner repo rest in_readme readme_lines
        else scan_readme owner repo rest in_readme
                         (readme_lines ++ [strip line])%list
      else scan_readme owner repo rest in_readme readme_lines
  end.

(** the second loop: the lines of the first paragraph *)
Fixpoint first_paragraph (lines : list string)
         (description_parts : list string) : list string :=
  match lines with
  | [] => description_parts
  | line :: rest =>
      if nonempty line && negb (startswith line "#")
         && negb (startswith line "**")
      then
        let description_parts := (description_parts ++ [line])%list in
        (* Stop after getting a substantial description *)
        if 200 <? String.length (join " " description_parts)
        then description_parts
        else first_paragraph rest description_parts
      else first_paragraph rest description_parts
  end.

Definition extract_description_from_content (content owner repo : string)
  : string :=
  let lines := split LF content in
  let readme_lines := scan_readme owner repo lines false [] in
  match readme_lines with
  | _ :: _ =>
      match first_paragraph (firstn 10 readme_lines) [] with
      | (_ :: _) as description_parts =>
          take 500 (join " " description_parts)     (* Limit to 500 chars *)
      | [] => fallback_description owner repo
      end
  | [] => fallback_description owner repo
  end.

(** *** Gist Fetcher *)

Inductive event : Type :=
| HttpGet (url : string) (authorization : option string)
          (r : result Json.value)
    (* session.get(url); raise_for_status(); response.json() *)
| Log (lvl : level) (message : string).
    (* get_dagster_logger().error(message), .warning(message) *)

Record World : Type := {
  http_get : list event -> string -> option string -> result Json.value
}.

Definition Prog := M World event.

Definition session_get (url : string) (authorization : option string)
  : Prog Json.value :=
  perform (fun w log => http_get w log url authorization)
          (HttpGet url authorization).

Definition logger (lvl : level) (message : string) : Prog unit :=
  observe (fun _ _ => tt) (fun _ => Log lvl message).

(** a step that returns or raises without a call *)
Definition lift {A} (r : result A) : Prog A :=
  match r with
  | inr a => ret a
  | inl e => raise e
  end.

Definition gist_language_map : list (string * string) :=
  [("python", "python"); ("sql", "sql"); ("yaml", "yaml"); ("json", "json");
   ("javascript", "javascript"); ("typescript", "typescript");
   ("bash", "bash"); ("shell", "bash"); ("r", "r")].

Section Gist.
(** [self.github_token] *)
Variable github_token : string.
(** how an f-string renders a value that is not a string *)
Variable repr : Json.value -> string.
(** [str(e)] for a caught exception *)
Variable describe : exn -> string.

Definition fmt (v : Json.value) : string :=
  match v with
  | Json.Str s => s
  | _ => repr v
  end.

(** the body of the loop over [gist_data["files"].items()] *)
Definition gist_file (filename : string) (file_data : Json.value)
           (markdown_content : list Json.value) (files_processed : nat)
  : Prog (list Json.value * nat) :=
  content <- lift (Json.get file_data "content" (Json.Str "")) ;;
  if Json.truthy content then
    (* Determine language for syntax highlighting *)
    language <- lift (Json.get file_data "language" (Json.Str "")) ;;
    match language with
    | Json.Str language =>
        let language :=
          if nonempty (lower language) then lower language else "text" in
        let lang :=
          match lookup language gist_language_map with
          | Some l => l
          | None => "text"
          end in
        let title := Json.Str ("## File: " ++ filename) in
        let fence := Json.Str ("```" ++ lang) in
        ret ((markdown_content
              ++ [title; Json.Str ""]
              ++ (if endswith (lower filename) ".md" then [content]
                  else [fence; content; Json.Str "```"])
              ++ [Json.Str ""])%list,
             S files_processed)
    | _ => raise AttributeError                   (* no [lower] *)
    end
  else ret (markdown_content, files_processed).

Fixpoint gist_files (items : list (string * Json.value))
         (markdown_content : list Json.value) (files_processed : nat)
  : Prog (list Json.value * nat) :=
  match items with
  | [] => ret (markdown_content, files_processed)
  | (filename, file_data) :: rest =>
      st <- gist_file filename file_data markdown_content files_processed ;;
      gist_files rest (fst st) (snd st)
  end.

(** [v.items()] and [v.keys()] *)
Definition items (v : Json.value) : result (list (string * Json.value)) :=
  match v with
  | Json.Dict d => inr d
  | _ => inl AttributeError
  end.

(** the [try] block of [get_gist_content]: the documents appended to
    [documents] *)
Definition gist_documents (gist_id gist_name : string)
  : Prog (list Json.dict) :=
    ((* Set up session with authentication if available *)
     let authorization :=
       if nonempty github_token then Some ("token " ++ github_token)
       else None in
     (* Get gist metadata *)
     gist_data <- session_get ("https://api.github.com/gists/" ++ gist_id)
                              authorization ;;
     (* Add header *)
     gist_description <-
       lift (Json.get gist_data "description" (Json.Str gist_name)) ;;
     owner_data <- lift (Json.get gist_data "owner" (Json.Dict [])) ;;
     owner <- lift (Json.get owner_data "login" (Json.Str "unknown")) ;;
     html_url <- lift (Json.get gist_data "html_url" (Json.Str "")) ;;
     created_at <- lift (Json.get gist_data "created_at" (Json.Str "")) ;;
     updated_at <- lift (Json.get gist_data "updated_at" (Json.Str "")) ;;
     let markdown_content :=
       map Json.Str
           ["# Gist: " ++ fmt gist_description;
            "";
            "**Gist ID:** " ++ gist_id;
            "**Owner:** " ++ fmt owner;
            "**URL:** " ++ fmt html_url;
            "**Created:** " ++ fmt created_at;
            "**Updated:** " ++ fmt updated_at;
            ""] in
     let description_line := "**Description:** " ++ fmt gist_description in
     let markdown_content :=
       if Json.truthy gist_description
       then (markdown_content ++ map Json.Str [description_line; ""])%list
       else markdown_content in
     (* Process each file in the gist *)
     files <- lift (Json.get gist_data "files" (Json.Dict [])) ;;
     file_items <- lift (items files) ;;
     st <- gist_files file_items markdown_content 0 ;;
     let '(markdown_content, files_processed) := st in
     if 0 <? files_processed then
       content <- lift (Json.join_lines markdown_content) ;;
       let gist_doc : Json.dict :=
         [("_key", Json.Str ("gist_" ++ gist_id));
          ("type", Json.Str "gist");
          ("content", Json.Str content);
          ("document_type", Json.Str "flattened_gist");
          ("cmfeg8drs00wz0fs60q668chq",
           Json.or gist_description (Json.Str gist_name));
          ("cmfeg8drs00x00fs6b44bexkp",
           Json.or gist_description
                   (Json.Str ("GitHub Gist " ++ gist_name ++ " containing "
                              ++ str_of_nat files_processed ++ " file(s)")));
          ("gist_id", Json.Str gist_id);
          ("owner", owner);
          ("url", html_url);
          ("created_at", created_at);
          ("updated_at", updated_at);
          ("file_count", Json.Int (Z.of_nat files_processed));
          ("files", Json.List (map (fun kv => Json.Str (fst kv)) file_items))]
       in
       ret [gist_doc]
     else
       logger LogWarning ("No files found in gist " ++ gist_id) ;;;
       ret []).

Definition get_gist_content (gist_id gist_name : string)
  : Prog (list Json.dict) :=
  try_except
    (gist_documents gist_id gist_name)
    (fun e =>
       logger LogError
              ("Error processing gist " ++ gist_id ++ ": " ++ describe e) ;;;
       ret []).
End Gist.

End GitHubResource.

(** ** [github_repositories.py]: Sink Provisioner and Ingestion Orchestrator *)

Module GitHubRepositoriesComponent.
Import Py Eff.

Record GitHubRepoConfig : Type := {
  owner : string;
  repo : string;
  category : string
}.

Record GitHubGistConfig : Type := {
  id : string;
  name : string
}.

(** the fields of the component the two assets read *)
Record Component : Type := {
  repositories : list GitHubRepoConfig;
  gists : list GitHubGistConfig;
  collection_name : string;
  table_name : string;
  force_recreate_table : bool
}.

(** the calls on the [scoutos] and [github] resources *)
Inductive event : Type :=
| GetTables (collection_id : string) (r : result (list Json.dict))
| DeleteTable (collection_id : string) (table_id : Json.value)
              (r : result Json.value)
| CreateTable (collection_id name : string) (schema : list Json.dict)
              (r : result Json.value)
| GetTableSchema (collection_id : string) (table_id : Json.value)
                 (r : result Json.value)
| GetRepositoryContent (owner repo : string) (r : result (list Json.dict))
| GetGistContent (gist_id gist_name : string) (r : result (list Json.dict))
| WriteDocuments (collection_id : option string) (table_id : Json.value)
                 (documents : list Json.dict) (r : result Json.value)
| Log (lvl : level) (message : string).
    (* context.log.error(message), context.log.warning(message) *)

Record World : Type := {
  scoutos_get_tables : list event -> string -> result (list Json.dict);
  scoutos_delete_table :
    list event -> string -> Json.value -> result Json.value;
  scoutos_create_table :
    list event -> string -> string -> list Json.dict -> result Json.value;
  scoutos_get_table_schema :
    list event -> string -> Json.value -> result Json.value;
  github_get_repository_content :
    list event -> string -> string -> result (list Json.dict);
  github_get_gist_content :
    list event -> string -> string -> result (list Json.dict);
  scoutos_write_documents :
    list event -> option string -> Json.value -> list Json.dict
    -> result Json.value
}.

Definition Prog := M World event.

Definition get_tables (collection_id : string) : Prog (list Json.dict) :=
  perform (fun w log => scoutos_get_tables w log collection_id)
          (GetTables collection_id).

Definition delete_table (collection_id : string) (table_id : Json.value)
  : Prog Json.value :=
  perform (fun w log => scoutos_delete_table w log collection_id table_id)
          (DeleteTable collection_id table_id).

Definition create_table (collection_id name : string)
           (schema : list Json.dict) : Prog Json.value :=
  perform (fun w log => scoutos_create_table w log collection_id name schema)
          (CreateTable collection_id name schema).

Definition get_table_schema (collection_id : string) (table_id : Json.value)
  : Prog Json.value :=
  perform (fun w log => scoutos_get_table_schema w log collection_id table_id)
          (GetTableSchema collection_id table_id).

Definition get_repository_content (owner repo : string)
  : Prog (list Json.dict) :=
  perform (fun w log => github_get_repository_content w log owner repo)
          (GetRepositoryContent owner repo).

Definition get_gist_content (gist_id gist_name : string)
  : Prog (list Json.dict) :=
  perform (fun w log => github_get_gist_content w log gist_id gist_name)
          (GetGistContent gist_id gist_name).

Definition write_documents (collection_id : option string)
           (table_id : Json.value) (documents : list Json.dict)
  : Prog Json.value :=
  perform (fun w log =>
             scoutos_write_documents w log collection_id table_id documents)
          (WriteDocuments collection_id table_id documents).

Definition lift {A} (r : result A) : Prog A :=
  match r with
  | inr a => ret a
  | inl e => raise e
  end.

Definition logger (lvl : level) (message : string) : Prog unit :=
  observe (fun _ _ => tt) (fun _ => Log lvl message).

(** [dg.MaterializeResult(metadata=...)] *)
Definition MaterializeResult : Type := Json.dict.

Definition column (name column_type : string) : Json.dict :=
  [("name", Json.Str name); ("column_type", Json.Str column_type)].

(** GitHub table schema *)
Definition schema : list Json.dict :=
  [column "_key" "text-short"; column "type" "text-short";
   column "document_type" "text-short"; column "title" "text-short";
   column "description" "text-long"; column "owner" "text-short";
   column "repo" "text-short"; column "category" "text-short";
   column "source" "text-short"; column "url" "url";
   column "created_at" "datetime"; column "updated_at" "datetime";
   column "content" "text-long"].

(** [result.get("data", {}).get("table_id")] *)
Definition created_table_id (result : Json.value) : Py.result Json.value :=
  match Json.get result "data" (Json.Dict []) with
  | inr data => Json.get data "table_id" Json.Null
  | inl e => inl e
  end.

(** "Verify the table schema was created correctly": reading the columns
    back only logs them, but raises on a reply of another shape *)
Definition log_columns (table_schema : Json.value) : Py.result unit :=
  match Json.get table_schema "data" (Json.Dict []) with
  | inl e => inl e
  | inr data =>
      match Json.get data "table_config" (Json.Dict []) with
      | inl e => inl e
      | inr table_config =>
          match Json.get table_config "schema" (Json.List []) with
          | inl e => inl e
          | inr (Json.List actual_schema) =>
              if forallb (fun col => match col with
                                     | Json.Dict _ => true
                                     | _ => false
                                     end) actual_schema
              then inr tt else inl AttributeError
          | inr (Json.Dict []) | inr (Json.Str EmptyString) => inr tt
          | inr (Json.Dict _) | inr (Json.Str _) => inl AttributeError
          | inr _ => inl TypeError                  (* no [len] *)
          end
      end
  end.

Section Assets.
Variable self : Component.
(** [os.getenv("SCOUTOS_COLLECTION_ID")] *)
Variable getenv_collection_id : option string.
(** [str(e)] for a caught exception *)
Variable describe : exn -> string.

Definition scout_table : Prog MaterializeResult :=
  match getenv_collection_id with
  | None | Some EmptyString => raise ValueError
  | Some collection_id =>
      try_except
        (tables <- get_tables collection_id ;;
         let existing_table :=
           List.find (fun table =>
                        Json.eq_str (Json.dict_get table "name" Json.Null)
                                    (table_name self))
                     tables in
         match existing_table with
         | Some ((_ :: _) as existing_table) =>
             if negb (force_recreate_table self) then
               let table_id := Json.dict_get existing_table "id" Json.Null in
               ret [("table_id", table_id); ("status", Json.Str "existing")]
             else
               (* Delete existing table and create new one *)
               let old_table_id :=
                 Json.dict_get existing_table "id" Json.Null in
               delete_table collection_id old_table_id ;;;
               result <- create_table collection_id (table_name self) schema ;;
               table_id <- lift (created_table_id result) ;;
               (* Verify the table schema was created correctly *)
               table_schema <- get_table_schema collection_id table_id ;;
               lift (log_columns table_schema) ;;;
               ret [("table_id", table_id); ("status", Json.Str "recreated")]
         | _ =>
             result <- create_table collection_id (table_name self) schema ;;
             table_id <- lift (created_table_id result) ;;
             ret [("table_id", table_id); ("status", Json.Str "created")]
         end)
        (fun e =>
           logger LogError ("Error managing GitHub table: " ++ describe e) ;;;
           raise e)
  end.

(** "Add metadata to documents" *)
Definition tag (category : string) (doc : Json.dict) : Json.dict :=
  Json.set (Json.set doc "category" (Json.Str category))
           "source" (Json.Str "github_component").

(** "Process all repositories": [all_documents] and [repos_processed]
    after the loop *)
Fixpoint process_repositories (configs : list GitHubRepoConfig)
         (all_documents : list Json.dict) (repos_processed : nat)
  : Prog (list Json.dict * nat) :=
  match configs with
  | [] => ret (all_documents, repos_processed)
  | repo_config :: rest =>
      st <- try_except
              (documents <- get_repository_content (owner repo_config)
                                                   (repo repo_config) ;;
               match documents with
               | _ :: _ =>
                   ret ((all_documents
                         ++ map (tag (category repo_config)) documents)%list,
                        S repos_processed)
               | [] => ret (all_documents, repos_processed)
               end)
              (fun e =>
                 logger LogError
                        ("Failed to process " ++ owner repo_config ++ "/"
                         ++ repo repo_config ++ ": " ++ describe e) ;;;
                 ret (all_documents, repos_processed)) ;;
      process_repositories rest (fst st) (snd st)
  end.

Definition placeholder_ids : list string :=
  ["your_gist_id_here"; "gist_id_placeholder"].

(** "Process all gists" *)
Fixpoint process_gists (configs : list GitHubGistConfig)
         (all_documents : list Json.dict) (gists_processed : nat)
  : Prog (list Json.dict * nat) :=
  match configs with
  | [] => ret (all_documents, gists_processed)
  | gist_config :: rest =>
      (* Skip placeholder IDs *)
      if mem (id gist_config) placeholder_ids then
        logger LogWarning
               ("Skipping placeholder gist ID: " ++ id gist_config) ;;;
        process_gists rest all_documents gists_processed
      else
        st <- try_except
                (documents <- get_gist_content (id gist_config)
                                               (name gist_config) ;;
                 match documents with
                 | _ :: _ =>
                     ret ((all_documents ++ map (tag "gist") documents)%list,
                          S gists_processed)
                 | [] => ret (all_documents, gists_processed)
                 end)
                (fun e =>
                   logger LogError
                          ("Failed to process gist " ++ id gist_config ++ ": "
                           ++ describe e) ;;;
                   ret (all_documents, gists_processed)) ;;
        process_gists rest (fst st) (snd st)
  end.

Definition count (n : nat) : Json.value := Json.Int (Z.of_nat n).

(** "Log a sample document structure for debugging": slicing the
    description of the first document raises unless it slices *)
Definition log_sample (all_documents : list Json.dict) : Py.result unit :=
  match all_documents with
  | sample_doc :: _ =>
      if Json.sliceable (Json.dict_get sample_doc "cmfeg8drs00x00fs6b44bexkp"
                                       (Json.Str "NOT_FOUND"))
      then inr tt else inl TypeError
  | [] => inr tt
  end.

(** [table_event] is the metadata of the latest materialization of
    [github_scout_table], each entry by its [.value], or [None] when
    there is no such event *)
Definition github_table_fill (table_event : option Json.dict)
  : Prog MaterializeResult :=
  match table_event with
  | None =>
      logger LogError "No materialization found for github_scout_table asset" ;;;
      ret [("error", Json.Str "missing_table_materialization")]
  | Some metadata =>
      match lookup "table_id" metadata with
      | None =>
          logger LogError "table_id not found in metadata" ;;;
          ret [("error", Json.Str "table_id_missing_from_metadata")]
      | Some table_id =>
          if negb (Json.truthy table_id) then
            logger LogWarning "Scout table ID not set, skipping write" ;;;
            ret [("documents_processed", Json.Int 0);
                 ("scout_write", Json.Str "skipped - missing env vars")]
          else
            st <- process_repositories (repositories self) [] 0 ;;
            let '(all_documents, repos_processed) := st in
            st <- process_gists (gists self) all_documents 0 ;;
            let '(all_documents, gists_processed) := st in
            let collection_id := getenv_collection_id in
            (* Write all documents to Scout *)
            match all_documents with
            | _ :: _ =>
                try_except
                  (lift (log_sample all_documents) ;;;
                   write_documents collection_id table_id all_documents ;;;
                   ret [("total_documents", count (length all_documents));
                        ("repositories_processed", count repos_processed);
                        ("gists_processed", count gists_processed);
                        ("total_repos", count (length (repositories self)));
                        ("total_gists", count (length (gists self)));
                        ("scout_write", Json.Str "success")])
                  (fun e =>
                     logger LogError
                            ("Failed to write documents to Scout: "
                             ++ describe e) ;;;
                     ret [("total_documents", count (length all_documents));
                          ("repositories_processed", count repos_processed);
                          ("gists_processed", count gists_processed);
                          ("scout_write", Json.Str "failed");
                          ("error", Json.Str (describe e))])
            | [] =>
                logger LogWarning "No documents to write to Scout" ;;;
                ret [("total_documents", Json.Int 0);
                     ("repositories_processed", count repos_processed);
                     ("gists_processed", count gists_processed);
                     ("scout_write", Json.Str "skipped - no documents")]
            end
      end
  end.
End Assets.

End GitHubRepositoriesComponent.

(** ** [github_downloader.py]: gist ids and target directories *)

Module GitHubDownloaderPaths.
Import Py GitHubDownloader.

Definition hex_digits : string := "0123456789abcdef".

(** [c in '0123456789abcdef'] *)
Definition is_hex (c : ascii) : bool :=
  contains (String c "") hex_digits.

Section WithUrlparse.
(** [urlparse(url).path], or [None] when [urlparse] raises *)
Variable urlparse_path : string -> option string.
(** [self.output_dir] *)
Variable output_dir : path.

Definition extract_gist_id (gist_input : string) : option string :=
  (* If it's already a gist ID (32 hex chars), return it *)
  if (String.length gist_input =? 32)
     && Urllib.all_chars is_hex (lower gist_input)
  then Some gist_input
  else
    (* Try to extract from URL *)
    if contains "gist.github.com" gist_input then
      match urlparse_path gist_input with
      | None => None                               (* except Exception *)
      | Some parsed_path =>
          let path_parts := split "/" (strip_char "/" parsed_path) in
          if 2 <=? length path_parts then Some (last path_parts "")
          else if length path_parts =? 1 then Some (nth 0 path_parts "")
          else None
      end
    else None.

(** the category directory chosen from the owner and the repository *)
Definition base_dir (owner repo : string) : path :=
  if String.eqb owner "dagster-io" then
    if mem repo ["hooli-data-eng-pipelines"; "dagster-open-platform";
                 "awesome-dagster"]
    then Join output_dir "official_examples"
    else if String.eqb repo "community-integrations"
    then Join output_dir "community_integrations"
    else Join output_dir "official_examples"
  else if String.eqb owner "cnolanminich"
  then Join (Join output_dir "user_examples") "cnolanminich"
  else if String.eqb owner "slopp"
  then Join (Join output_dir "user_examples") "slopp"
  else Join (Join output_dir "user_examples") "other".

Definition get_target_directory (owner repo url : string) : path :=
  let base_dir := base_dir owner repo in
  (* Check if this is a subdirectory URL *)
  let '(base_url, branch, subdirectory) :=
    parse_github_url urlparse_path url in
  match subdirectory with
  | Some (String _ _ as subdirectory) =>
      (* use the last part of the subdirectory path as the folder name *)
      let subdirectory_name := last (split "/" subdirectory) "" in
      Join base_dir subdirectory_name
  | _ =>
      (* For regular repos, use the repo name *)
      Join base_dir repo
  end.
End WithUrlparse.

End GitHubDownloaderPaths.

(** ** [scoutos_resource.py]: [ScoutosResource]

    The methods of the sink that send documents and list tables.  A
    request is one call on the world: [requests.post] or [requests.get],
    then [raise_for_status()] and [response.json()].  Entries written to
    the logger at level info are left out, as above. *)

Module ScoutosResource.
Import Py Eff.

Inductive method : Type :=
| POST
| GET.

Inductive event : Type :=
| Request (m : method) (url : string) (data : option Json.value)
          (authorization : string) (r : result Json.value)
| Log (lvl : level) (message : string).
    (* get_dagster_logger().error(message) *)

Record World : Type := {
  http : list event -> method -> string -> option Json.value -> string
         -> result Json.value
}.

Definition Prog := M World event.

Definition logger (lvl : level) (message : string) : Prog unit :=
  observe (fun _ _ => tt) (fun _ => Log lvl message).

Definition lift {A} (r : result A) : Prog A :=
  match r with
  | inr a => ret a
  | inl e => raise e
  end.

Section Resource.
(** [self.api_key] *)
Variable api_key : string.
(** [str(e)] for a caught exception *)
Variable describe : exn -> string.
(** [e.response.text], when the exception has a response *)
Variable response_text : exn -> option string.

(** the [Authorization] entry of [self.headers] *)
Definition authorization : string := "Bearer " ++ api_key.

Definition request (m : method) (url : string) (data : option Json.value)
  : Prog Json.value :=
  perform (fun w log => http w log m url data authorization)
          (Request m url data authorization).

(** [except requests.exceptions.RequestException as e: log; raise] *)
Definition on_request_exception {A} (log_entries : exn -> Prog unit)
           (e : exn) : Prog A :=
  match e with
  | RequestException => log_entries e ;;; raise e
  | _ => raise e
  end.

Definition write_documents (collection_id table_id : string)
           (documents : list Json.dict) : Prog Json.value :=
  match documents with
  | [] =>
      ret (Json.Dict [("status", Json.Str "success");
                      ("message", Json.Str "No documents to write")])
  | sample_doc :: _ =>
      let request_url :=
        "https://api.scoutos.com/v2/collections/" ++ collection_id
        ++ "/tables/" ++ table_id ++ "/documents?await_completion=false" in
      let payload := Json.List (map Json.Dict documents) in
      (* Log first document structure for debugging: the description of
         the first document is sliced *)
      lift (if Json.sliceable
                 (Json.dict_get sample_doc "description" (Json.Str "MISSING"))
            then inr tt else inl TypeError) ;;;
      try_except
        (request POST request_url (Some payload))
        (on_request_exception
           (fun e =>
              logger LogError
                     ("Error writing documents to ScoutOS: " ++ describe e) ;;;
              match response_text e with
              | Some text => logger LogError ("Response content: " ++ text)
              | None => ret tt
              end))
  end.

(** [result.get('data', []) if isinstance(result, dict) else result] *)
Definition data_of (result : Json.value) : Json.value :=
  match result with
  | Json.Dict d => Json.dict_get d "data" (Json.List [])
  | _ => result
  end.

Definition get_tables (collection_id : string) : Prog Json.value :=
  let request_url :=
    "https://api.scoutos.com/v2/collections/" ++ collection_id ++ "/tables" in
  try_except
    (result <- request GET request_url None ;;
     ret (data_of result))
    (on_request_exception
       (fun e => logger LogError ("Error getting tables: " ++ describe e))).

End Resource.

End ScoutosResource.

(** ** [github_repositories.py]: the asset [scout_collection] *)

Module CollectionAsset.
Import Py Eff.

Inductive event : Type :=
| GetCollections (r : result (list Json.dict))
| CreateCollection (name description : string) (r : result Json.value)
| Log (lvl : level) (message : string).

Record World : Type := {
  scoutos_get_collections : list event -> result (list Json.dict);
  scoutos_create_collection :
    list event -> string -> string -> result Json.value
}.

Definition Prog := M World event.

Definition get_collections : Prog (list Json.dict) :=
  perform (fun w log => scoutos_get_collections w log) GetCollections.

Definition create_collection (name description : string) : Prog Json.value :=
  perform (fun w log => scoutos_create_collection w log name description)
          (CreateCollection name description).

Definition logger (lvl : level) (message : string) : Prog unit :=
  observe (fun _ _ => tt) (fun _ => Log lvl message).

Definition lift {A} (r : result A) : Prog A :=
  match r with
  | inr a => ret a
  | inl e => raise e
  end.

Section Asset.
Variable self : GitHubRepositoriesComponent.Component.
(** [self.collection_description] *)
Variable collection_description : string.
(** [str(e)] for a caught exception *)
Variable describe : exn -> string.

Definition scout_collection : Prog Json.dict :=
  try_except
    (collections <- get_collections ;;
     let existing_collection :=
       List.find (fun collection =>
                    Json.eq_str (Json.dict_get collection "name" Json.Null)
                                (GitHubRepositoriesComponent.collection_name self))
                 collections in
     match existing_collection with
     | Some ((_ :: _) as existing_collection) =>
         let collection_id :=
           Json.dict_get existing_collection "id" Json.Null in
         ret [("collection_id", collection_id);
              ("status", Json.Str "existing")]
     | _ =>
         (* Create new collection *)
         result <- create_collection (GitHubRepositoriesComponent.collection_name self)
                                     collection_description ;;
         collection_id <- lift (Json.get result "id" Json.Null) ;;
         ret [("collection_id", collection_id);
              ("status", Json.Str "created")]
     end)
    (fun e =>
       logger LogError ("Error managing GitHub collection: " ++ describe e) ;;;
       raise e).
End Asset.

End CollectionAsset.

(* ================================================================== *)
(** * Part II. Properties *)
(* ================================================================== *)

(** ** URL Resolver *)

Module UrlResolverFacts.
Import Py UrlResolver.

Lemma parse_github_url_of_parts urlparse_path url owner repo branch rest :
  path_parts urlparse_path url
  = Some (owner :: repo :: "tree" :: branch :: rest) ->
  parse_github_url urlparse_path url
  = ("https://github.com/" ++ owner ++ "/" ++ repo ++ ".git",
     Some branch,
     match rest with
     | [] => None
     | _ :: _ => Some (join "/" rest)
     end).
Proof.
  intros Hparts. unfold parse_github_url. rewrite Hparts.
  destruct rest as [|a rest]; reflexivity.
Qed.

(** C1, as the specification states it, at a URL that stops at the branch:
    the subdirectory is absent, not the empty string. *)
Lemma parse_github_url_branch_only_not_empty_string :
  let url := "https://github.com/o/r/tree/main" in
  path_parts Urllib.path url = Some ["o"; "r"; "tree"; "main"]
  /\ GitHubDownloader.parse_github_url Urllib.path url
     = ("https://github.com/o/r.git", Some "main", None)
  /\ GitHubResource.parse_github_url Urllib.path url
     = ("https://github.com/o/r.git", Some "main", None)
  /\ snd (GitHubDownloader.parse_github_url Urllib.path url) <> Some "".
Proof.
  cbv zeta. repeat split; try reflexivity. discriminate.
Qed.

(** C1 (amended).  When the path of the URL splits into
    owner/repo/tree/branch followed by further segments, both copies of
    [parse_github_url] return the canonical repository URL
    https://github.com/{owner}/{repo}.git, the branch, and the further
    segments joined by "/" as subdirectory; when nothing follows the
    branch the subdirectory is absent ([None]). *)
Theorem parse_github_url_tree_form :
  forall (urlparse_path : string -> option string)
         (url owner repo branch : string) (rest : list string),
    path_parts urlparse_path url
    = Some (owner :: repo :: "tree" :: branch :: rest) ->
    let expected :=
      ("https://github.com/" ++ owner ++ "/" ++ repo ++ ".git",
       Some branch,
       match rest with
       | [] => None
       | _ :: _ => Some (join "/" rest)
       end) in
    GitHubDownloader.parse_github_url urlparse_path url = expected
    /\ GitHubResource.parse_github_url urlparse_path url = expected.
Proof.
  intros urlparse_path url owner repo branch rest Hparts expected.
  split; apply parse_github_url_of_parts; exact Hparts.
Qed.

Lemma parse_github_url_tree_form_witness :
  let url :=
    "https://github.com/dagster-io/dagster/tree/master/examples/docs_projects/project_atproto_dashboard" in
  let expected :=
    ("https://github.com/dagster-io/dagster.git", Some "master",
     Some "examples/docs_projects/project_atproto_dashboard") in
  path_parts Urllib.path url
  = Some ["dagster-io"; "dagster"; "tree"; "master";
          "examples"; "docs_projects"; "project_atproto_dashboard"]
  /\ GitHubDownloader.parse_github_url Urllib.path url = expected
  /\ GitHubResource.parse_github_url Urllib.path url = expected.
Proof.
  split; [reflexivity|].
  apply (parse_github_url_tree_form Urllib.path
           "https://github.com/dagster-io/dagster/tree/master/examples/docs_projects/project_atproto_dashboard"
           "dagster-io" "dagster" "master"
           ["examples"; "docs_projects"; "project_atproto_dashboard"]).
  reflexivity.
Defined.

End UrlResolverFacts.

(** ** Repository Fetcher *)

Module GitHubDownloaderFacts.
Import Py Eff GitHubDownloader.

(** the file-writing events of a trace *)
Definition writes (tr : list event) : list event :=
  filter (fun e => match e with WriteText _ _ _ => true | _ => false end) tr.

(** a command line [git fetch ...] *)
Definition is_fetch (argv : list arg) : bool :=
  match argv with
  | Lit a :: Lit b :: _ => String.eqb a "git" && String.eqb b "fetch"
  | _ => false
  end.

(** the fetch commands of a trace *)
Definition fetches (tr : list event) : list (list arg) :=
  flat_map (fun e => match e with
                     | Run argv _ _ _ => if is_fetch argv then [argv] else []
                     | _ => []
                     end) tr.

Definition sparse_checkout_file (target_dir : path) : path :=
  Join (Join (Join target_dir ".git") "info") "sparse-checkout".

(** the events of a sparse checkout whose git steps all succeed *)
Definition full_trace (repo_url branch subdirectory : string)
           (target_dir : path) (present : bool) : list event :=
  [Mkdir target_dir (inr tt);
   Run (git ["init"]) (Some target_dir) 30 (inr 0%Z);
   Run (git ["remote"; "add"; "origin"; repo_url]) (Some target_dir) 30
       (inr 0%Z);
   Run (git ["config"; "core.sparseCheckout"; "true"]) (Some target_dir) 30
       (inr 0%Z);
   Mkdir (Parent (sparse_checkout_file target_dir)) (inr tt);
   WriteText (sparse_checkout_file target_dir) (subdirectory ++ "/" ++ nl)
             (inr tt);
   Run (git ["fetch"; "origin"; branch]) (Some target_dir) 300 (inr 0%Z);
   Run (git ["checkout"; "origin/" ++ branch]) (Some target_dir) 60
       (inr 0%Z);
   Exists (Join target_dir subdirectory) present].

Ltac step_world :=
  match goal with
  | |- context [os_mkdir ?w ?l ?p] =>
      destruct (os_mkdir w l p) as [?e|[]] eqn:?
  | |- context [os_run ?w ?l ?a ?c ?t] =>
      let rc := fresh "rc" in
      destruct (os_run w l a c t) as [?e|rc] eqn:?;
      [|destruct (Z.eqb_spec rc 0); [subst rc|]]
  | |- context [os_write ?w ?l ?p ?c] =>
      destruct (os_write w l p c) as [?e|[]] eqn:?
  | |- context [os_exists ?w ?l ?p] =>
      destruct (os_exists w l p) eqn:?
  end; cbn.


Lemma clone_subdirectory_run w log repo_url branch subdirectory target_dir :
  exists (ok : bool) (tr : list event),
    clone_subdirectory repo_url branch subdirectory target_dir w log
    = (inr ok, (log ++ tr)%list)
    /\ (length (writes tr) <= 1)
    /\ (forall e, In e (writes tr) ->
          exists r, e = WriteText (sparse_checkout_file target_dir)
                                  (subdirectory ++ "/" ++ nl) r)
    /\ (fetches tr = []
        \/ fetches tr = [git ["fetch"; "origin"; branch]]
           /\ writes tr = [WriteText (sparse_checkout_file target_dir)
                                     (subdirectory ++ "/" ++ nl) (inr tt)])
    /\ (In (Run (git ["checkout"; "origin/" ++ branch]) (Some target_dir) 60
                (inr 0%Z)) tr ->
        exists present,
          tr = full_trace repo_url branch subdirectory target_dir present
          /\ ok = present).
Proof.
  unfold clone_subdirectory, try_except, bind, mkdir, subprocess_run,
    write_text, exists_, perform, observe, ret, sparse_checkout_file.
  cbn.
  repeat step_world;
    (repeat rewrite <- app_assoc; cbn;
     (eexists; eexists; split; [reflexivity|]);
     cbn; refine (conj _ (conj _ (conj _ _)));
     [ lia
     | intros ? HIn; cbn in HIn;
       intuition (subst; eauto; try discriminate)
     | first [left; reflexivity | right; split; reflexivity]
     | intros HIn; cbn in HIn;
       intuition (try discriminate; try congruence);
       try (eexists; split; reflexivity) ]).
Qed.

(** a world in which every call succeeds and the path looked for is absent *)
Definition world_subdirectory_absent : World :=
  {| os_mkdir := fun _ _ => inr tt;
     os_run := fun _ _ _ _ => inr 0%Z;
     os_write := fun _ _ _ => inr tt;
     os_exists := fun _ _ => false;
     os_run_output := fun _ _ _ _ => inr (0%Z, "") |}.



(** the exceptions [clone_repository] turns into [False] *)
Definition caught (e : exn) : bool :=
  match e with
  | TimeoutExpired | CalledProcessError | FileNotFoundError => true
  | _ => false
  end.

(** C10.  For a URL whose path is exactly owner/repo/tree/branch,
    [parse_github_url] gives no subdirectory, and [clone_repository] makes
    one call only: [git clone https://github.com/{owner}/{repo}.git
    <target_dir>].  The branch of the URL is not passed on, so git clones
    the default branch.  The value returned is whether that command
    exited with 0. *)
Theorem clone_repository_branch_url_full_clone :
  forall (urlparse_path : string -> option string) (w : World)
         (log : list event) (url : string) (target_dir : path)
         (owner repo branch : string),
    UrlResolver.path_parts urlparse_path url
    = Some [owner; repo; "tree"; branch] ->
    let base_url := "https://github.com/" ++ owner ++ "/" ++ repo ++ ".git" in
    let command := [Lit "git"; Lit "clone"; Lit base_url; StrOf target_dir] in
    let reply := os_run w log command None 300 in
    parse_github_url urlparse_path url = (base_url, Some branch, None)
    /\ clone_repository urlparse_path url target_dir w log
       = (match reply with
          | inr returncode => inr (returncode =? 0)%Z
          | inl e => if caught e then inr false else inl e
          end,
          (log ++ [Run command None 300 reply])%list).
Proof.
  intros urlparse_path w log url target_dir owner repo branch Hparts
         base_url command reply.
  assert (Hparse : parse_github_url urlparse_path url
                   = (base_url, Some branch, None))
    by (apply (UrlResolverFacts.parse_github_url_of_parts
                 urlparse_path url owner repo branch []); exact Hparts).
  split; [exact Hparse|].
  unfold clone_repository, try_except, bind, subprocess_run, perform.
  rewrite Hparse. subst reply command base_url. cbn.
  match goal with
  | |- context [os_run ?w ?l ?a ?c ?t] =>
      destruct (os_run w l a c t) as [e|returncode]
  end.
  - destruct e; reflexivity.
  - cbn. destruct (returncode =? 0)%Z; reflexivity.
Qed.

Lemma clone_repository_branch_url_full_clone_witness :
  let url := "https://github.com/dagster-io/dagster/tree/master" in
  let command :=
    [Lit "git"; Lit "clone"; Lit "https://github.com/dagster-io/dagster.git";
     StrOf (Path "official_examples/dagster")] in
  UrlResolver.path_parts Urllib.path url
  = Some ["dagster-io"; "dagster"; "tree"; "master"]
  /\ clone_repository Urllib.path url (Path "official_examples/dagster")
                      world_subdirectory_absent []
     = (inr true, [Run command None 300 (inr 0%Z)]).
Proof.
  cbv zeta. split; [reflexivity|].
  exact (proj2 (clone_repository_branch_url_full_clone
                  Urllib.path world_subdirectory_absent []
                  "https://github.com/dagster-io/dagster/tree/master"
                  (Path "official_examples/dagster")
                  "dagster-io" "dagster" "master" eq_refl)).
Defined.

End GitHubDownloaderFacts.

(** ** Tree Flattener *)

(** *** Orders given by a three-way comparison *)

Module OrderFacts.
Import TreeFlattener.

Record Comparison {A : Type} (cmp : A -> A -> comparison) : Prop := {
  cmp_refl : forall a, cmp a a = Eq;
  cmp_eq : forall a b, cmp a b = Eq -> a = b;
  cmp_antisym : forall a b, cmp a b = CompOpp (cmp b a);
  cmp_trans : forall a b c, cmp a b = Lt -> cmp b c = Lt -> cmp a c = Lt
}.

Section Lex.
Context {A : Type} (cmp : A -> A -> comparison) (C : Comparison cmp).

Lemma lex_refl l : lex_compare cmp l l = Eq.
Proof.
  induction l as [|a l IH]; cbn; [reflexivity|].
  now rewrite (cmp_refl cmp C).
Qed.

Lemma lex_eq l1 : forall l2, lex_compare cmp l1 l2 = Eq -> l1 = l2.
Proof.
  induction l1 as [|a l1 IH]; intros [|b l2]; cbn; try discriminate;
    [reflexivity|].
  destruct (cmp a b) eqn:Hab; try discriminate.
  intros H. apply (cmp_eq cmp C) in Hab. apply IH in H. congruence.
Qed.

Lemma lex_antisym l1 :
  forall l2, lex_compare cmp l1 l2 = CompOpp (lex_compare cmp l2 l1).
Proof.
  induction l1 as [|a l1 IH]; intros [|b l2]; cbn; try reflexivity.
  rewrite (cmp_antisym cmp C a b).
  destruct (cmp b a); cbn; auto.
Qed.

Lemma lex_trans l1 :
  forall l2 l3,
    lex_compare cmp l1 l2 = Lt -> lex_compare cmp l2 l3 = Lt ->
    lex_compare cmp l1 l3 = Lt.
Proof.
  induction l1 as [|a l1 IH]; intros [|b l2] [|c l3]; cbn;
    try discriminate; try reflexivity.
  destruct (cmp a b) eqn:Hab; try discriminate;
    destruct (cmp b c) eqn:Hbc; try discriminate; intros H12 H23.
  - apply (cmp_eq cmp C) in Hab. subst b. rewrite Hbc. eauto.
  - apply (cmp_eq cmp C) in Hab. subst b. now rewrite Hbc.
  - apply (cmp_eq cmp C) in Hbc. subst c. now rewrite Hab.
  - now rewrite (cmp_trans cmp C a b c Hab Hbc).
Qed.

Lemma lex_comparison : Comparison (lex_compare cmp).
Proof.
  constructor;
    [exact lex_refl | exact lex_eq | exact lex_antisym | exact lex_trans].
Qed.
End Lex.

Lemma ascii_comparison : Comparison Ascii.compare.
Proof.
  constructor; unfold Ascii.compare.
  - intros a. apply N.compare_refl.
  - intros a b H. apply N.compare_eq in H.
    rewrite <- (ascii_N_embedding a), <- (ascii_N_embedding b).
    now rewrite H.
  - intros a b. apply N.compare_antisym.
  - intros a b c H1 H2. rewrite N.compare_lt_iff in *. lia.
Qed.

Lemma str_comparison : Comparison str_compare.
Proof.
  pose proof (lex_comparison Ascii.compare ascii_comparison) as L.
  constructor; unfold str_compare.
  - intros a. apply (cmp_refl _ L).
  - intros a b H. apply (cmp_eq _ L) in H.
    rewrite <- (string_of_list_ascii_of_string a),
            <- (string_of_list_ascii_of_string b).
    now rewrite H.
  - intros a b. apply (cmp_antisym _ L).
  - intros a b c. apply (cmp_trans _ L).
Qed.

Lemma path_comparison : Comparison path_compare.
Proof. exact (lex_comparison str_compare str_comparison). Qed.

Lemma path_leb_total p q : path_leb p q = true \/ path_leb q p = true.
Proof.
  unfold path_leb. rewrite (cmp_antisym _ path_comparison p q).
  destruct (path_compare q p); cbn; auto.
Qed.

Lemma path_leb_antisym p q :
  path_leb p q = true -> path_leb q p = true -> p = q.
Proof.
  unfold path_leb. rewrite (cmp_antisym _ path_comparison q p).
  destruct (path_compare p q) eqn:H; cbn; try discriminate.
  intros _ _. now apply (cmp_eq _ path_comparison).
Qed.

Lemma path_leb_trans p q r :
  path_leb p q = true -> path_leb q r = true -> path_leb p r = true.
Proof.
  unfold path_leb.
  destruct (path_compare p q) eqn:Hpq; try discriminate;
    destruct (path_compare q r) eqn:Hqr; try discriminate; intros _ _.
  - apply (cmp_eq _ path_comparison) in Hpq. subst q. now rewrite Hqr.
  - apply (cmp_eq _ path_comparison) in Hpq. subst q. now rewrite Hqr.
  - apply (cmp_eq _ path_comparison) in Hqr. subst r. now rewrite Hpq.
  - now rewrite (cmp_trans _ path_comparison p q r Hpq Hqr).
Qed.

End OrderFacts.

(** *** The stable sort *)

Module SortFacts.
Import TreeFlattener.

Section Sort.
Context {A : Type} (leb : A -> A -> bool).
Hypothesis leb_total : forall a b, leb a b = true \/ leb b a = true.
Hypothesis leb_trans :
  forall a b c, leb a b = true -> leb b c = true -> leb a c = true.
Hypothesis leb_antisym : forall a b, leb a b = true -> leb b a = true -> a = b.

Let le (a b : A) : Prop := leb a b = true.

Lemma insert_perm x l : Permutation (insert leb x l) (x :: l).
Proof.
  induction l as [|y l IH]; cbn; [reflexivity|].
  destruct (leb x y); [reflexivity|].
  rewrite IH. apply perm_swap.
Qed.

Lemma sorted_perm l : Permutation (sorted leb l) l.
Proof.
  induction l as [|x l IH]; cbn; [reflexivity|].
  rewrite insert_perm. now constructor.
Qed.

Lemma insert_sorted x l :
  StronglySorted le l -> StronglySorted le (insert leb x l).
Proof.
  induction 1 as [|y l Hl IH Hy]; cbn.
  - repeat constructor.
  - destruct (leb x y) eqn:Hxy.
    + constructor; [now constructor|].
      constructor; [exact Hxy|].
      rewrite Forall_forall in *. intros z Hz.
      apply (leb_trans x y z Hxy). now apply Hy.
    + constructor; [exact IH|].
      rewrite Forall_forall in *. intros z Hz.
      apply (Permutation_in _ (insert_perm x l)) in Hz.
      destruct Hz as [<-|Hz]; [|now apply Hy].
      destruct (leb_total x y) as [H|H]; [congruence|exact H].
Qed.

Lemma sorted_sorted l : StronglySorted le (sorted leb l).
Proof.
  induction l as [|x l IH]; cbn; [constructor|].
  now apply insert_sorted.
Qed.

Lemma strongly_sorted_unique l1 :
  forall l2, StronglySorted le l1 -> StronglySorted le l2 ->
             Permutation l1 l2 -> l1 = l2.
Proof.
  induction l1 as [|x l1 IH]; intros l2 H1 H2 HP.
  - now apply Permutation_nil in HP.
  - destruct l2 as [|y l2];
      [now apply Permutation_sym, Permutation_nil in HP|].
    inversion H1 as [|? ? Hs1 Hx]; subst.
    inversion H2 as [|? ? Hs2 Hy]; subst.
    rewrite Forall_forall in Hx, Hy.
    assert (x = y) as ->.
    { assert (In x (y :: l2)) as [->|Hin]
          by (apply (Permutation_in _ HP); now left); [reflexivity|].
      assert (In y (x :: l1)) as [->|Hin']
          by (apply (Permutation_in _ (Permutation_sym HP)); now left);
        [reflexivity|].
      apply leb_antisym; [now apply Hx | now apply Hy]. }
    f_equal. apply IH; try assumption.
    now apply Permutation_cons_inv in HP.
Qed.

Lemma sorted_of_permutation l1 l2 :
  Permutation l1 l2 -> sorted leb l1 = sorted leb l2.
Proof.
  intros HP. apply strongly_sorted_unique; try apply sorted_sorted.
  rewrite !sorted_perm. exact HP.
Qed.
End Sort.

End SortFacts.

(** *** The walk and the two flatteners *)

Module TreeFlattenerFacts.
Import Py Eff TreeFlattener.

(** the order of the walk, as a relation on paths below [repo_path] *)
Definition walk_le (t : Tree) (p q : relpath) : Prop :=
  path_leb (parts t p) (parts t q) = true.

(** the lines the loop appends for a list of files, in that order *)
Definition sections (t : Tree) (files : list relpath) : list string :=
  flat_map (fun rel => match file_section t rel with
                       | inr (Some lines) => lines
                       | _ => []
                       end) files.

(** the files for which the loop appends a section *)
Definition emitted (t : Tree) (files : list relpath) : list relpath :=
  filter (fun rel => match file_section t rel with
                     | inr (Some _) => true
                     | _ => false
                     end) files.

(** the test [is_file()] raises for no file of the list *)
Definition walkable (t : Tree) (files : list relpath) : Prop :=
  forall rel, In rel files -> exists regular, is_file t rel = inr regular.

(** the body of the loop, on the state of the walk *)
Definition step (t : Tree) (state : result (list string * nat))
           (file_path : relpath) : result (list string * nat) :=
  match state with
  | inl e => inl e
  | inr (markdown_content, files_processed) =>
      match file_section t file_path with
      | inl e => inl e
      | inr (Some lines) =>
          inr ((markdown_content ++ lines)%list, S files_processed)
      | inr None => inr (markdown_content, files_processed)
      end
  end.

Lemma walk_order_perm t listing : Permutation (walk_order t listing) listing.
Proof. apply SortFacts.sorted_perm. Qed.

Lemma walk_order_sorted t listing :
  StronglySorted (walk_le t) (walk_order t listing).
Proof.
  apply SortFacts.sorted_sorted.
  - intros a b. apply OrderFacts.path_leb_total.
  - intros a b c. apply OrderFacts.path_leb_trans.
Qed.

Lemma walk_order_of_permutation t l1 l2 :
  Permutation l1 l2 -> walk_order t l1 = walk_order t l2.
Proof.
  apply SortFacts.sorted_of_permutation.
  - intros a b. apply OrderFacts.path_leb_total.
  - intros a b c. apply OrderFacts.path_leb_trans.
  - intros a b Hab Hba. unfold parts in *.
    apply (app_inv_head (root_parts t)).
    now apply OrderFacts.path_leb_antisym.
Qed.

(** a section is written exactly for the regular files with a listed
    extension, outside [.git], not hidden, whose size can be read and is
    at most 1 MiB and whose content can be read *)
Lemma file_section_some t rel lines :
  file_section t rel = inr (Some lines) ->
  is_file t rel = inr true
  /\ mem (lower (suffix (name t rel))) code_extensions = true
  /\ mem ".git" (parts t rel) = false
  /\ startswith (name t rel) "." = false
  /\ exists size content,
      st_size t rel = inr size
      /\ (size >? size_limit)%Z = false
      /\ read_text t rel = inr content.
Proof.
  unfold file_section.
  destruct (is_file t rel) as [e|[|]]; [discriminate| |];
    cbn [andb]; [|discriminate].
  destruct (mem (lower (suffix (name t rel))) code_extensions);
    [|discriminate].
  destruct (mem ".git" (parts t rel)); cbn [orb]; [discriminate|].
  destruct (startswith (name t rel) "."); [discriminate|].
  destruct (st_size t rel) as [e|size]; [discriminate|].
  destruct (size >? size_limit)%Z eqn:Hsize; [discriminate|].
  destruct (read_text t rel) as [e|content]; [discriminate|].
  intros _. repeat split. now exists size, content.
Qed.

Lemma file_section_raises t rel e :
  file_section t rel = inl e -> is_file t rel = inl e.
Proof.
  unfold file_section.
  destruct (is_file t rel) as [e'|regular]; [congruence|].
  cbv zeta.
  destruct (regular && _); [|discriminate].
  destruct (_ || _); [discriminate|].
  destruct (st_size t rel) as [e'|size]; [discriminate|].
  destruct (size >? size_limit)%Z; [discriminate|].
  destruct (read_text t rel); discriminate.
Qed.

Lemma file_section_returns t rel section :
  file_section t rel = inr section ->
  exists regular, is_file t rel = inr regular.
Proof.
  unfold file_section.
  destruct (is_file t rel) as [e|regular]; [discriminate|].
  intros _. now exists regular.
Qed.

Lemma step_raised t files e : fold_left (step t) files (inl e) = inl e.
Proof. induction files as [|f files IH]; [reflexivity|exact IH]. Qed.

(** the loop either meets a file whose [is_file()] raises, and ends with
    that exception, or appends the sections of its files *)
Lemma walk_loop t files :
  (exists e,
      (exists rel, In rel files /\ is_file t rel = inl e)
      /\ forall markdown_content files_processed,
          fold_left (step t) files (inr (markdown_content, files_processed))
          = inl e)
  \/ (walkable t files
      /\ forall markdown_content files_processed,
          fold_left (step t) files (inr (markdown_content, files_processed))
          = inr ((markdown_content ++ sections t files)%list,
                 files_processed + length (emitted t files))).
Proof.
  induction files as [|f files IH].
  - right. split; [intros rel []|].
    intros md n. cbn. now rewrite app_nil_r, Nat.add_0_r.
  - destruct (file_section t f) as [e|section] eqn:Hf.
    + left. exists e. split.
      * exists f. split; [now left|]. now apply file_section_raises.
      * intros md n. cbn [fold_left step]. rewrite Hf. apply step_raised.
    + destruct IH as [(e & (rel & Hin & Hrel) & Hfold)|[Hwalk Hfold]].
      * left. exists e. split; [exists rel; split; [now right|exact Hrel]|].
        intros md n. cbn [fold_left step]. rewrite Hf.
        destruct section; apply Hfold.
      * right. split.
        -- intros rel [<-|Hin]; [|now apply Hwalk].
           eapply file_section_returns; eassumption.
        -- intros md n. cbn [fold_left step sections emitted flat_map filter].
           rewrite Hf. destruct section as [lines|]; rewrite Hfold.
           ++ fold (sections t files). fold (emitted t files).
              cbn [length]. now rewrite <- app_assoc, Nat.add_succ_r.
           ++ reflexivity.
Qed.

Lemma walk_fold t listing markdown_content :
  walk t listing markdown_content
  = fold_left (step t) (walk_order t listing) (inr (markdown_content, 0)).
Proof. reflexivity. Qed.

Lemma walkable_order t listing :
  walkable t listing -> walkable t (walk_order t listing).
Proof.
  intros H rel Hin. apply H.
  now apply (Permutation_in _ (walk_order_perm t listing)).
Qed.

Lemma walk_spec t listing markdown_content :
  walkable t listing ->
  walk t listing markdown_content
  = inr ((markdown_content ++ sections t (walk_order t listing))%list,
         length (emitted t (walk_order t listing))).
Proof.
  intros Hwalk. rewrite walk_fold.
  destruct (walk_loop t (walk_order t listing))
    as [(e & (rel & Hin & Hrel) & _)|[_ Hfold]].
  - destruct (walkable_order t listing Hwalk rel Hin) as [b Hb]. congruence.
  - now rewrite Hfold.
Qed.

Lemma walk_raises t listing rel e :
  In rel listing -> is_file t rel = inl e ->
  exists e', forall markdown_content,
      walk t listing markdown_content = inl e'.
Proof.
  intros Hin Hrel.
  destruct (walk_loop t (walk_order t listing))
    as [(e' & _ & Hfold)|[Hwalk _]].
  - exists e'. intros md. rewrite walk_fold. apply Hfold.
  - destruct (Hwalk rel) as [b Hb]; [|congruence].
    now apply (Permutation_in _ (Permutation_sym (walk_order_perm t listing))).
Qed.

Lemma emitted_nil t files :
  (forall rel lines, In rel files -> file_section t rel <> inr (Some lines)) ->
  emitted t files = [].
Proof.
  induction files as [|f files IH]; intros H; cbn; [reflexivity|].
  destruct (file_section t f) as [e|[lines|]] eqn:Hf.
  - apply IH. intros rel lines Hrel. apply H. now right.
  - exfalso. apply (H f lines); [now left|exact Hf].
  - apply IH. intros rel lines Hrel. apply H. now right.
Qed.

Lemma sections_In t rel lines files :
  In rel files -> file_section t rel = inr (Some lines) ->
  exists before after,
    sections t files = (before ++ lines ++ after)%list.
Proof.
  intros Hin Hsec. apply in_split in Hin as (l1 & l2 & ->).
  exists (sections t l1), (sections t l2).
  unfold sections. rewrite flat_map_app. cbn. now rewrite Hsec.
Qed.

Lemma emitted_In t rel lines files :
  In rel files -> file_section t rel = inr (Some lines) ->
  1 <= length (emitted t files).
Proof.
  intros Hin Hsec.
  assert (In rel (emitted t files)) as H.
  { unfold emitted. apply filter_In. split; [exact Hin|]. now rewrite Hsec. }
  destruct (emitted t files); [destruct H | cbn; lia].
Qed.

(** without a section for any file of the listing, the walk yields no
    document: it counts no file, or it ends with an exception *)
Lemma collect_no_files git_lines t listing header :
  (forall rel lines, In rel listing ->
                     file_section t rel <> inr (Some lines)) ->
  collect_with git_lines t (inr listing) header = inr None
  \/ exists e, collect_with git_lines t (inr listing) header = inl e.
Proof.
  intros H. unfold collect_with. rewrite walk_fold.
  destruct (walk_loop t (walk_order t listing))
    as [(e & _ & Hfold)|[_ Hfold]]; rewrite Hfold.
  - right. now exists e.
  - left. rewrite emitted_nil; [reflexivity|].
    intros rel lines Hrel. apply H.
    now apply (Permutation_in _ (walk_order_perm t listing)).
Qed.


(** **** C3: flattening twice *)

(** C3.  Take two listings of the same directory, in whatever order the
    file system gave them, and two generation times.  The walk visits the
    files in the same order, which is the order of their paths; and the two
    flattenings either both yield nothing, or yield documents that agree
    in every line except the fourth, the "Flattened:" line with the
    time. *)
Theorem flatten_twice_identical_up_to_timestamp :
  forall (t : Tree) (l1 l2 : list relpath) (now1 now2 owner repo : string),
    Permutation l1 l2 ->
    walk_order t l1 = walk_order t l2
    /\ StronglySorted (walk_le t) (walk_order t l1)
    /\ match GitHubResource.flatten_repository_to_markdown
               t (inr l1) now1 owner repo,
             GitHubResource.flatten_repository_to_markdown
               t (inr l2) now2 owner repo
       with
       | Some out1, Some out2 =>
           exists before after : list string,
             length before = 3
             /\ out1 = join nl (before ++ ("Flattened: " ++ now1)%string :: after)%list
             /\ out2 = join nl (before ++ ("Flattened: " ++ now2)%string :: after)%list
       | None, None => True
       | _, _ => False
       end.
Proof.
  intros t l1 l2 now1 now2 owner repo HP.
  pose proof (walk_order_of_permutation t l1 l2 HP) as Horder.
  split; [exact Horder|]. split; [apply walk_order_sorted|].
  unfold GitHubResource.flatten_repository_to_markdown.
  destruct (not_a_directory_or_empty t) as [e|[|]]; try exact I.
  unfold collect, collect_with. rewrite !walk_fold, <- Horder.
  destruct (walk_loop t (walk_order t l1)) as [(e & _ & Hfold)|[_ Hfold]];
    rewrite !Hfold; [exact I|].
  cbn [Nat.add].
  destruct (length (emitted t (walk_order t l1)) =? 0); [exact I|].
  exists ["# " ++ owner ++ "/" ++ repo; "";
          "Repository: https://github.com/" ++ owner ++ "/" ++ repo].
  exists ("" :: git_metadata t ++ readme_section t readme_files
             ++ sections t (walk_order t l1))%list.
  split; [reflexivity|]. cbn [app]. rewrite <- !app_assoc.
  split; reflexivity.
Qed.

(** a directory holding [README.md] and [src/main.py] *)
Definition sample_tree : Tree :=
  {| root_parts := ["/"; "tmp"; "repo"];
     root_name := "repo";
     root_str := "/tmp/repo";
     is_dir := true;
     iterdir_nonempty := inr true;
     path_exists := fun rel =>
       existsb (fun p => match path_compare p rel with Eq => true | _ => false end)
               [["README.md"]; ["src"]; ["src"; "main.py"]];
     git_remote := inl FileNotFoundError;
     is_file := fun rel =>
       inr (existsb (fun p => match path_compare p rel with
                              | Eq => true
                              | _ => false
                              end)
                    [["README.md"]; ["src"; "main.py"]]);
     st_size := fun _ => inr 12%Z;
     read_text := fun rel =>
       match rel with
       | ["README.md"] => inr "# Demo"
       | _ => inr "print(1)"
       end |}.

Lemma flatten_twice_identical_up_to_timestamp_witness :
  let l1 := [["src"; "main.py"]; ["README.md"]; ["src"]] in
  let l2 := [["src"]; ["README.md"]; ["src"; "main.py"]] in
  Permutation l1 l2
  /\ walk_order sample_tree l1
     = [["README.md"]; ["src"]; ["src"; "main.py"]]
  /\ walk_order sample_tree l1 = walk_order sample_tree l2.
Proof.
  cbv zeta.
  assert (HP : Permutation [["src"; "main.py"]; ["README.md"]; ["src"]]
                           [["src"]; ["README.md"]; ["src"; "main.py"]]).
  { apply perm_trans with [["README.md"]; ["src"; "main.py"]; ["src"]].
    - apply perm_swap.
    - apply perm_trans with [["README.md"]; ["src"]; ["src"; "main.py"]].
      + apply perm_skip, perm_swap.
      + apply perm_swap. }
  split; [exact HP|]. split; [reflexivity|].
  exact (proj1 (flatten_twice_identical_up_to_timestamp
                  sample_tree _ _ "2025-01-01 00:00:00" "2025-01-02 00:00:00"
                  "o" "r" HP)).
Defined.

(** **** C7: nothing to flatten *)

(** the README without extension is never given a section: it has no
    listed extension *)
Lemma file_section_README t lines :
  file_section t ["README"] <> inr (Some lines).
Proof.
  intros H. apply file_section_some in H as (_ & Hext & _).
  discriminate Hext.
Qed.

(** the call that reads the remote of [repo_path] *)
Definition git_remote_call (t : Tree) (r : result (Z * string))
  : GitHubDownloader.event :=
  GitHubDownloader.RunOutput
    (GitHubDownloader.git ["remote"; "get-url"; "origin"])
    (Some (GitHubDownloader.Path (root_str t))) 10 r.

Lemma git_metadata_run t w log :
  exists git_lines tr,
    GitHubDownloader.git_metadata t (GitHubDownloader.Path (root_str t)) w log
    = (inr git_lines, (log ++ tr)%list)
    /\ (tr = [] \/ exists r, tr = [git_remote_call t r]).
Proof.
  unfold GitHubDownloader.git_metadata, try_except, bind,
    GitHubDownloader.subprocess_run_output, perform, ret.
  destruct (path_exists t [".git"]).
  - cbv zeta.
    destruct (GitHubDownloader.os_run_output _ _ _ _ _) as [e|reply] eqn:E;
      eexists _, [_]; (split; [reflexivity|]); right; eexists; reflexivity.
  - exists [], []. rewrite app_nil_r. split; [reflexivity|now left].
Qed.

Lemma flatten_none_of_no_section t listing :
  (forall rel lines, In rel listing ->
                     file_section t rel <> inr (Some lines)) ->
  forall now owner repo output_path w log,
    GitHubResource.flatten_repository_to_markdown
      t (inr listing) now owner repo = None
    /\ exists tr,
        GitHubDownloader.flatten_repository_to_markdown
          t (inr listing) now output_path w log = (inr false, (log ++ tr)%list)
        /\ (tr = [] \/ exists r, tr = [git_remote_call t r]).
Proof.
  intros H now owner repo output_path w log. split.
  - unfold GitHubResource.flatten_repository_to_markdown.
    destruct (not_a_directory_or_empty t) as [e|[|]]; try reflexivity.
    unfold collect.
    destruct (collect_no_files (git_metadata t) t listing
                ["# " ++ owner ++ "/" ++ repo; "";
                 "Repository: https://github.com/" ++ owner ++ "/" ++ repo;
                 "Flattened: " ++ now; ""] H) as [E|[e E]];
      now rewrite E.
  - unfold GitHubDownloader.flatten_repository_to_markdown, try_except.
    destruct (not_a_directory_or_empty t) as [e|[|]];
      try (exists []; rewrite app_nil_r; split; [reflexivity|now left]).
    destruct (startswith (root_name t) ".");
      [exists []; rewrite app_nil_r; split; [reflexivity|now left]|].
    cbv zeta. unfold bind at 1.
    destruct (git_metadata_run t w log) as (git_lines & tr & Hrun & Htr).
    rewrite Hrun. exists tr. split; [|exact Htr].
    destruct (collect_no_files git_lines t listing
                ["# " ++ root_name t; "";
                 "Repository flattened from: `" ++ root_str t ++ "`";
                 "Generated: " ++ now; ""] H) as [E|[e E]];
      now rewrite E.
Qed.

(** a directory whose only file is [readme_name] *)
Definition readme_only (readme_name : string) : Tree :=
  {| root_parts := ["/"; "tmp"; "repo"];
     root_name := "repo";
     root_str := "/tmp/repo";
     is_dir := true;
     iterdir_nonempty := inr true;
     path_exists := fun rel =>
       match rel with
       | [n] => String.eqb n readme_name
       | _ => false
       end;
     git_remote := inl FileNotFoundError;
     is_file := fun rel =>
       match rel with
       | [n] => inr (String.eqb n readme_name)
       | _ => inr false
       end;
     st_size := fun _ => inr 14%Z;
     read_text := fun _ => inr "# Demo" |}.

(** C7, as the specification states it, at a directory that holds
    [README.md] and nothing else: the walk meets the README, whose
    extension is on the list, and the flattener returns a document. *)
Lemma flatten_readme_md_only_is_a_document :
  GitHubResource.flatten_repository_to_markdown
    (readme_only "README.md") (inr [["README.md"]])
    "2025-01-01 00:00:00" "o" "r"
  = Some (join nl ["# o/r"; "";
                   "Repository: https://github.com/o/r";
                   "Flattened: 2025-01-01 00:00:00"; "";
                   "## README"; ""; "# Demo"; "";
                   "## File: README.md"; ""; "# Demo"; ""])
  /\ GitHubResource.flatten_repository_to_markdown
       (readme_only "README.md") (inr [["README.md"]])
       "2025-01-01 00:00:00" "o" "r" <> None.
Proof. split; [reflexivity | discriminate]. Qed.

(** C7 (amended).  When the loop body appends a section for none of the
    files of the listing, both flatteners return nothing: [None] for
    [GitHubResource], and for [GitHubDownloader] [False] with no file
    written, its only call being at most the reading of the git remote.
    That is the case of a directory whose only file is the README without
    extension. *)
Theorem flatten_without_files_is_none :
  forall (t : Tree) (listing : list relpath) (now owner repo : string)
         (output_path : GitHubDownloader.path)
         (w : GitHubDownloader.World) (log : list GitHubDownloader.event),
    (forall rel lines, In rel listing ->
                       file_section t rel <> inr (Some lines))
    \/ listing = [["README"]] ->
    GitHubResource.flatten_repository_to_markdown
      t (inr listing) now owner repo = None
    /\ exists tr,
        GitHubDownloader.flatten_repository_to_markdown
          t (inr listing) now output_path w log = (inr false, (log ++ tr)%list)
        /\ (tr = [] \/ exists r, tr = [git_remote_call t r]).
Proof.
  intros t listing now owner repo output_path w log [H| ->];
    apply flatten_none_of_no_section; [exact H|].
  intros rel lines [<-|[]]. apply file_section_README.
Qed.

Lemma flatten_without_files_is_none_witness :
  GitHubResource.flatten_repository_to_markdown
    (readme_only "README") (inr [["README"]])
    "2025-01-01 00:00:00" "o" "r" = None
  /\ exists tr,
      GitHubDownloader.flatten_repository_to_markdown
        (readme_only "README") (inr [["README"]])
        "2025-01-01 00:00:00" (GitHubDownloader.Path "out/single_r.md")
        GitHubDownloaderFacts.world_subdirectory_absent []
      = (inr false, ([] ++ tr)%list)
      /\ (tr = [] \/ exists r, tr = [git_remote_call (readme_only "README") r]).
Proof.
  apply (flatten_without_files_is_none (readme_only "README") [["README"]]).
  right. reflexivity.
Defined.


(** **** C8: which files the walk passes over *)

(** a directory whose only file, [a.py], cannot be opened *)
Definition unreadable_tree : Tree :=
  {| root_parts := ["/"; "tmp"; "repo"];
     root_name := "repo";
     root_str := "/tmp/repo";
     is_dir := true;
     iterdir_nonempty := inr true;
     path_exists := fun rel => match rel with ["a.py"] => true | _ => false end;
     git_remote := inl FileNotFoundError;
     is_file := fun rel =>
       match rel with ["a.py"] => inr true | _ => inr false end;
     st_size := fun _ => inr 10%Z;
     read_text := fun _ => inl OtherException |}.

(** C8, as the specification states it, at a regular file with a listed
    extension that is small, not hidden and outside [.git], but cannot be
    read: no section is written for it. *)
Lemma unreadable_file_is_not_emitted :
  let rel := ["a.py"] in
  is_file unreadable_tree rel = inr true
  /\ mem (lower (suffix (name unreadable_tree rel))) code_extensions = true
  /\ st_size unreadable_tree rel = inr 10%Z
  /\ startswith (name unreadable_tree rel) "." = false
  /\ mem ".git" (parts unreadable_tree rel) = false
  /\ file_section unreadable_tree rel = inr None
  /\ GitHubResource.flatten_repository_to_markdown
       unreadable_tree (inr [rel]) "2025-01-01 00:00:00" "o" "r" = None.
Proof. cbv zeta. repeat split; reflexivity. Qed.

Lemma mem_In x xs : mem x xs = true <-> In x xs.
Proof.
  unfold mem. rewrite existsb_exists. split.
  - intros (y & Hy & Heq). apply String.eqb_eq in Heq. now subst.
  - intros H. exists x. split; [exact H | apply String.eqb_refl].
Qed.

(** C8 (amended).  The loop body writes no section for a file larger than
    1 MiB, for a file whose name begins with ".", for a file with a
    component [.git] in its path, for a file whose size cannot be read and
    for a file whose content cannot be read.  When the test whether a
    path of the listing is a regular file raises, the walk ends there and
    the flattener returns nothing.  Otherwise the output of the walk is
    the sections of its files, in walk order, and nothing else, and every
    other regular file with a listed extension has its section, headed
    "## File: <relative path>", in that output. *)
Theorem walk_exclusions :
  forall (t : Tree) (rel : relpath),
    (forall size, st_size t rel = inr size -> (size > size_limit)%Z ->
                  forall lines, file_section t rel <> inr (Some lines))
    /\ (startswith (name t rel) "." = true ->
        forall lines, file_section t rel <> inr (Some lines))
    /\ (In ".git" (parts t rel) ->
        forall lines, file_section t rel <> inr (Some lines))
    /\ (forall e, st_size t rel = inl e ->
                  forall lines, file_section t rel <> inr (Some lines))
    /\ (forall e, read_text t rel = inl e ->
                  forall lines, file_section t rel <> inr (Some lines))
    /\ (forall e listing,
          is_file t rel = inl e -> In rel listing ->
          (exists e', forall markdown_content,
                walk t listing markdown_content = inl e')
          /\ forall now owner repo,
              GitHubResource.flatten_repository_to_markdown
                t (inr listing) now owner repo = None)
    /\ (forall listing markdown_content,
          walkable t listing ->
          walk t listing markdown_content
          = inr ((markdown_content ++ sections t (walk_order t listing))%list,
                 length (emitted t (walk_order t listing))))
    /\ (forall size content,
          is_file t rel = inr true ->
          mem (lower (suffix (name t rel))) code_extensions = true ->
          ~ In ".git" (parts t rel) ->
          startswith (name t rel) "." = false ->
          st_size t rel = inr size -> (size <= size_limit)%Z ->
          read_text t rel = inr content ->
          exists lines,
            file_section t rel = inr (Some lines)
            /\ hd "" lines = "## File: " ++ join "/" rel
            /\ In content lines
            /\ forall listing markdown_content,
                In rel listing -> walkable t listing ->
                exists before after files_processed,
                  walk t listing markdown_content
                  = inr ((markdown_content ++ before ++ lines ++ after)%list,
                         files_processed)
                  /\ 1 <= files_processed).
Proof.
  intros t rel.
  assert (Hnot : forall lines,
            file_section t rel = inr (Some lines) ->
            is_file t rel = inr true
            /\ mem ".git" (parts t rel) = false
            /\ startswith (name t rel) "." = false
            /\ exists size content,
                st_size t rel = inr size
                /\ (size >? size_limit)%Z = false
                /\ read_text t rel = inr content).
  { intros lines H. apply file_section_some in H. tauto. }
  repeat apply conj.
  - intros size Hsize Hbig lines H.
    destruct (Hnot lines H) as (_ & _ & _ & size' & content & Hs & Hle & _).
    rewrite Hsize in Hs. injection Hs as <-.
    assert ((size >? size_limit)%Z = true) by (apply Z.gtb_lt; lia).
    congruence.
  - intros Hdot lines H.
    destruct (Hnot lines H) as (_ & _ & Hd & _). congruence.
  - intros Hgit lines H.
    destruct (Hnot lines H) as (_ & Hg & _).
    apply mem_In in Hgit. congruence.
  - intros e Hsize lines H.
    destruct (Hnot lines H) as (_ & _ & _ & size' & content & Hs & _).
    congruence.
  - intros e Hread lines H.
    destruct (Hnot lines H) as (_ & _ & _ & size' & content & _ & _ & Hr).
    congruence.
  - intros e listing Hfile Hin.
    destruct (walk_raises t listing rel e Hin Hfile) as [e' Hwalk].
    split; [now exists e'|].
    intros now owner repo.
    unfold GitHubResource.flatten_repository_to_markdown.
    destruct (not_a_directory_or_empty t) as [x|[|]]; try reflexivity.
    unfold collect, collect_with. now rewrite Hwalk.
  - intros listing md Hwalk. now apply walk_spec.
  - intros size content Hfile Hext Hgit Hdot Hsize Hsmall Hread.
    assert (Hgit' : mem ".git" (parts t rel) = false).
    { destruct (mem ".git" (parts t rel)) eqn:E; [|reflexivity].
      apply mem_In in E. contradiction. }
    assert (Hsmall' : (size >? size_limit)%Z = false).
    { destruct (size >? size_limit)%Z eqn:E; [|reflexivity].
      apply Z.gtb_lt in E. lia. }
    assert (Hsec : file_section t rel = inr (Some
              ([("## File: " ++ join "/" rel)%string; ""]
               ++ (if String.eqb (lower (suffix (name t rel))) ".md"
                   then [content]
                   else [("```" ++ match lookup (lower (suffix (name t rel)))
                                                language_map with
                                   | Some l => l
                                   | None => "text"
                                   end)%string; content; "```"])
               ++ [""])%list)).
    { unfold file_section.
      now rewrite Hfile, Hext, Hgit', Hdot, Hsize, Hsmall', Hread. }
    eexists. split; [exact Hsec|]. split; [reflexivity|]. split.
    + destruct (String.eqb _ ".md"); cbn; auto.
    + intros listing md Hin Hwalk.
      apply (Permutation_in _ (Permutation_sym (walk_order_perm t listing)))
        in Hin.
      rewrite (walk_spec t listing md Hwalk).
      destruct (sections_In t rel _ _ Hin Hsec) as (before & after & Heq).
      exists before, after, (length (emitted t (walk_order t listing))).
      split; [now rewrite Heq|].
      eapply emitted_In; eassumption.
Qed.

Lemma walk_exclusions_witness :
  let rel := ["src"; "main.py"] in
  let listing := [["src"; "main.py"]; ["README.md"]; ["src"]] in
  is_file sample_tree rel = inr true
  /\ mem (lower (suffix (name sample_tree rel))) code_extensions = true
  /\ walkable sample_tree listing
  /\ exists lines,
      file_section sample_tree rel = inr (Some lines)
      /\ hd "" lines = "## File: src/main.py"
      /\ In "print(1)" lines
      /\ exists before after files_processed,
          walk sample_tree listing []
          = inr (([] ++ before ++ lines ++ after)%list, files_processed)
          /\ 1 <= files_processed.
Proof.
  cbv zeta. split; [reflexivity|]. split; [reflexivity|].
  assert (Hwalkable :
            walkable sample_tree [["src"; "main.py"]; ["README.md"]; ["src"]])
    by (intros r _; eexists; reflexivity).
  split; [exact Hwalkable|].
  destruct (walk_exclusions sample_tree ["src"; "main.py"])
    as (_ & _ & _ & _ & _ & _ & _ & Hemit).
  destruct (Hemit 12%Z "print(1)") as (lines & Hsec & Hhd & Hin & Hwalk);
    try reflexivity.
  - cbn. intros H. repeat (destruct H as [H|H]; [discriminate|]). exact H.
  - cbv. discriminate.
  - exists lines. repeat split; try assumption.
    apply Hwalk; [now left|exact Hwalkable].
Defined.

End TreeFlattenerFacts.

(** ** Description Extractor and Gist Fetcher *)

Module GitHubResourceFacts.
Import Py Eff GitHubResource.

Lemma take_length n : forall s, String.length (take n s) <= n.
Proof.
  induction n as [|n IH]; intros [|c s]; cbn; try lia.
  specialize (IH s). lia.
Qed.

Lemma scan_readme_outside owner repo lines :
  forall readme_lines,
    (forall line, In line lines -> strip line <> "## README") ->
    scan_readme owner repo lines false readme_lines = readme_lines.
Proof.
  induction lines as [|line lines IH]; intros acc H; cbn; [reflexivity|].
  destruct (String.eqb_spec (strip line) "## README") as [E|_].
  - exfalso. apply (H line); [now left | exact E].
  - rewrite andb_false_r. apply IH. intros l Hl. apply H. now right.
Qed.

(** C6.  The extractor is a total function to strings.  Its value is
    either the fallback sentence "Repository {owner}/{repo} containing
    code and documentation files." or a text of at most 500 characters, so
    it is never more than 500 characters longer than the fallback.  It is
    the fallback whenever the first loop collects no README line (in
    particular when no line is the "## README" marker) and whenever the
    second loop keeps none of the collected lines. *)
Theorem extract_description_total_and_bounded :
  forall content owner repo : string,
    let description := extract_description_from_content content owner repo in
    let fallback :=
      "Repository " ++ owner ++ "/" ++ repo
      ++ " containing code and documentation files." in
    let readme_lines := scan_readme owner repo (split LF content) false [] in
    (description = fallback \/ String.length description <= 500)
    /\ String.length description <= String.length fallback + 500
    /\ (readme_lines = [] -> description = fallback)
    /\ (first_paragraph (firstn 10 readme_lines) [] = [] ->
        description = fallback)
    /\ ((forall line, In line (split LF content) ->
                      strip line <> "## README") ->
        description = fallback).
Proof.
  intros content owner repo description fallback readme_lines.
  assert (Hcases : description = fallback
                   \/ String.length description <= 500).
  { subst description. unfold extract_description_from_content.
    fold readme_lines.
    destruct readme_lines as [|l ls]; [now left|].
    destruct (first_paragraph _ _); [now left|].
    right. apply take_length. }
  assert (Hnone : readme_lines = [] -> description = fallback).
  { intros E. subst description.
    unfold extract_description_from_content. fold readme_lines.
    now rewrite E. }
  repeat apply conj.
  - exact Hcases.
  - destruct Hcases as [->|H]; lia.
  - exact Hnone.
  - intros E. subst description.
    unfold extract_description_from_content. fold readme_lines.
    destruct readme_lines; [reflexivity|]. now rewrite E.
  - intros H. apply Hnone. subst readme_lines.
    now apply scan_readme_outside.
Qed.

Definition sample_markdown : string :=
  join nl ["# o/r"; ""; "Repository: https://github.com/o/r"; "";
           "## README"; ""; "# r"; "A demo project."; "**License:** MIT";
           "It shows assets."; ""; "## File: a.py"; ""; "```python";
           "print(1)"; "```"; ""].

Lemma extract_description_total_and_bounded_witness :
  extract_description_from_content sample_markdown "o" "r"
  = "A demo project. It shows assets."
  /\ extract_description_from_content "# o/r" "o" "r"
     = "Repository o/r containing code and documentation files.".
Proof.
  split; [reflexivity|].
  apply (extract_description_total_and_bounded "# o/r" "o" "r").
  intros line [<-|[]]. cbv. discriminate.
Defined.


(** **** Gist Fetcher *)

(** a world that answers every request with [reply] *)
Definition world_replying (reply : result Json.value) : World :=
  {| http_get := fun _ _ _ => reply |}.

Definition sample_repr (v : Json.value) : string := "None".

Definition sample_describe (e : exn) : string := "request failed".

Definition sample_gist : Json.value :=
  Json.Dict
    [("description", Json.Str "Demo");
     ("owner", Json.Dict [("login", Json.Str "alice")]);
     ("html_url", Json.Str "https://gist.github.com/alice/abc");
     ("created_at", Json.Str "2025-01-01T00:00:00Z");
     ("updated_at", Json.Str "2025-01-02T00:00:00Z");
     ("files",
      Json.Dict
        [("a.py", Json.Dict [("content", Json.Str "print(1)");
                             ("language", Json.Str "Python")]);
         ("empty.txt", Json.Dict [("content", Json.Str "");
                                  ("language", Json.Null)]);
         ("notes.md", Json.Dict [("content", Json.Str "# Notes");
                                 ("language", Json.Str "Markdown")])])].

Example get_gist_content_sample :
  fst (get_gist_content "" sample_repr sample_describe "abc" "demo"
                        (world_replying (inr sample_gist)) [])
  = inr [[("_key", Json.Str "gist_abc");
          ("type", Json.Str "gist");
          ("content",
           Json.Str (join nl
             ["# Gist: Demo"; ""; "**Gist ID:** abc"; "**Owner:** alice";
              "**URL:** https://gist.github.com/alice/abc";
              "**Created:** 2025-01-01T00:00:00Z";
              "**Updated:** 2025-01-02T00:00:00Z"; "";
              "**Description:** Demo"; "";
              "## File: a.py"; ""; "```python"; "print(1)"; "```"; "";
              "## File: notes.md"; ""; "# Notes"; ""]));
          ("document_type", Json.Str "flattened_gist");
          ("cmfeg8drs00wz0fs60q668chq", Json.Str "Demo");
          ("cmfeg8drs00x00fs6b44bexkp", Json.Str "Demo");
          ("gist_id", Json.Str "abc");
          ("owner", Json.Str "alice");
          ("url", Json.Str "https://gist.github.com/alice/abc");
          ("created_at", Json.Str "2025-01-01T00:00:00Z");
          ("updated_at", Json.Str "2025-01-02T00:00:00Z");
          ("file_count", Json.Int 2);
          ("files", Json.List [Json.Str "a.py"; Json.Str "empty.txt";
                               Json.Str "notes.md"])]].
Proof. reflexivity. Qed.


(** whether the loop writes a section for a file: [if content:] *)
Definition has_content (file_data : Json.value) : bool :=
  match Json.get file_data "content" (Json.Str "") with
  | inr content => Json.truthy content
  | inl _ => false
  end.

(** [gist_data.get("files", {}).items()], or nothing when it raises *)
Definition files_of (gist_data : Json.value) : list (string * Json.value) :=
  match Json.get gist_data "files" (Json.Dict []) with
  | inr (Json.Dict d) => d
  | _ => []
  end.

Lemma gist_file_log filename file_data markdown_content n w log :
  snd (gist_file filename file_data markdown_content n w log) = log.
Proof.
  unfold gist_file, bind, lift.
  destruct (Json.get file_data "content" (Json.Str "")) as [e|content];
    [reflexivity|]. cbn.
  destruct (Json.truthy content); [|reflexivity].
  destruct (Json.get file_data "language" (Json.Str "")) as [e|[]];
    reflexivity.
Qed.

Lemma gist_files_log items :
  forall markdown_content n w log,
    snd (gist_files items markdown_content n w log) = log.
Proof.
  induction items as [|[filename file_data] items IH]; intros md n w log;
    cbn; [reflexivity|].
  unfold bind.
  pose proof (gist_file_log filename file_data md n w log) as H.
  destruct (gist_file filename file_data md n w log) as [[e|st] log'].
  - exact H.
  - cbn in H. subst log'. apply IH.
Qed.

Lemma gist_file_without_content filename file_data markdown_content n w log :
  has_content file_data = false ->
  gist_file filename file_data markdown_content n w log
  = (inr (markdown_content, n), log)
  \/ exists e, gist_file filename file_data markdown_content n w log
               = (inl e, log).
Proof.
  unfold has_content, gist_file, bind, lift.
  destruct (Json.get file_data "content" (Json.Str "")) as [e|content].
  - intros _. right. now exists e.
  - cbn. intros ->. now left.
Qed.

Lemma gist_files_without_content items :
  forall markdown_content n w log,
    (forall filename file_data,
        In (filename, file_data) items -> has_content file_data = false) ->
    gist_files items markdown_content n w log
    = (inr (markdown_content, n), log)
    \/ exists e, gist_files items markdown_content n w log = (inl e, log).
Proof.
  induction items as [|[filename file_data] items IH]; intros md n w log H;
    cbn; [now left|].
  unfold bind.
  destruct (gist_file_without_content filename file_data md n w log)
    as [E|[e E]]; [apply (H filename); now left| |]; rewrite E.
  - apply IH. intros f d Hin. apply (H f). now right.
  - right. now exists e.
Qed.

(** what the [try] block can do: one request, then at most one document,
    with a warning when there is none *)
Lemma gist_documents_cases github_token repr gist_id gist_name w log :
  let url := "https://api.github.com/gists/" ++ gist_id in
  let authorization :=
    if nonempty github_token then Some ("token " ++ github_token)
    else None in
  let reply := http_get w log url authorization in
  exists r entries,
    gist_documents github_token repr gist_id gist_name w log
    = (r, (log ++ HttpGet url authorization reply :: entries)%list)
    /\ (match r with
        | inr [] =>
            entries = [Log LogWarning ("No files found in gist " ++ gist_id)]
        | inr [_] => entries = []
        | inr _ => False
        | inl _ => entries = []
        end)
    /\ (forall e, reply = inl e -> r = inl e)
    /\ (forall gist_data,
          reply = inr gist_data ->
          (forall filename file_data,
              In (filename, file_data) (files_of gist_data) ->
              has_content file_data = false) ->
          r = inr [] \/ exists e, r = inl e).
Proof.
  intros url authorization reply.
  unfold gist_documents, bind, session_get, perform.
  fold url. fold authorization. fold reply.
  destruct reply as [e|gist_data].
  { exists (inl e), [].
    split; [reflexivity|]. split; [reflexivity|].
    split; [intros ? [= ->]; reflexivity | intros ? [=]]. }
  assert (Hraise : forall e : exn,
    exists (r : result (list Json.dict)) (entries : list event),
      (@inl exn (list Json.dict) e,
       (log ++ [HttpGet url authorization (inr gist_data)])%list)
      = (r, (log ++ HttpGet url authorization (inr gist_data) :: entries)%list)
      /\ match r with
         | inr [] =>
             entries = [Log LogWarning ("No files found in gist " ++ gist_id)]
         | inr [_] => entries = []
         | inr _ => False
         | inl _ => entries = []
         end
      /\ (forall e0 : exn, @inr exn Json.value gist_data = inl e0 -> r = inl e0)
      /\ (forall gist_data0 : Json.value,
             @inr exn Json.value gist_data = inr gist_data0 ->
             (forall filename file_data,
                 In (filename, file_data) (files_of gist_data0) ->
                 has_content file_data = false) ->
             r = inr [] \/ exists e0, r = inl e0)).
  { intros e. exists (inl e), []. split; [reflexivity|]. split; [reflexivity|].
    split; [intros ? [=]|]. intros ? _ _. right. now exists e. }
  destruct gist_data as [| | | | |l|d]; try (apply Hraise).
  cbn [lift Json.get].
  change (ret ?a ?w ?l) with (@inr exn _ a, l). cbn beta iota.
  destruct (Json.dict_get d "owner" (Json.Dict [])) as [| | | | |l|owner_data]
    eqn:Howner; try (apply Hraise).
  cbn [lift Json.get]. unfold ret at 1. cbn beta iota.
  destruct (Json.dict_get d "files" (Json.Dict []))
    as [| | | | |l|file_items] eqn:Hfiles;
    cbn [items lift]; unfold raise; cbn beta iota; try (apply Hraise).
  unfold ret at 1. cbn beta iota.
  match goal with
  | |- context [gist_files file_items ?md 0 w ?l] =>
      pose proof (gist_files_log file_items md 0 w l) as Hlog;
      pose proof (gist_files_without_content file_items md 0 w l) as Hnone;
      destruct (gist_files file_items md 0 w l) as [[e|[md' n]] log']
  end; cbn in Hlog; subst log'.
  { apply Hraise. }
  assert (Hfiles_of : files_of (Json.Dict d) = file_items)
    by (unfold files_of; cbn; now rewrite Hfiles).
  destruct n as [|n]; cbn [Nat.ltb Nat.leb].
  - unfold logger, observe, bind, ret. cbn beta iota zeta.
    rewrite <- app_assoc. cbn [app].
    eexists. eexists. split; [reflexivity|]. split; [reflexivity|].
    split; [intros ? [=]|]. intros ? _ _. now left.
  - destruct (Json.join_lines md') as [e|content]; cbn [lift].
    + apply Hraise.
    + unfold ret. eexists. exists []. split; [reflexivity|].
      split; [reflexivity|].
      split; [intros ? [=]|].
      intros ? [= <-] Hno. exfalso.
      rewrite Hfiles_of in Hno.
      destruct (Hnone Hno) as [E|[e E]]; discriminate.
Qed.

Definition gist_without_content : Json.value :=
  Json.Dict
    [("description", Json.Str "Demo");
     ("files",
      Json.Dict [("empty.txt", Json.Dict [("content", Json.Str "")]);
                 ("blank.md", Json.Dict [("language", Json.Str "Markdown")])])].

(** the entry written when the [try] block raises [e] *)
Definition error_entry (describe : exn -> string) (gist_id : string) (e : exn)
  : event :=
  Log LogError ("Error processing gist " ++ gist_id ++ ": " ++ describe e).

(** C5.  [get_gist_content] makes one request and then returns, never
    raises, a list of at most one document.  Whenever the [try] block
    raises, in particular when the request fails (network error, error
    status, body that is not JSON), the error is logged and the list is
    empty.  Whenever no file of the gist has content the list is empty too,
    and a warning or an error is logged. *)
Theorem get_gist_content_never_raises :
  forall (github_token : string) (repr : Json.value -> string)
         (describe : exn -> string)
         (gist_id gist_name : string) (w : World) (log : list event),
    let url := "https://api.github.com/gists/" ++ gist_id in
    let authorization :=
      if nonempty github_token then Some ("token " ++ github_token)
      else None in
    let reply := http_get w log url authorization in
    exists (docs : list Json.dict) (entries : list event),
      get_gist_content github_token repr describe gist_id gist_name w log
      = (inr docs, (log ++ HttpGet url authorization reply :: entries)%list)
      /\ length docs <= 1
      /\ (forall e log',
            gist_documents github_token repr gist_id gist_name w log
            = (inl e, log') ->
            docs = [] /\ entries = [error_entry describe gist_id e])
      /\ (forall e, reply = inl e ->
            docs = [] /\ entries = [error_entry describe gist_id e])
      /\ (forall gist_data,
            reply = inr gist_data ->
            (forall filename file_data,
                In (filename, file_data) (files_of gist_data) ->
                has_content file_data = false) ->
            docs = []
            /\ (entries = [Log LogWarning ("No files found in gist " ++ gist_id)]
                \/ exists e, entries = [error_entry describe gist_id e])).
Proof.
  intros github_token repr describe gist_id gist_name w log
         url authorization reply.
  destruct (gist_documents_cases github_token repr gist_id gist_name w log)
    as (r & entries & Hrun & Hentries & Hfail & Hnone).
  fold url authorization reply in Hrun, Hfail, Hnone.
  unfold get_gist_content, try_except. rewrite Hrun.
  destruct r as [e|docs].
  - subst entries.
    unfold logger, observe, bind, ret. cbn beta iota zeta.
    rewrite <- app_assoc. cbn [app].
    exists [], [error_entry describe gist_id e].
    split; [reflexivity|]. split; [cbn; lia|].
    split; [intros e' log' [= -> _]; now split|].
    split.
    + intros e' He'. specialize (Hfail e' He'). injection Hfail as ->.
      now split.
    + intros gist_data _ _. split; [reflexivity|]. right. now exists e.
  - exists docs, entries. split; [reflexivity|].
    destruct docs as [|d [|d' docs]]; try contradiction.
    + split; [cbn; lia|]. split; [intros e log' [=]|].
      split; [intros e He; specialize (Hfail e He); discriminate|].
      intros gist_data _ _. split; [reflexivity|]. now left.
    + split; [cbn; lia|]. split; [intros e log' [=]|].
      split; [intros e He; specialize (Hfail e He); discriminate|].
      intros gist_data Hreply Hno.
      destruct (Hnone gist_data Hreply Hno) as [[=]|[e [=]]].
Qed.

Lemma get_gist_content_never_raises_witness :
  get_gist_content "" sample_repr sample_describe "abc" "demo"
                   (world_replying (inl RequestException)) []
  = (inr [], [HttpGet "https://api.github.com/gists/abc" None
                      (inl RequestException);
              Log LogError "Error processing gist abc: request failed"])
  /\ exists docs entries,
      get_gist_content "" sample_repr sample_describe "abc" "demo"
                       (world_replying (inr gist_without_content)) []
      = (inr docs, HttpGet "https://api.github.com/gists/abc" None
                           (inr gist_without_content) :: entries)
      /\ docs = [].
Proof.
  split; [reflexivity|].
  destruct (get_gist_content_never_raises
              "" sample_repr sample_describe "abc" "demo"
              (world_replying (inr gist_without_content)) [])
    as (docs & entries & Hrun & _ & _ & _ & Hnone).
  exists docs, entries. split; [exact Hrun|].
  apply (Hnone gist_without_content eq_refl).
  intros filename file_data Hin. cbn in Hin.
  destruct Hin as [[= <- <-]|[[= <- <-]|[]]]; reflexivity.
Defined.

End GitHubResourceFacts.

(** ** Sink Provisioner and Ingestion Orchestrator *)

Module ComponentFacts.
Import Py Eff GitHubRepositoriesComponent.

(** *** Sink Provisioner *)

Definition named (table_name : string) (table : Json.dict) : bool :=
  Json.eq_str (Json.dict_get table "name" Json.Null) table_name.

Lemma eq_str_true v s : Json.eq_str v s = true -> v = Json.Str s.
Proof.
  destruct v; cbn; try discriminate.
  intros H. apply String.eqb_eq in H. now subst.
Qed.

Lemma find_named table_name tables table :
  In table tables -> named table_name table = true ->
  exists first, List.find (named table_name) tables = Some first.
Proof.
  intros Hin Hname.
  destruct (List.find (named table_name) tables) as [first|] eqn:E.
  - now exists first.
  - rewrite (find_none _ _ E table Hin) in Hname. discriminate.
Qed.

(** C9.  With [force_recreate_table] off and a table of exactly the
    configured name in the listing of the collection, [scout_table]
    returns the id of the first such table with status "existing", and
    the listing is the only call it makes: no table is created or
    deleted. *)
Theorem scout_table_existing_only_reads :
  forall (self : Component) (collection_id : string)
         (describe : exn -> string) (w : World)
         (log : list event) (tables : list Json.dict) (table : Json.dict),
    collection_id <> "" ->
    force_recreate_table self = false ->
    scoutos_get_tables w log collection_id = inr tables ->
    In table tables ->
    Json.dict_get table "name" Json.Null = Json.Str (table_name self) ->
    exists existing_table,
      List.find (named (table_name self)) tables = Some existing_table
      /\ In existing_table tables
      /\ Json.dict_get existing_table "name" Json.Null
         = Json.Str (table_name self)
      /\ scout_table self (Some collection_id) describe w log
         = (inr [("table_id", Json.dict_get existing_table "id" Json.Null);
                 ("status", Json.Str "existing")],
            (log ++ [GetTables collection_id (inr tables)])%list).
Proof.
  intros self collection_id describe w log tables table
         Hid Hforce Htables Hin Hname.
  assert (Hnamed : named (table_name self) table = true)
    by (unfold named; rewrite Hname; cbn; apply String.eqb_refl).
  destruct (find_named _ _ _ Hin Hnamed) as (first & Hfind).
  exists first.
  destruct (find_some _ _ Hfind) as (Hfirst_in & Hfirst_named).
  apply eq_str_true in Hfirst_named.
  repeat apply conj; try assumption.
  unfold scout_table. destruct collection_id as [|c cid]; [congruence|].
  unfold try_except, bind, get_tables, perform. rewrite Htables.
  fold (named (table_name self)). rewrite Hfind.
  destruct first as [|kv first]; [discriminate|].
  now rewrite Hforce.
Qed.

Definition sample_component : Component :=
  {| repositories :=
       [{| owner := "dagster-io"; repo := "hooli"; category := "official" |};
        {| owner := "slopp"; repo := "missing"; category := "user_examples" |};
        {| owner := "slopp"; repo := "dagteam"; category := "user_examples" |}];
     gists :=
       [{| id := "your_gist_id_here"; name := "placeholder" |};
        {| id := "74f9"; name := "release" |}];
     collection_name := "SEbot Dagster Github Repos and Gists";
     table_name := "GitHub Repositories and Files";
     force_recreate_table := false |}.

Definition sample_tables : list Json.dict :=
  [[("id", Json.Str "t1"); ("name", Json.Str "Other")];
   [("id", Json.Str "t2"); ("name", Json.Str "GitHub Repositories and Files")]].

Definition doc (key description : string) : Json.dict :=
  [("_key", Json.Str key); ("cmfeg8drs00x00fs6b44bexkp", Json.Str description)].

(** a world in which cloning [slopp/missing] raises and everything else
    succeeds *)
Definition sample_world : World :=
  {| scoutos_get_tables := fun _ _ => inr sample_tables;
     scoutos_delete_table := fun _ _ _ => inr Json.Null;
     scoutos_create_table := fun _ _ _ _ => inr Json.Null;
     scoutos_get_table_schema := fun _ _ _ => inr Json.Null;
     github_get_repository_content := fun _ owner repo =>
       if String.eqb repo "missing" then inl OtherException
       else inr [doc (owner ++ "/" ++ repo) "A repository."];
     github_get_gist_content := fun _ gist_id _ =>
       inr [doc ("gist_" ++ gist_id) "A gist."];
     scoutos_write_documents := fun _ _ _ _ => inr Json.Null |}.

Lemma scout_table_existing_only_reads_witness :
  scout_table sample_component (Some "c1") (fun _ => "error") sample_world []
  = (inr [("table_id", Json.Str "t2"); ("status", Json.Str "existing")],
     [GetTables "c1" (inr sample_tables)]).
Proof.
  assert (Hid : "c1" <> "") by discriminate.
  assert (Hin : In [("id", Json.Str "t2");
                    ("name", Json.Str "GitHub Repositories and Files")]
                   sample_tables) by (right; left; reflexivity).
  destruct (scout_table_existing_only_reads
              sample_component "c1" (fun _ => "error") sample_world []
              sample_tables
              [("id", Json.Str "t2");
               ("name", Json.Str "GitHub Repositories and Files")]
              Hid eq_refl eq_refl Hin eq_refl)
    as (existing_table & Hfind & _ & _ & Hrun).
  injection Hfind as <-. exact Hrun.
Defined.

(** *** Ingestion Orchestrator *)

Example github_table_fill_sample :
  github_table_fill sample_component (Some "c1") (fun _ => "error")
                    (Some [("table_id", Json.Str "t2")]) sample_world []
  = (let documents :=
       [tag "official" (doc "dagster-io/hooli" "A repository.");
        tag "user_examples" (doc "slopp/dagteam" "A repository.");
        tag "gist" (doc "gist_74f9" "A gist.")] in
     (inr [("total_documents", Json.Int 3);
           ("repositories_processed", Json.Int 2);
           ("gists_processed", Json.Int 1);
           ("total_repos", Json.Int 3);
           ("total_gists", Json.Int 2);
           ("scout_write", Json.Str "success")],
      [GetRepositoryContent "dagster-io" "hooli"
         (inr [doc "dagster-io/hooli" "A repository."]);
       GetRepositoryContent "slopp" "missing" (inl OtherException);
       Log LogError "Failed to process slopp/missing: error";
       GetRepositoryContent "slopp" "dagteam"
         (inr [doc "slopp/dagteam" "A repository."]);
       Log LogWarning "Skipping placeholder gist ID: your_gist_id_here";
       GetGistContent "74f9" "release" (inr [doc "gist_74f9" "A gist."]);
       WriteDocuments (Some "c1") (Json.Str "t2") documents (inr Json.Null)])).
Proof. reflexivity. Qed.

(** a configured source *)
Inductive source : Type :=
| RepoSource (owner repo : string)
| GistSource (gist_id gist_name : string).

Definition repo_source (c : GitHubRepoConfig) : source :=
  RepoSource (owner c) (repo c).

Definition gist_source (g : GitHubGistConfig) : source :=
  GistSource (id g) (name g).

(** the gists that are not placeholders *)
Definition real_gists (configs : list GitHubGistConfig)
  : list GitHubGistConfig :=
  filter (fun g => negb (mem (id g) placeholder_ids)) configs.

(** the sources a trace fetches, in order *)
Definition sources (tr : list event) : list source :=
  flat_map (fun e => match e with
                     | GetRepositoryContent owner repo _ =>
                         [RepoSource owner repo]
                     | GetGistContent gist_id gist_name _ =>
                         [GistSource gist_id gist_name]
                     | _ => []
                     end) tr.

(** the error entries of a trace, in order *)
Definition error_entries (tr : list event) : list string :=
  flat_map (fun e => match e with
                     | Log LogError message => [message]
                     | _ => []
                     end) tr.

(** the entries due for the fetches of a trace that raised *)
Definition failures (describe : exn -> string) (tr : list event)
  : list string :=
  flat_map (fun e => match e with
                     | GetRepositoryContent owner repo (inl x) =>
                         ["Failed to process " ++ owner ++ "/" ++ repo ++ ": "
                          ++ describe x]
                     | GetGistContent gist_id _ (inl x) =>
                         ["Failed to process gist " ++ gist_id ++ ": "
                          ++ describe x]
                     | _ => []
                     end) tr.

(** the batch writes of a trace *)
Definition writes (tr : list event) : list event :=
  filter (fun e => match e with
                   | WriteDocuments _ _ _ _ => true
                   | _ => false
                   end) tr.

(** the documents of the fetches that returned, each tagged with the
    category that goes with its source *)
Fixpoint tagged_documents (categories : list string) (tr : list event)
  : list Json.dict :=
  match tr with
  | [] => []
  | GetRepositoryContent _ _ r :: tr' | GetGistContent _ _ r :: tr' =>
      match categories with
      | c :: categories' =>
          (match r with
           | inr documents => map (tag c) documents
           | inl _ => []
           end ++ tagged_documents categories' tr')%list
      | [] => []
      end
  | _ :: tr' => tagged_documents categories tr'
  end.

(** what a loop over sources leaves in the trace *)
Record loop_trace (describe : exn -> string) (expected : list source)
       (tr : list event) : Prop := {
  loop_sources : sources tr = expected;
  loop_errors : error_entries tr = failures describe tr;
  loop_writes : writes tr = []
}.

Lemma loop_trace_nil describe : loop_trace describe [] [].
Proof. now constructor. Qed.

Lemma sources_app l1 l2 : sources (l1 ++ l2) = (sources l1 ++ sources l2)%list.
Proof. apply flat_map_app. Qed.

Lemma error_entries_app l1 l2 :
  error_entries (l1 ++ l2) = (error_entries l1 ++ error_entries l2)%list.
Proof. apply flat_map_app. Qed.

Lemma failures_app describe l1 l2 :
  failures describe (l1 ++ l2)
  = (failures describe l1 ++ failures describe l2)%list.
Proof. apply flat_map_app. Qed.

Lemma writes_app l1 l2 : writes (l1 ++ l2) = (writes l1 ++ writes l2)%list.
Proof. apply filter_app. Qed.

Lemma loop_trace_fetch describe expected tr e s :
  sources [e] = [s] ->
  error_entries [e] = [] -> writes [e] = [] ->
  forall entries,
    (error_entries entries = failures describe [e]) ->
    sources entries = [] -> failures describe entries = [] ->
    writes entries = [] ->
    loop_trace describe expected tr ->
    loop_trace describe (s :: expected) (e :: entries ++ tr)%list.
Proof.
  intros Hs He Hw entries Hent Hsent Hfent Hwent [Hsrc Herr Hwr].
  change (e :: entries ++ tr)%list with ([e] ++ entries ++ tr)%list.
  constructor.
  - rewrite !sources_app, Hs, Hsent, Hsrc. reflexivity.
  - rewrite !error_entries_app, !failures_app, He, Hent, Hfent, Herr.
    cbn [app]. reflexivity.
  - rewrite !writes_app, Hw, Hwent, Hwr. reflexivity.
Qed.

Lemma process_repositories_run describe configs :
  forall all_documents repos_processed w log,
  exists tr n,
    process_repositories describe configs all_documents repos_processed w log
    = (inr ((all_documents
             ++ tagged_documents (map category configs) tr)%list, n),
       (log ++ tr)%list)
    /\ loop_trace describe (map repo_source configs) tr.
Proof.
  induction configs as [|c configs IH]; intros docs n w log.
  - exists [], n. cbn. rewrite !app_nil_r. split; [reflexivity|].
    apply loop_trace_nil.
  - cbn [process_repositories]. unfold bind at 1.
    unfold try_except, bind, get_repository_content, perform, logger, observe.
    destruct (github_get_repository_content w log (owner c) (repo c))
      as [e|[|d documents]] eqn:Hreply; cbn [ret fst snd].
    + match goal with
      | |- context [process_repositories describe configs docs n w ?l] =>
          destruct (IH docs n w l) as (tr & n' & Hrun & Htrace)
      end.
      exists (GetRepositoryContent (owner c) (repo c) (inl e)
                :: [Log LogError ("Failed to process " ++ owner c ++ "/"
                                  ++ repo c ++ ": " ++ describe e)] ++ tr)%list,
        n'.
      rewrite Hrun. cbn [map tagged_documents app].
      rewrite <- !app_assoc. cbn [app].
      split; [reflexivity|].
      apply loop_trace_fetch
        with (entries := [Log LogError
                              ("Failed to process " ++ owner c ++ "/"
                               ++ repo c ++ ": " ++ describe e)]);
        try reflexivity.
      exact Htrace.
    + match goal with
      | |- context [process_repositories describe configs docs n w ?l] =>
          destruct (IH docs n w l) as (tr & n' & Hrun & Htrace)
      end.
      exists (GetRepositoryContent (owner c) (repo c) (inr []) :: [] ++ tr)%list,
        n'.
      rewrite Hrun. cbn [map tagged_documents app].
      rewrite <- !app_assoc. cbn [app].
      split; [reflexivity|].
      apply loop_trace_fetch with (entries := []); try reflexivity.
      exact Htrace.
    + match goal with
      | |- context [process_repositories describe configs ?ds ?m w ?l] =>
          destruct (IH ds m w l) as (tr & n' & Hrun & Htrace)
      end.
      exists (GetRepositoryContent (owner c) (repo c) (inr (d :: documents))
                :: [] ++ tr)%list, n'.
      rewrite Hrun. cbn [map tagged_documents app].
      rewrite <- !app_assoc. cbn [app].
      split; [reflexivity|].
      apply loop_trace_fetch with (entries := []); try reflexivity.
      exact Htrace.
Qed.

Lemma loop_trace_warning describe expected tr message :
  loop_trace describe expected tr ->
  loop_trace describe expected (Log LogWarning message :: tr).
Proof.
  intros [Hsrc Herr Hwr]. constructor; cbn; assumption.
Qed.

Lemma process_gists_run describe configs :
  forall all_documents gists_processed w log,
  exists tr n,
    process_gists describe configs all_documents gists_processed w log
    = (inr ((all_documents
             ++ tagged_documents
                  (map (fun _ => "gist") (real_gists configs)) tr)%list, n),
       (log ++ tr)%list)
    /\ loop_trace describe (map gist_source (real_gists configs)) tr.
Proof.
  induction configs as [|g configs IH]; intros docs n w log.
  - exists [], n. cbn. rewrite !app_nil_r. split; [reflexivity|].
    apply loop_trace_nil.
  - cbn [process_gists real_gists filter].
    destruct (mem (id g) placeholder_ids); cbn [negb].
    + unfold bind at 1. unfold logger, observe.
      match goal with
      | |- context [process_gists describe configs docs n w ?l] =>
          destruct (IH docs n w l) as (tr & n' & Hrun & Htrace)
      end.
      exists (Log LogWarning ("Skipping placeholder gist ID: " ++ id g) :: tr),
        n'.
      rewrite Hrun. fold (real_gists configs). cbn [tagged_documents].
      rewrite <- !app_assoc. cbn [app].
      split; [reflexivity|]. now apply loop_trace_warning.
    + unfold bind at 1.
      unfold try_except, bind, get_gist_content, perform, logger, observe.
      fold (real_gists configs).
      destruct (github_get_gist_content w log (id g) (name g))
        as [e|[|d documents]] eqn:Hreply; cbn [ret fst snd].
      * match goal with
        | |- context [process_gists describe configs docs n w ?l] =>
            destruct (IH docs n w l) as (tr & n' & Hrun & Htrace)
        end.
        exists (GetGistContent (id g) (name g) (inl e)
                  :: [Log LogError ("Failed to process gist " ++ id g ++ ": "
                                    ++ describe e)] ++ tr)%list, n'.
        rewrite Hrun. cbn [map tagged_documents app].
        rewrite <- !app_assoc. cbn [app].
        split; [reflexivity|].
        apply loop_trace_fetch
          with (entries := [Log LogError
                                ("Failed to process gist " ++ id g ++ ": "
                                 ++ describe e)]);
          try reflexivity.
        exact Htrace.
      * match goal with
        | |- context [process_gists describe configs docs n w ?l] =>
            destruct (IH docs n w l) as (tr & n' & Hrun & Htrace)
        end.
        exists (GetGistContent (id g) (name g) (inr []) :: [] ++ tr)%list, n'.
        rewrite Hrun. cbn [map tagged_documents app].
        rewrite <- !app_assoc. cbn [app].
        split; [reflexivity|].
        apply loop_trace_fetch with (entries := []); try reflexivity.
        exact Htrace.
      * match goal with
        | |- context [process_gists describe configs ?ds ?m w ?l] =>
            destruct (IH ds m w l) as (tr & n' & Hrun & Htrace)
        end.
        exists (GetGistContent (id g) (name g) (inr (d :: documents))
                  :: [] ++ tr)%list, n'.
        rewrite Hrun. cbn [map tagged_documents app].
        rewrite <- !app_assoc. cbn [app].
        split; [reflexivity|].
        apply loop_trace_fetch with (entries := []); try reflexivity.
        exact Htrace.
Qed.



End ComponentFacts.

(* ================================================================== *)
(** * Part III. Further properties of the code *)
(* ================================================================== *)

(** ** URL Resolver: shapes of the result *)

Module UrlResolverProperties.
Import Py UrlResolver.

(** the last character of a string *)
Fixpoint last_char (s : string) : option ascii :=
  match s with
  | EmptyString => None
  | String c EmptyString => Some c
  | String _ rest => last_char rest
  end.

Lemma split_not_nil sep s : split sep s <> [].
Proof.
  destruct s as [|c s]; cbn; [discriminate|].
  destruct (Ascii.eqb c sep); [discriminate|].
  destruct (split sep s); discriminate.
Qed.

Lemma join_split sep s : join (String sep "") (split sep s) = s.
Proof.
  unfold join. induction s as [|c s IH]; [reflexivity|].
  cbn [split]. destruct (Ascii.eqb_spec c sep) as [->|Hne].
  - pose proof (split_not_nil sep s) as Hnil.
    destruct (split sep s) as [|w ws]; [contradiction|].
    cbn [String.concat]. cbn. now rewrite <- IH.
  - pose proof (split_not_nil sep s) as Hnil.
    destruct (split sep s) as [|w ws]; [contradiction|].
    destruct ws as [|w' ws]; cbn in *; now rewrite <- IH.
Qed.

Lemma rstrip_last p s c :
  last_char (rstrip p s) = Some c -> p c = false.
Proof.
  induction s as [|d s IH]; cbn; [discriminate|].
  destruct (rstrip p s) as [|e r] eqn:E.
  - destruct (p d) eqn:Hd; cbn; [discriminate|]. now intros [= <-].
  - cbn. exact IH.
Qed.

Lemma last_char_cons d s :
  s <> "" -> last_char (String d s) = last_char s.
Proof. destruct s; [contradiction|reflexivity]. Qed.

Lemma split_last sep s :
  last (split sep s) "" = "" -> s = "" \/ last_char s = Some sep.
Proof.
  induction s as [|c s IH]; [now left|].
  cbn [split]. pose proof (split_not_nil sep s) as Hnil.
  destruct (Ascii.eqb_spec c sep) as [->|Hne].
  - destruct (split sep s) as [|w ws] eqn:E; [contradiction|].
    intros Hlast. right.
    change (last ("" :: w :: ws) "") with (last (w :: ws) "") in Hlast.
    destruct (IH Hlast) as [->|H]; [reflexivity|].
    rewrite last_char_cons; [exact H|]. intros ->. discriminate.
  - destruct (split sep s) as [|w ws] eqn:E; [contradiction|].
    destruct ws as [|w' ws]; [discriminate|].
    intros Hlast. right.
    change (last (String c w :: w' :: ws) "") with (last (w :: w' :: ws) "")
      in Hlast.
    destruct (IH Hlast) as [->|H]; [discriminate|].
    rewrite last_char_cons; [exact H|]. intros ->. discriminate.
Qed.

Lemma join_empty sep l :
  l <> [] -> join (String sep "") l = "" -> last l "" = "".
Proof.
  unfold join. destruct l as [|x [|y l]]; [contradiction| |].
  - intros _ H. exact H.
  - intros _ H. cbn in H. destruct x; discriminate.
Qed.

Lemma last_skipn {A} n (l : list A) d :
  n < length l -> last (skipn n l) d = last l d.
Proof.
  revert l. induction n as [|n IH]; intros l Hn; [reflexivity|].
  destruct l as [|x l]; [cbn in Hn; lia|].
  cbn [skipn]. rewrite IH by (cbn in Hn; lia).
  destruct l; [cbn in Hn; lia|reflexivity].
Qed.

(** the parts of a stripped path end with a segment that is not empty,
    unless the stripped path is empty *)
Lemma path_parts_last urlparse_path url parts :
  path_parts urlparse_path url = Some parts ->
  2 <= length parts -> last parts "" <> "".
Proof.
  unfold path_parts. destruct (urlparse_path url) as [path|]; [|discriminate].
  cbn. intros [= <-] Hlen Hlast.
  apply split_last in Hlast. destruct Hlast as [E|E].
  - rewrite E in Hlen. cbn in Hlen. lia.
  - unfold strip_char, strip_by in E. apply rstrip_last in E.
    now rewrite Ascii.eqb_refl in E.
Qed.

(** the two shapes of a result of [parse_github_url] *)
Lemma parse_github_url_cases :
  forall (urlparse_path : string -> option string) (url : string),
    (parse_github_url urlparse_path url = (url, None, None)
     /\ (path_parts urlparse_path url = None
         \/ exists parts,
             path_parts urlparse_path url = Some parts
             /\ (length parts < 4 \/ nth 2 parts "" <> "tree")))
    \/ (exists owner repo branch rest,
          path_parts urlparse_path url
          = Some (owner :: repo :: "tree" :: branch :: rest)
          /\ parse_github_url urlparse_path url
             = ("https://github.com/" ++ owner ++ "/" ++ repo ++ ".git",
                Some branch,
                match rest with
                | [] => None
                | _ :: _ => Some (join "/" rest)
                end)).
Proof.
  intros urlparse_path url. unfold parse_github_url.
  destruct (path_parts urlparse_path url) as [parts|] eqn:Hparts;
    [|left; split; [reflexivity|now left]].
  destruct parts as [|owner [|repo [|third [|branch rest]]]];
    try (left; split; [reflexivity|];
         right; eexists; split; [reflexivity|]; left; cbn; lia).
  cbn [length Nat.ltb Nat.leb andb nth].
  destruct (String.eqb_spec third "tree") as [->|Hne].
  - right. exists owner, repo, branch, rest. split; [reflexivity|].
    destruct rest; reflexivity.
  - left. split; [reflexivity|]. right. eexists. split; [reflexivity|].
    right. exact Hne.
Qed.

(** X1.  [parse_github_url] has two outcomes only.  When [urlparse]
    raises, when the path has fewer than four segments, or when its third
    segment is not "tree", the URL comes back unchanged with no branch and
    no subdirectory.  Otherwise the result is the canonical URL of
    segments 0 and 1 with segment 3 as branch.  So a subdirectory never
    comes without a branch. *)
Theorem parse_github_url_outcomes :
  forall (urlparse_path : string -> option string) (url : string),
    (parse_github_url urlparse_path url = (url, None, None)
     /\ (path_parts urlparse_path url = None
         \/ exists parts,
             path_parts urlparse_path url = Some parts
             /\ (length parts < 4 \/ nth 2 parts "" <> "tree")))
    \/ (exists owner repo branch rest,
          path_parts urlparse_path url
          = Some (owner :: repo :: "tree" :: branch :: rest)
          /\ parse_github_url urlparse_path url
             = ("https://github.com/" ++ owner ++ "/" ++ repo ++ ".git",
                Some branch,
                match rest with
                | [] => None
                | _ :: _ => Some (join "/" rest)
                end)).
Proof. exact parse_github_url_cases. Qed.

(** X2.A subdirectory returned by [parse_github_url] is never the empty
    string, so the test [if subdirectory:] of its callers is true exactly
    when a subdirectory is present. *)
Theorem parse_github_url_subdirectory_not_empty :
  forall (urlparse_path : string -> option string)
         (url base_url : string) (branch : option string) (sub : string),
    parse_github_url urlparse_path url = (base_url, branch, Some sub) ->
    sub <> "" /\ GitHubDownloader.truthy (Some sub) = true.
Proof.
  intros urlparse_path url base_url branch sub Hparse.
  assert (Hne : sub <> "").
  { destruct (parse_github_url_cases urlparse_path url)
      as [[E _]|(owner & repo & b & rest & Hparts & E)];
      rewrite E in Hparse; [discriminate|].
    destruct rest as [|x rest]; [discriminate|].
    injection Hparse as _ _ <-.
    intros Hempty.
    apply (path_parts_last _ _ _ Hparts); [cbn; lia|].
    rewrite <- (last_skipn 4) by (cbn; lia).
    cbn [skipn]. apply (join_empty "/"); [discriminate|exact Hempty]. }
  split; [exact Hne|]. destruct sub; [contradiction|reflexivity].
Qed.

Lemma parse_github_url_subdirectory_not_empty_witness :
  parse_github_url Urllib.path "https://github.com/o/r/tree/main/docs/"
  = ("https://github.com/o/r.git", Some "main", Some "docs")
  /\ "docs" <> "" /\ GitHubDownloader.truthy (Some "docs") = true.
Proof.
  split; [reflexivity|].
  apply (parse_github_url_subdirectory_not_empty
           Urllib.path "https://github.com/o/r/tree/main/docs/"
           "https://github.com/o/r.git" (Some "main") "docs").
  reflexivity.
Defined.

(** X3.  The result of [parse_github_url] keeps the path of the URL: when
    a subdirectory is returned, the path without its outer slashes is
    owner/repo/tree/branch/subdirectory, character for character. *)
Theorem parse_github_url_keeps_path :
  forall (urlparse_path : string -> option string)
         (url path owner repo branch : string) (rest : list string),
    urlparse_path url = Some path ->
    path_parts urlparse_path url
    = Some (owner :: repo :: "tree" :: branch :: rest) ->
    rest <> [] ->
    parse_github_url urlparse_path url
    = ("https://github.com/" ++ owner ++ "/" ++ repo ++ ".git",
       Some branch, Some (join "/" rest))
    /\ strip_char "/" path
       = owner ++ "/" ++ repo ++ "/tree/" ++ branch ++ "/" ++ join "/" rest.
Proof.
  intros urlparse_path url path owner repo branch rest Hpath Hparts Hrest.
  split.
  - rewrite (UrlResolverFacts.parse_github_url_of_parts _ _ _ _ _ _ Hparts).
    destruct rest; [contradiction|reflexivity].
  - unfold path_parts in Hparts. rewrite Hpath in Hparts. cbn in Hparts.
    injection Hparts as Hsplit.
    rewrite <- (join_split "/" (strip_char "/" path)), Hsplit.
    destruct rest as [|x rest]; [contradiction|]. reflexivity.
Qed.

Lemma parse_github_url_keeps_path_witness :
  let url := "https://github.com/o/r/tree/main/docs//api/" in
  parse_github_url Urllib.path url
  = ("https://github.com/o/r.git", Some "main", Some "docs//api")
  /\ strip_char "/" "/o/r/tree/main/docs//api/" = "o/r/tree/main/docs//api".
Proof.
  apply (parse_github_url_keeps_path
           Urllib.path "https://github.com/o/r/tree/main/docs//api/"
           "/o/r/tree/main/docs//api/" "o" "r" "main" ["docs"; ""; "api"]);
    [reflexivity | reflexivity | discriminate].
Defined.

End UrlResolverProperties.

(** ** Repository Fetcher: order of the steps, dispatch, target folders *)

Module FetcherProperties.
Import Py Eff GitHubDownloader GitHubDownloaderPaths.
Import GitHubDownloaderFacts.




(** X5.  On a URL for which [parse_github_url] returns a subdirectory,
    [clone_repository] is [clone_subdirectory] on the canonical URL, the
    branch and the subdirectory: same calls, same result, and no exception
    whatever git and the file system do. *)
Theorem clone_repository_subdirectory_url :
  forall (urlparse_path : string -> option string) (w : World)
         (log : list event) (url base_url subdirectory : string)
         (branch : option string) (target_dir : path),
    parse_github_url urlparse_path url
    = (base_url, branch, Some subdirectory) ->
    exists (b : string) (ok : bool) (tr : list event),
      branch = Some b
      /\ clone_repository urlparse_path url target_dir w log
         = clone_subdirectory base_url b subdirectory target_dir w log
      /\ clone_repository urlparse_path url target_dir w log
         = (inr ok, (log ++ tr)%list).
Proof.
  intros urlparse_path w log url base_url subdirectory branch target_dir
         Hparse.
  assert (Hne : subdirectory <> "").
  { destruct (UrlResolverProperties.parse_github_url_cases urlparse_path url)
      as [[E _]|(owner & repo & b & rest & Hparts & E)];
      unfold parse_github_url in Hparse; rewrite E in Hparse;
      [discriminate|].
    destruct rest as [|x rest]; [discriminate|].
    injection Hparse as _ _ <-.
    intros Hempty.
    apply (UrlResolverProperties.path_parts_last _ _ _ Hparts); [cbn; lia|].
    rewrite <- (UrlResolverProperties.last_skipn 4) by (cbn; lia).
    cbn [skipn].
    apply (UrlResolverProperties.join_empty "/"); [discriminate|exact Hempty]. }
  assert (Hb : exists b, branch = Some b).
  { destruct (UrlResolverProperties.parse_github_url_cases urlparse_path url)
      as [[E _]|(owner & repo & b & rest & Hparts & E)];
      unfold parse_github_url in Hparse; rewrite E in Hparse;
      [discriminate|].
    injection Hparse as _ <- _. now exists b. }
  destruct Hb as [b ->].
  destruct (clone_subdirectory_run w log base_url b subdirectory target_dir)
    as (ok & tr & Hrun & _).
  assert (Hclone :
            clone_repository urlparse_path url target_dir w log
            = clone_subdirectory base_url b subdirectory target_dir w log).
  { unfold clone_repository, try_except. rewrite Hparse.
    destruct subdirectory as [|c s]; [contradiction|]. cbn [truthy].
    cbv iota beta. rewrite Hrun. reflexivity. }
  exists b, ok, tr. split; [reflexivity|]. split; [exact Hclone|].
  now rewrite Hclone.
Qed.

Lemma clone_repository_subdirectory_url_witness :
  let url := "https://github.com/dagster-io/dagster/tree/master/examples/x" in
  parse_github_url Urllib.path url
  = ("https://github.com/dagster-io/dagster.git", Some "master",
     Some "examples/x")
  /\ exists b ok tr,
      Some "master" = Some b
      /\ clone_repository Urllib.path url (Path "out") world_subdirectory_absent []
         = clone_subdirectory "https://github.com/dagster-io/dagster.git" b
                              "examples/x" (Path "out")
                              world_subdirectory_absent []
      /\ clone_repository Urllib.path url (Path "out") world_subdirectory_absent []
         = (inr ok, ([] ++ tr)%list).
Proof.
  cbv zeta. split; [reflexivity|].
  apply (clone_repository_subdirectory_url
           Urllib.path world_subdirectory_absent []
           "https://github.com/dagster-io/dagster/tree/master/examples/x"
           "https://github.com/dagster-io/dagster.git" "examples/x"
           (Some "master") (Path "out")).
  reflexivity.
Defined.

(** the header block of [GitHubDownloader.flatten_repository_to_markdown] *)
Definition header (t : TreeFlattener.Tree) (now : string) : list string :=
  ["# " ++ TreeFlattener.root_name t;
   "";
   "Repository flattened from: `" ++ TreeFlattener.root_str t ++ "`";
   "Generated: " ++ now;
   ""].






(** *** Folder names *)

Definition no_sep (sep : ascii) (s : string) : bool :=
  Urllib.all_chars (fun c => negb (Ascii.eqb c sep)) s.

Lemma split_no_sep sep s : Forall (fun w => no_sep sep w = true) (split sep s).
Proof.
  induction s as [|c s IH]; cbn; [repeat constructor|].
  destruct (Ascii.eqb c sep) eqn:Hc.
  - constructor; [reflexivity|exact IH].
  - destruct (split sep s) as [|x xs]; [repeat constructor; cbn; now rewrite Hc|].
    inversion IH as [|? ? Hx Hxs]; subst.
    constructor; [|exact Hxs]. unfold no_sep in *. cbn. now rewrite Hc, Hx.
Qed.

Lemma split_of_no_sep sep s : no_sep sep s = true -> split sep s = [s].
Proof.
  unfold no_sep. induction s as [|c s IH]; cbn; [reflexivity|].
  intros H. apply andb_true_iff in H as [Hc Hs].
  apply negb_true_iff in Hc. rewrite Hc, (IH Hs). reflexivity.
Qed.

Lemma split_app sep x s :
  no_sep sep x = true ->
  split sep (x ++ String sep s) = x :: split sep s.
Proof.
  unfold no_sep. induction x as [|c x IH]; cbn; intros H.
  - now rewrite Ascii.eqb_refl.
  - apply andb_true_iff in H as [Hc Hx].
    apply negb_true_iff in Hc. rewrite Hc, (IH Hx). reflexivity.
Qed.

(** [sep.join(l).split(sep) == l] when no element of [l] holds [sep] *)
Lemma split_join sep l :
  l <> [] -> Forall (fun w => no_sep sep w = true) l ->
  split sep (join (String sep "") l) = l.
Proof.
  unfold join. induction l as [|x l IH]; [contradiction|].
  intros _ Hall. inversion Hall as [|? ? Hx Hl]; subst.
  destruct l as [|y l]; [now apply split_of_no_sep|].
  change (String.concat (String sep "") (x :: y :: l))
    with (x ++ String sep (String.concat (String sep "") (y :: l))).
  rewrite split_app by exact Hx. f_equal. apply IH; [discriminate|exact Hl].
Qed.

Lemma Forall_skipn {A} (P : A -> Prop) n l :
  Forall P l -> Forall P (skipn n l).
Proof.
  revert l. induction n as [|n IH]; intros l H; [exact H|].
  destruct l as [|x l]; [constructor|].
  inversion H; subst. now apply IH.
Qed.

(** X7.  For a URL with a subdirectory, [get_target_directory] names the
    folder after the last segment of the URL's path alone: that segment is
    not empty and holds no "/", and neither the branch nor the segments
    between the branch and the last one have any part in the result. *)
Theorem get_target_directory_subdirectory_url :
  forall (urlparse_path : string -> option string) (output_dir : path)
         (owner repo url o r branch : string) (rest : list string),
    UrlResolver.path_parts urlparse_path url
    = Some (o :: r :: "tree" :: branch :: rest) ->
    rest <> [] ->
    get_target_directory urlparse_path output_dir owner repo url
    = Join (base_dir output_dir owner repo) (last rest "")
    /\ last rest "" <> ""
    /\ no_sep "/" (last rest "") = true.
Proof.
  intros urlparse_path output_dir owner repo url o r branch rest Hparts Hrest.
  assert (Hall : Forall (fun w => no_sep "/" w = true) rest).
  { unfold UrlResolver.path_parts in Hparts.
    destruct (urlparse_path url) as [p|]; [|discriminate].
    cbn in Hparts. injection Hparts as Hsplit.
    change rest with (skipn 4 (o :: r :: "tree" :: branch :: rest)).
    rewrite <- Hsplit. apply Forall_skipn, split_no_sep. }
  assert (Hlast : last rest "" <> "").
  { intros Hempty.
    apply (UrlResolverProperties.path_parts_last _ _ _ Hparts); [cbn; lia|].
    rewrite <- (UrlResolverProperties.last_skipn 4)
      by (destruct rest; [contradiction|cbn; lia]).
    exact Hempty. }
  assert (Hsub : join "/" rest <> "").
  { intros Hempty. apply Hlast.
    apply (UrlResolverProperties.join_empty "/"); assumption. }
  refine (conj _ (conj Hlast _)).
  - unfold get_target_directory, parse_github_url.
    rewrite (UrlResolverFacts.parse_github_url_of_parts _ _ _ _ _ _ Hparts).
    destruct rest as [|x rest]; [contradiction|].
    destruct (join "/" (x :: rest)) as [|c s] eqn:Hjoin; [contradiction|].
    rewrite <- Hjoin, split_join; [reflexivity|discriminate|exact Hall].
  - destruct rest as [|x rest]; [contradiction|].
    apply (proj1 (Forall_forall _ _) Hall).
    apply exists_last in Hrest as (l' & a & E). rewrite E.
    rewrite last_last. apply in_or_app. right. now left.
Qed.

Lemma get_target_directory_subdirectory_url_witness :
  let url :=
    "https://github.com/dagster-io/dagster/tree/master/examples/docs_projects/project_llm_fine_tune" in
  UrlResolver.path_parts Urllib.path url
  = Some ["dagster-io"; "dagster"; "tree"; "master"; "examples";
          "docs_projects"; "project_llm_fine_tune"]
  /\ get_target_directory Urllib.path (Path "dagster_resources")
                          "dagster-io" "dagster" url
     = Join (Join (Path "dagster_resources") "official_examples")
            "project_llm_fine_tune".
Proof.
  cbv zeta. split; [reflexivity|].
  exact (proj1 (get_target_directory_subdirectory_url
                  Urllib.path (Path "dagster_resources")
                  "dagster-io" "dagster"
                  "https://github.com/dagster-io/dagster/tree/master/examples/docs_projects/project_llm_fine_tune"
                  "dagster-io" "dagster" "master"
                  ["examples"; "docs_projects"; "project_llm_fine_tune"]
                  eq_refl ltac:(discriminate))).
Defined.

(** *** Gist ids *)

Lemma prefix_lower p s :
  String.prefix p s = true -> String.prefix (lower p) (lower s) = true.
Proof.
  revert s. induction p as [|c p IH]; intros s; [destruct s; reflexivity|].
  destruct s as [|d s]; cbn; [discriminate|].
  destruct (Ascii.ascii_dec c d) as [->|Hne]; [|discriminate].
  intros H. destruct (Ascii.ascii_dec (lower_char d) (lower_char d));
    [now apply IH|contradiction].
Qed.

Lemma contains_lower needle hay :
  contains needle hay = true -> contains (lower needle) (lower hay) = true.
Proof.
  induction hay as [|d hay IH]; intros H.
  - destruct needle; [reflexivity|discriminate].
  - cbn [contains] in H. cbn [lower contains].
    apply orb_true_iff. apply orb_true_iff in H as [H|H].
    + left. exact (prefix_lower _ _ H).
    + right. exact (IH H).
Qed.

Lemma prefix_all_chars p needle hay :
  String.prefix needle hay = true ->
  Urllib.all_chars p hay = true -> Urllib.all_chars p needle = true.
Proof.
  revert hay. induction needle as [|c needle IH]; intros hay; [reflexivity|].
  destruct hay as [|d hay]; cbn; [discriminate|].
  destruct (Ascii.ascii_dec c d) as [->|Hne]; [|discriminate].
  intros H Hall. apply andb_true_iff in Hall as [Hd Hhay].
  rewrite Hd. cbn. now apply (IH hay).
Qed.

Lemma contains_all_chars p needle hay :
  contains needle hay = true ->
  Urllib.all_chars p hay = true -> Urllib.all_chars p needle = true.
Proof.
  induction hay as [|d hay IH]; intros H Hall.
  - destruct needle; [reflexivity|discriminate].
  - cbn [contains] in H. apply orb_true_iff in H as [H|H].
    + exact (prefix_all_chars p needle (String d hay) H Hall).
    + cbn in Hall. apply andb_true_iff in Hall as [_ Hhay]. now apply IH.
Qed.

(** X8.  For an input that mentions gist.github.com, [extract_gist_id]
    returns the last segment of the URL's path (the input is never taken
    for a bare id): a result is always returned when [urlparse] succeeds,
    it holds no "/", and it is the empty string exactly when the path is
    empty or made of slashes only. *)
Theorem extract_gist_id_of_url :
  forall (urlparse_path : string -> option string)
         (gist_input parsed_path : string),
    contains "gist.github.com" gist_input = true ->
    urlparse_path gist_input = Some parsed_path ->
    let gist_id := last (split "/" (strip_char "/" parsed_path)) "" in
    extract_gist_id urlparse_path gist_input = Some gist_id
    /\ no_sep "/" gist_id = true
    /\ (gist_id = "" <-> strip_char "/" parsed_path = "").
Proof.
  intros urlparse_path gist_input parsed_path Hin Hpath gist_id.
  refine (conj _ (conj _ _)).
  - unfold extract_gist_id.
    assert (Hhex : Urllib.all_chars is_hex (lower gist_input) = false).
    { destruct (Urllib.all_chars is_hex (lower gist_input)) eqn:Hall;
        [|reflexivity].
      apply contains_lower in Hin.
      pose proof (contains_all_chars _ _ _ Hin Hall) as H.
      vm_compute in H. discriminate H. }
    rewrite Hhex, andb_false_r, Hin, Hpath. cbv zeta.
    pose proof (UrlResolverProperties.split_not_nil
                  "/" (strip_char "/" parsed_path)) as Hnil.
    fold gist_id.
    destruct (split "/" (strip_char "/" parsed_path)) as [|x [|y l]] eqn:E;
      [contradiction|reflexivity|reflexivity].
  - pose proof (split_no_sep "/" (strip_char "/" parsed_path)) as Hall.
    pose proof (UrlResolverProperties.split_not_nil
                  "/" (strip_char "/" parsed_path)) as Hnil.
    subst gist_id.
    destruct (exists_last Hnil) as (l' & a & E). rewrite E in *.
    rewrite last_last. apply (proj1 (Forall_forall _ _) Hall).
    apply in_or_app. right. now left.
  - subst gist_id. split.
    + intros Hlast. apply UrlResolverProperties.split_last in Hlast.
      destruct Hlast as [E|E]; [exact E|].
      unfold strip_char, strip_by in E.
      apply UrlResolverProperties.rstrip_last in E.
      now rewrite Ascii.eqb_refl in E.
    + intros ->. reflexivity.
Qed.

Lemma extract_gist_id_of_url_witness :
  extract_gist_id
    Urllib.path
    "https://gist.github.com/cnolanminich/74f96fbfaf9e2a72f37c536ba21d597a"
  = Some "74f96fbfaf9e2a72f37c536ba21d597a"
  /\ extract_gist_id Urllib.path "https://gist.github.com/" = Some "".
Proof.
  split.
  - exact (proj1 (extract_gist_id_of_url
                    Urllib.path
                    "https://gist.github.com/cnolanminich/74f96fbfaf9e2a72f37c536ba21d597a"
                    "/cnolanminich/74f96fbfaf9e2a72f37c536ba21d597a"
                    eq_refl eq_refl)).
  - exact (proj1 (extract_gist_id_of_url
                    Urllib.path "https://gist.github.com/" "/"
                    eq_refl eq_refl)).
Defined.

End FetcherProperties.

(** ** Sink Provisioner: what [scout_table] calls, and when *)

Module ProvisionerProperties.
Import Py Eff GitHubRepositoriesComponent.
Import ComponentFacts.


(** the calls of a trace that delete a table *)
Definition deletes (tr : list event) : list event :=
  filter (fun e => match e with DeleteTable _ _ _ => true | _ => false end) tr.

(** the calls of a trace that create a table *)
Definition creates (tr : list event) : list event :=
  filter (fun e => match e with CreateTable _ _ _ _ => true | _ => false end)
         tr.


Ltac step_scout :=
  match goal with
  | |- context [scoutos_get_tables ?w ?l ?c] =>
      destruct (scoutos_get_tables w l c) as [?e|?tables] eqn:?
  | |- context [scoutos_delete_table ?w ?l ?c ?i] =>
      destruct (scoutos_delete_table w l c i) as [?e|?deleted] eqn:?
  | |- context [scoutos_create_table ?w ?l ?c ?n ?s] =>
      destruct (scoutos_create_table w l c n s) as [?e|?created] eqn:?
  | |- context [scoutos_get_table_schema ?w ?l ?c ?i] =>
      destruct (scoutos_get_table_schema w l c i) as [?e|?table_schema] eqn:?
  | |- context [created_table_id ?r] =>
      destruct (created_table_id r) as [?e|?table_id] eqn:?
  | |- context [log_columns ?r] =>
      destruct (log_columns r) as [?e|[]] eqn:?
  end; cbn beta iota zeta.

Ltac unfold_scout :=
  unfold scout_table, try_except, bind, get_tables, delete_table,
    create_table, get_table_schema, perform, logger, observe, lift, ret,
    raise;
  cbn beta iota zeta.

Lemma find_named_nonempty table_name tables :
  List.find (named table_name) tables <> Some [].
Proof.
  intros H. apply find_some in H as [_ H]. discriminate H.
Qed.

(** X9.  With [force_recreate_table] off, [scout_table] never deletes a
    table, and it creates one only after a listing of the collection in
    which no table bears the configured name; the one creation call then
    carries that name and the thirteen-column schema. *)
Theorem scout_table_creates_only_when_absent :
  forall (self : Component) (getenv_collection_id : option string)
         (describe : exn -> string) (w : World) (log : list event),
    force_recreate_table self = false ->
    exists (r : result MaterializeResult) (tr : list event),
      scout_table self getenv_collection_id describe w log
      = (r, (log ++ tr)%list)
      /\ deletes tr = []
      /\ (creates tr = []
          \/ exists collection_id tables reply,
              getenv_collection_id = Some collection_id
              /\ hd_error tr = Some (GetTables collection_id (inr tables))
              /\ (forall table, In table tables ->
                    Json.dict_get table "name" Json.Null
                    <> Json.Str (table_name self))
              /\ creates tr
                 = [CreateTable collection_id (table_name self) schema reply]).
Proof.
  intros self getenv describe w log Hforce.
  unfold scout_table.
  destruct getenv as [[|c cid]|];
    try (exists (inl ValueError), []; rewrite app_nil_r;
         split; [reflexivity|]; split; [reflexivity|]; now left).
  unfold_scout. fold (named (table_name self)).
  step_scout.
  - eexists _, [_; _]. rewrite <- app_assoc.
    split; [reflexivity|]. split; [reflexivity|]. now left.
  - destruct (List.find (named (table_name self)) tables)
      as [[|kv existing_table]|] eqn:Hfind.
    + now apply find_named_nonempty in Hfind.
    + rewrite Hforce. cbn beta iota zeta.
      eexists _, [_]. split; [reflexivity|]. split; [reflexivity|]. now left.
    + assert (Habsent : forall table, In table tables ->
                Json.dict_get table "name" Json.Null
                <> Json.Str (table_name self)).
      { intros table Hin Hname.
        pose proof (find_none _ _ Hfind table Hin) as H.
        unfold named in H. rewrite Hname in H. cbn in H.
        now rewrite String.eqb_refl in H. }
      repeat step_scout; repeat rewrite <- app_assoc; cbn [app];
        (eexists _, _; split; [reflexivity|]; split; [reflexivity|];
         right; eexists _, tables, _; split; [reflexivity|];
         split; [reflexivity|]; split; [exact Habsent|reflexivity]).
Qed.

Lemma scout_table_creates_only_when_absent_witness :
  force_recreate_table sample_component = false
  /\ exists r tr,
      scout_table sample_component (Some "c1") (fun _ => "error")
                  sample_world []
      = (r, ([] ++ tr)%list)
      /\ deletes tr = [].
Proof.
  split; [reflexivity|].
  destruct (scout_table_creates_only_when_absent
              sample_component (Some "c1") (fun _ => "error") sample_world []
              eq_refl) as (r & tr & Hrun & Hdel & _).
  now exists r, tr.
Defined.




End ProvisionerProperties.

(** ** Ingestion Orchestrator: when it fetches, what it writes, what it
    counts *)

Module OrchestratorProperties.
Import Py Eff GitHubRepositoriesComponent.
Import ComponentFacts.

(** the upstream materialization gives a table id that is set *)
Definition usable (table_event : option Json.dict) : bool :=
  match table_event with
  | Some metadata =>
      match lookup "table_id" metadata with
      | Some table_id => Json.truthy table_id
      | None => false
      end
  | None => false
  end.

(** the three early returns, each with the entry it writes and the
    result it gives *)
Definition returns_early (table_event : option Json.dict)
           (entry : event) (result : MaterializeResult) : Prop :=
  (table_event = None
   /\ entry = Log LogError
                  "No materialization found for github_scout_table asset"
   /\ result = [("error", Json.Str "missing_table_materialization")])
  \/ (exists metadata,
        table_event = Some metadata
        /\ lookup "table_id" metadata = None
        /\ entry = Log LogError "table_id not found in metadata"
        /\ result = [("error", Json.Str "table_id_missing_from_metadata")])
  \/ (exists metadata table_id,
        table_event = Some metadata
        /\ lookup "table_id" metadata = Some table_id
        /\ Json.truthy table_id = false
        /\ entry = Log LogWarning "Scout table ID not set, skipping write"
        /\ result = [("documents_processed", Json.Int 0);
                     ("scout_write", Json.Str "skipped - missing env vars")]).

Lemma github_table_fill_early :
  forall (self : Component) (getenv_collection_id : option string)
         (describe : exn -> string) (table_event : option Json.dict)
         (w : World) (log : list event),
    usable table_event = false ->
    exists (result : MaterializeResult) (entry : event),
      github_table_fill self getenv_collection_id describe table_event w log
      = (inr result, (log ++ [entry])%list)
      /\ returns_early table_event entry result.
Proof.
  intros self getenv describe table_event w log Husable.
  unfold github_table_fill, usable, returns_early in *.
  destruct table_event as [metadata|].
  - destruct (lookup "table_id" metadata) as [table_id|] eqn:Hlookup.
    + rewrite Husable. cbn [negb].
      eexists _, _. split; [reflexivity|]. right. right.
      exists metadata, table_id. now repeat split.
    + eexists _, _. split; [reflexivity|]. right. left.
      exists metadata. now repeat split.
  - eexists _, _. split; [reflexivity|]. left. now repeat split.
Qed.

(** X12.  Without a usable table id [github_table_fill] returns at once.
    It makes no call on the GitHub resource or on the sink, and of the
    entries at level error or warning it writes exactly one (the entries
    at level info that the code writes before it are not events here).
    There are three cases: no materialization of the table asset (an
    error entry, and the result holds only "error":
    "missing_table_materialization"); no [table_id] in its metadata (an
    error entry, and the result holds only "error":
    "table_id_missing_from_metadata"); a table id that is not set (a
    warning, and the result holds "documents_processed": 0 and
    "scout_write": "skipped - missing env vars").  In none of them does
    the result have an entry "total_documents". *)
Theorem github_table_fill_without_table_id :
  forall (self : Component) (getenv_collection_id : option string)
         (describe : exn -> string) (table_event : option Json.dict)
         (w : World) (log : list event),
    usable table_event = false ->
    exists (result : MaterializeResult) (entry : event),
      github_table_fill self getenv_collection_id describe table_event w log
      = (inr result, (log ++ [entry])%list)
      /\ returns_early table_event entry result
      /\ lookup "total_documents" result = None.
Proof.
  intros self getenv describe table_event w log Husable.
  destruct (github_table_fill_early self getenv describe table_event w log
                                    Husable)
    as (result & entry & Hrun & Hearly).
  exists result, entry. split; [exact Hrun|]. split; [exact Hearly|].
  destruct Hearly as [(_ & _ & ->)
                     |[(metadata & _ & _ & _ & ->)
                      |(metadata & table_id & _ & _ & _ & _ & ->)]];
    reflexivity.
Qed.

Lemma github_table_fill_without_table_id_witness :
  usable (Some [("table_id", Json.Null); ("status", Json.Str "created")])
  = false
  /\ exists result entry,
      github_table_fill
        sample_component (Some "c1") (fun _ => "error")
        (Some [("table_id", Json.Null); ("status", Json.Str "created")])
        sample_world []
      = (inr result, ([] ++ [entry])%list)
      /\ lookup "total_documents" result = None.
Proof.
  split; [reflexivity|].
  destruct (github_table_fill_without_table_id
              sample_component (Some "c1") (fun _ => "error")
              (Some [("table_id", Json.Null); ("status", Json.Str "created")])
              sample_world [] eq_refl)
    as (result & entry & Hrun & _ & Hcount).
  now exists result, entry.
Defined.

(** *** Assignment to a key, then lookup *)

Lemma dict_get_set_same d key v default :
  Json.dict_get (Json.set d key v) key default = v.
Proof.
  unfold Json.dict_get. induction d as [|[k old] d IH]; cbn.
  - now rewrite String.eqb_refl.
  - destruct (String.eqb k key) eqn:E; cbn; rewrite E; [reflexivity|exact IH].
Qed.

Lemma dict_get_set_other d key v key' default :
  key' <> key ->
  Json.dict_get (Json.set d key v) key' default = Json.dict_get d key' default.
Proof.
  intros Hne. unfold Json.dict_get.
  induction d as [|[k old] d IH]; cbn.
  - destruct (String.eqb_spec key key') as [->|_]; [contradiction|reflexivity].
  - destruct (String.eqb_spec k key) as [->|Hk]; cbn.
    + destruct (String.eqb_spec key key') as [->|_];
        [contradiction|reflexivity].
    + destruct (String.eqb k key'); [reflexivity|exact IH].
Qed.

Lemma tag_source label doc default :
  Json.dict_get (tag label doc) "source" default
  = Json.Str "github_component".
Proof. unfold tag. apply dict_get_set_same. Qed.

Lemma tag_category label doc default :
  Json.dict_get (tag label doc) "category" default = Json.Str label.
Proof.
  unfold tag. rewrite dict_get_set_other by discriminate.
  apply dict_get_set_same.
Qed.

Lemma tag_other label doc key default :
  key <> "category" -> key <> "source" ->
  Json.dict_get (tag label doc) key default = Json.dict_get doc key default.
Proof.
  intros Hc Hs. unfold tag. now rewrite !dict_get_set_other.
Qed.

(** *** Where a written document comes from *)

(** the trace holds a fetch of the source [s] that returned [documents] *)
Definition fetched_from (tr : list event) (s : source)
           (documents : list Json.dict) : Prop :=
  match s with
  | RepoSource owner repo =>
      In (GetRepositoryContent owner repo (inr documents)) tr
  | GistSource gist_id gist_name =>
      In (GetGistContent gist_id gist_name (inr documents)) tr
  end.

Lemma fetched_from_incl tr tr' s documents :
  (forall e, In e tr -> In e tr') ->
  fetched_from tr s documents -> fetched_from tr' s documents.
Proof. intros Hincl. destruct s; cbn; apply Hincl. Qed.

(** a tagged document is a document of one fetch of the trace, tagged
    with the label that goes with the source of that fetch *)
Lemma tagged_documents_fetched tr :
  forall (pairs : list (source * string)) doc,
    sources tr = map fst pairs ->
    In doc (tagged_documents (map snd pairs) tr) ->
    exists s label documents fetched,
      In (s, label) pairs
      /\ fetched_from tr s documents
      /\ In fetched documents
      /\ doc = tag label fetched.
Proof.
  induction tr as [|e tr IH]; intros pairs doc Hsrc Hin; [destruct Hin|].
  assert (Hskip :
            sources tr = map fst pairs ->
            In doc (tagged_documents (map snd pairs) tr) ->
            exists s label documents fetched,
              In (s, label) pairs
              /\ fetched_from (e :: tr) s documents
              /\ In fetched documents
              /\ doc = tag label fetched).
  { intros Hsrc' Hin'.
    destruct (IH pairs doc Hsrc' Hin')
      as (s & label & documents & fetched & Hp & Hf & Hd & ->).
    exists s, label, documents, fetched.
    repeat split; try assumption.
    eapply fetched_from_incl; [|exact Hf]. intros e' He'. now right. }
  destruct e; cbn [tagged_documents] in Hin; cbn in Hsrc;
    try (exact (Hskip Hsrc Hin));
    (destruct pairs as [|[s label] pairs]; [destruct Hin|];
     cbn [map fst snd] in Hsrc, Hin;
     injection Hsrc as Hs Hsrc;
     apply in_app_or in Hin as [Hin|Hin];
     [ destruct r as [x|documents]; [destruct Hin|];
       apply in_map_iff in Hin as (fetched & <- & Hfetched);
       exists s, label, documents, fetched;
       split; [now left|]; split; [subst s; now left|];
       split; [exact Hfetched|reflexivity]
     | destruct (IH pairs doc Hsrc Hin)
         as (s' & label' & documents & fetched & Hp & Hf & Hd & ->);
       exists s', label', documents, fetched;
       split; [now right|]; split;
       [eapply fetched_from_incl; [|exact Hf]; intros e' He'; now right|];
       split; [exact Hd|reflexivity] ]).
Qed.

(** a document as the orchestrator hands it to the sink, in a run with
    trace [tr]: it is a document that a fetch of [tr] returned for a
    configured repository or for a configured gist that is no
    placeholder, with "category" set to the category of that repository,
    or to "gist", and "source" set to "github_component" *)
Definition labelled (self : Component) (tr : list event) (doc : Json.dict)
  : Prop :=
  exists (s : source) (label : string) (documents : list Json.dict)
         (fetched : Json.dict),
    ((exists c, In c (repositories self)
                /\ s = repo_source c /\ label = category c)
     \/ (exists g, In g (gists self)
                   /\ mem (id g) placeholder_ids = false
                   /\ s = gist_source g /\ label = "gist"))
    /\ fetched_from tr s documents
    /\ In fetched documents
    /\ doc = tag label fetched
    /\ Json.dict_get doc "source" Json.Null = Json.Str "github_component"
    /\ Json.dict_get doc "category" Json.Null = Json.Str label
    /\ forall key default,
        key <> "category" -> key <> "source" ->
        Json.dict_get doc key default = Json.dict_get fetched key default.

Lemma not_in_loop describe expected tr collection_id table_id documents r :
  loop_trace describe expected tr ->
  ~ In (WriteDocuments collection_id table_id documents r) tr.
Proof.
  intros [_ _ Hwrites] Hin.
  assert (H : In (WriteDocuments collection_id table_id documents r)
                 (writes tr))
    by (unfold writes; apply filter_In; split; [exact Hin|reflexivity]).
  rewrite Hwrites in H. destruct H.
Qed.

(** X13.  [github_table_fill] returns a result, and whatever it writes to
    the sink is labelled.  Every batch passed to [write_documents] is not
    empty and goes to the collection of the environment, and each of its
    documents is a document returned by a fetch of this run, made for a
    configured repository or for a configured gist that is no
    placeholder, in which "source" has been set to "github_component" and
    "category" to the category of that repository, or to "gist" for a
    gist, whatever these keys held before; every other key reads as in
    the document that this fetch returned.  (The documents of one fetch
    are taken to be dicts built in that call, as [GitHubResource] builds
    them.) *)
Theorem github_table_fill_writes_labelled_documents :
  forall (self : Component) (getenv_collection_id : option string)
         (describe : exn -> string) (table_event : option Json.dict)
         (w : World) (log : list event),
  exists (result : MaterializeResult) (tr : list event),
    github_table_fill self getenv_collection_id describe table_event w log
    = (inr result, (log ++ tr)%list)
    /\ (forall collection_id table_id documents r,
          In (WriteDocuments collection_id table_id documents r) tr ->
          documents <> []
          /\ collection_id = getenv_collection_id
          /\ Forall (labelled self tr) documents).
Proof.
  intros self getenv describe table_event w log.
  destruct (usable table_event) eqn:Husable.
  2:{ destruct (github_table_fill_early self getenv describe table_event w log
                                        Husable)
        as (result & entry & Hrun & Hearly).
      exists result, [entry]. split; [exact Hrun|].
      intros cid tid documents r [H|[]].
      destruct Hearly as [(_ & -> & _)
                         |[(metadata & _ & _ & -> & _)
                          |(metadata & table_id & _ & _ & _ & -> & _)]];
        discriminate H. }
  unfold usable in Husable.
  destruct table_event as [metadata|]; [|discriminate].
  destruct (lookup "table_id" metadata) as [table_id|] eqn:Hlookup;
    [|discriminate].
  unfold github_table_fill. rewrite Hlookup, Husable. cbn [negb].
  unfold bind at 1.
  destruct (process_repositories_run describe (repositories self) [] 0 w log)
    as (tr_repos & n_repos & Hrepos & Hloop_repos).
  rewrite Hrepos. cbn [app].
  unfold bind at 1.
  destruct (process_gists_run
              describe (gists self)
              (tagged_documents (map category (repositories self)) tr_repos)
              0 w (log ++ tr_repos)%list)
    as (tr_gists & n_gists & Hgists & Hloop_gists).
  rewrite Hgists.
  remember
    (tagged_documents (map category (repositories self)) tr_repos
     ++ tagged_documents
          (map (fun _ => "gist") (real_gists (gists self))) tr_gists)%list
    as all_documents eqn:Hdocs.
  assert (Hlabelled : forall tr,
            (forall e, In e (tr_repos ++ tr_gists)%list -> In e tr) ->
            Forall (labelled self tr) all_documents).
  { intros tr Hincl. apply Forall_forall. intros doc Hin.
    rewrite Hdocs in Hin. apply in_app_or in Hin as [Hin|Hin].
    - destruct (tagged_documents_fetched
                  tr_repos
                  (map (fun c => (repo_source c, category c))
                       (repositories self)) doc)
        as (s & label & documents & fetched & Hp & Hf & Hd & ->).
      + rewrite map_map. cbn [fst]. apply (loop_sources _ _ _ Hloop_repos).
      + rewrite map_map. cbn [snd]. exact Hin.
      + apply in_map_iff in Hp as (c & Hc & Hin_c).
        injection Hc as <- <-.
        exists (repo_source c), (category c), documents, fetched.
        split; [left; exists c; now repeat split|].
        split; [eapply fetched_from_incl; [|exact Hf];
                intros e He; apply Hincl, in_or_app; now left|].
        split; [exact Hd|]. split; [reflexivity|].
        split; [apply tag_source|]. split; [apply tag_category|].
        intros key default. apply tag_other.
    - destruct (tagged_documents_fetched
                  tr_gists
                  (map (fun g => (gist_source g, "gist"))
                       (real_gists (gists self))) doc)
        as (s & label & documents & fetched & Hp & Hf & Hd & ->).
      + rewrite map_map. cbn [fst]. apply (loop_sources _ _ _ Hloop_gists).
      + rewrite map_map. cbn [snd]. exact Hin.
      + apply in_map_iff in Hp as (g & Hg & Hin_g).
        injection Hg as <- <-.
        apply filter_In in Hin_g as (Hin_g & Hreal).
        apply negb_true_iff in Hreal.
        exists (gist_source g), "gist", documents, fetched.
        split; [right; exists g; now repeat split|].
        split; [eapply fetched_from_incl; [|exact Hf];
                intros e He; apply Hincl, in_or_app; now right|].
        split; [exact Hd|]. split; [reflexivity|].
        split; [apply tag_source|]. split; [apply tag_category|].
        intros key default. apply tag_other. }
  clear Hrepos Hgists Hdocs.
  assert (Hloops : forall cid tid documents r,
            ~ In (WriteDocuments cid tid documents r) (tr_repos ++ tr_gists)).
  { intros cid tid documents r Hin.
    apply in_app_or in Hin as [Hin|Hin];
      eapply not_in_loop in Hin; eassumption. }
  assert (Hincl : forall rest e,
            In e (tr_repos ++ tr_gists)%list ->
            In e (tr_repos ++ tr_gists ++ rest)%list).
  { intros rest e He. rewrite app_assoc. apply in_or_app. now left. }
  unfold try_except, bind, lift, logger, observe, write_documents, perform,
    ret, raise.
  destruct all_documents as [|d ds]; cbn beta iota zeta.
  - eexists _, (tr_repos ++ tr_gists ++ [_])%list.
    rewrite <- !app_assoc. split; [reflexivity|].
    intros cid tid documents r Hin. rewrite app_assoc in Hin.
    apply in_app_or in Hin as [Hin|[Hin|[]]];
      [now apply Hloops in Hin|discriminate Hin].
  - destruct (log_sample (d :: ds)) as [e|[]]; cbn beta iota zeta.
    + eexists _, (tr_repos ++ tr_gists ++ [_])%list.
      rewrite <- !app_assoc. split; [reflexivity|].
      intros cid tid documents r Hin. rewrite app_assoc in Hin.
      apply in_app_or in Hin as [Hin|[Hin|[]]];
        [now apply Hloops in Hin|discriminate Hin].
    + destruct (scoutos_write_documents
                  w ((log ++ tr_repos) ++ tr_gists)%list getenv table_id
                  (d :: ds)) as [e|reply]; cbn beta iota zeta.
      * eexists _, (tr_repos ++ tr_gists ++ [_; _])%list.
        rewrite <- !app_assoc. split; [reflexivity|].
        intros cid tid documents r Hin. rewrite app_assoc in Hin.
        apply in_app_or in Hin as [Hin|[Hin|[Hin|[]]]];
          [now apply Hloops in Hin| |discriminate Hin].
        injection Hin as <- <- <- <-.
        split; [discriminate|]. split; [reflexivity|].
        apply Hlabelled, Hincl.
      * eexists _, (tr_repos ++ tr_gists ++ [_])%list.
        rewrite <- !app_assoc. split; [reflexivity|].
        intros cid tid documents r Hin. rewrite app_assoc in Hin.
        apply in_app_or in Hin as [Hin|[Hin|[]]];
          [now apply Hloops in Hin|].
        injection Hin as <- <- <- <-.
        split; [discriminate|]. split; [reflexivity|].
        apply Hlabelled, Hincl.
Qed.

(** *** Counters *)

Lemma process_repositories_count describe configs :
  forall all_documents repos_processed w log,
  exists documents n log',
    process_repositories describe configs all_documents repos_processed w log
    = (inr (documents, n), log')
    /\ repos_processed <= n
    /\ n <= repos_processed + length configs
    /\ length all_documents + (n - repos_processed) <= length documents.
Proof.
  induction configs as [|c configs IH]; intros docs n w log.
  - exists docs, n, log. cbn. repeat split; lia.
  - cbn [process_repositories]. unfold bind at 1.
    unfold try_except, bind, get_repository_content, perform, logger, observe.
    destruct (github_get_repository_content w log (owner c) (repo c))
      as [e|[|d documents]]; cbn [ret fst snd];
      match goal with
      | |- context [process_repositories describe configs ?ds ?m w ?l] =>
          destruct (IH ds m w l) as (docs' & n' & log' & Hrun & H1 & H2 & H3)
      end;
      exists docs', n', log'; (split; [exact Hrun|]);
      try rewrite length_app in H3; cbn [length map] in *;
      repeat split; lia.
Qed.

Lemma process_gists_count describe configs :
  forall all_documents gists_processed w log,
  exists documents n log',
    process_gists describe configs all_documents gists_processed w log
    = (inr (documents, n), log')
    /\ gists_processed <= n
    /\ n <= gists_processed + length (real_gists configs)
    /\ length all_documents + (n - gists_processed) <= length documents.
Proof.
  induction configs as [|g configs IH]; intros docs n w log.
  - exists docs, n, log. cbn. repeat split; lia.
  - cbn [process_gists real_gists filter]. fold (real_gists configs).
    destruct (mem (id g) placeholder_ids); cbn [negb].
    + unfold bind at 1. unfold logger, observe.
      match goal with
      | |- context [process_gists describe configs ?ds ?m w ?l] =>
          destruct (IH ds m w l) as (docs' & n' & log' & Hrun & H1 & H2 & H3)
      end.
      exists docs', n', log'. split; [exact Hrun|]. repeat split; lia.
    + unfold bind at 1.
      unfold try_except, bind, get_gist_content, perform, logger, observe.
      destruct (github_get_gist_content w log (id g) (name g))
        as [e|[|d documents]]; cbn [ret fst snd];
        match goal with
        | |- context [process_gists describe configs ?ds ?m w ?l] =>
            destruct (IH ds m w l) as (docs' & n' & log' & Hrun & H1 & H2 & H3)
        end;
        exists docs', n', log'; (split; [exact Hrun|]);
        try rewrite length_app in H3; cbn [length map] in *;
        repeat split; lia.
Qed.

(** X14.  The counters that [github_table_fill] reports are consistent:
    once the table id is known, the result gives the number of documents
    gathered, of repositories and of gists that yielded documents; no
    more repositories are counted than are configured, no more gists than
    are configured and are not placeholders, and every counted source
    stands for at least one document.  The write is skipped for lack of
    documents exactly when that number is 0. *)
Theorem github_table_fill_counters :
  forall (self : Component) (getenv_collection_id : option string)
         (describe : exn -> string) (metadata : Json.dict)
         (table_id : Json.value) (w : World) (log : list event),
    lookup "table_id" metadata = Some table_id ->
    Json.truthy table_id = true ->
    exists (result : MaterializeResult) (log' : list event)
           (total_documents repositories_processed gists_processed : nat),
      github_table_fill self getenv_collection_id describe (Some metadata)
                        w log
      = (inr result, log')
      /\ lookup "total_documents" result = Some (count total_documents)
      /\ lookup "repositories_processed" result
         = Some (count repositories_processed)
      /\ lookup "gists_processed" result = Some (count gists_processed)
      /\ repositories_processed <= length (repositories self)
      /\ gists_processed <= length (real_gists (gists self))
      /\ repositories_processed + gists_processed <= total_documents
      /\ (total_documents = 0
          <-> lookup "scout_write" result
              = Some (Json.Str "skipped - no documents")).
Proof.
  intros self getenv describe metadata table_id w log Hlookup Htruthy.
  unfold github_table_fill. rewrite Hlookup, Htruthy. cbn [negb].
  unfold bind at 1.
  destruct (process_repositories_count describe (repositories self) [] 0 w log)
    as (docs1 & n1 & log1 & Hrepos & _ & Hn1 & Hd1).
  rewrite Hrepos.
  unfold bind at 1.
  destruct (process_gists_count describe (gists self) docs1 0 w log1)
    as (docs2 & n2 & log2 & Hgists & _ & Hn2 & Hd2).
  rewrite Hgists. clear Hrepos Hgists.
  cbn [length] in *.
  unfold try_except, bind, lift, logger, observe, write_documents, perform,
    ret, raise.
  destruct docs2 as [|d ds]; cbn beta iota zeta.
  - eexists _, _, 0, n1, n2. split; [reflexivity|].
    cbn [length] in Hd2.
    do 6 (split; [first [reflexivity|lia]|]). split; reflexivity.
  - assert (Hpos : S (length ds) = 0 <-> False) by (split; [lia|tauto]).
    destruct (log_sample (d :: ds)) as [e|[]]; cbn beta iota zeta.
    + eexists _, _, (length (d :: ds)), n1, n2. split; [reflexivity|].
      cbn [length] in *.
      do 6 (split; [first [reflexivity|lia]|]).
      split; [lia|intros H; cbn in H; discriminate H].
    + destruct (scoutos_write_documents w log2 getenv table_id (d :: ds))
        as [e|reply]; cbn beta iota zeta;
        (eexists _, _, (length (d :: ds)), n1, n2; split; [reflexivity|];
         cbn [length] in *;
         do 6 (split; [first [reflexivity|lia]|]);
         split; [lia|intros H; cbn in H; discriminate H]).
Qed.

Lemma github_table_fill_counters_witness :
  exists result log' total_documents repositories_processed gists_processed,
    github_table_fill sample_component (Some "c1") (fun _ => "error")
                      (Some [("table_id", Json.Str "t2")]) sample_world []
    = (inr result, log')
    /\ lookup "total_documents" result = Some (count total_documents)
    /\ repositories_processed + gists_processed <= total_documents.
Proof.
  destruct (github_table_fill_counters
              sample_component (Some "c1") (fun _ => "error")
              [("table_id", Json.Str "t2")] (Json.Str "t2")
              sample_world [] eq_refl eq_refl)
    as (result & log' & n_docs & n_repos & n_gists
        & Hrun & Hdocs & _ & _ & _ & _ & Hsum & _).
  exists result, log', n_docs, n_repos, n_gists.
  split; [exact Hrun|]. split; [exact Hdocs|exact Hsum].
Defined.

End OrchestratorProperties.

(** ** Tree Flattener: which README is taken *)

Module FlattenerProperties.
Import Py TreeFlattener.

(** a README candidate that the flattener passes over: it does not exist,
    or reading it raises *)
Definition passed_over (t : Tree) (readme_name : string) : Prop :=
  path_exists t [readme_name] = false
  \/ exists e, read_text t [readme_name] = inl e.

Lemma readme_section_cases t names :
  (readme_section t names = []
   /\ forall readme_name, In readme_name names -> passed_over t readme_name)
  \/ exists before readme_name after readme_content,
      names = (before ++ readme_name :: after)%list
      /\ (forall earlier, In earlier before -> passed_over t earlier)
      /\ path_exists t [readme_name] = true
      /\ read_text t [readme_name] = inr readme_content
      /\ readme_section t names = ["## README"; ""; readme_content; ""].
Proof.
  induction names as [|n names IH]; [left; split; [reflexivity|intros ? []]|].
  cbn [readme_section].
  destruct (path_exists t [n]) eqn:Hexists.
  - destruct (read_text t [n]) as [e|content] eqn:Hread.
    + destruct IH as [[Hnone Hall]|(before & m & after & c & -> & Hb & He & Hr & Hs)].
      * left. split; [exact Hnone|].
        intros m [<-|Hin]; [right; now exists e|now apply Hall].
      * right. exists (n :: before), m, after, c.
        split; [reflexivity|]. split; [|now repeat split].
        intros m' [<-|Hin]; [right; now exists e|now apply Hb].
    + right. exists [], n, names, content.
      split; [reflexivity|]. split; [intros ? []|]. now repeat split.
  - destruct IH as [[Hnone Hall]|(before & m & after & c & -> & Hb & He & Hr & Hs)].
    + left. split; [exact Hnone|].
      intros m [<-|Hin]; [now left|now apply Hall].
    + right. exists (n :: before), m, after, c.
      split; [reflexivity|]. split; [|now repeat split].
      intros m' [<-|Hin]; [now left|now apply Hb].
Qed.

(** X15.  Both flatteners take the README from the first of README.md,
    readme.md, README.txt and README that exists and can be read: a
    candidate that exists but cannot be read does not end the search, later
    candidates are ignored once one is taken, so that the document has at
    most one README section; when every candidate is missing or
    unreadable there is none. *)
Theorem readme_is_first_readable_candidate :
  forall (t : Tree),
    (readme_section t readme_files = []
     /\ forall readme_name,
         In readme_name ["README.md"; "readme.md"; "README.txt"; "README"] ->
         passed_over t readme_name)
    \/ exists before readme_name after readme_content,
        ["README.md"; "readme.md"; "README.txt"; "README"]
        = (before ++ readme_name :: after)%list
        /\ (forall earlier, In earlier before -> passed_over t earlier)
        /\ path_exists t [readme_name] = true
        /\ read_text t [readme_name] = inr readme_content
        /\ readme_section t readme_files
           = ["## README"; ""; readme_content; ""].
Proof. intros t. exact (readme_section_cases t readme_files). Qed.

End FlattenerProperties.

(** ** Description Extractor and Gist Fetcher: shape of the results *)

Module ResourceProperties.
Import Py Eff GitHubResource.
Import GitHubResourceFacts.





















(** *** The gist document *)

Lemma gist_file_count filename file_data markdown_content n w log
      markdown_content' n' log' :
  gist_file filename file_data markdown_content n w log
  = (inr (markdown_content', n'), log') ->
  n' = n + (if has_content file_data then 1 else 0).
Proof.
  unfold has_content, gist_file, bind, lift, ret, raise.
  destruct (Json.get file_data "content" (Json.Str "")) as [e|content];
    [discriminate|].
  destruct (Json.truthy content).
  - destruct (Json.get file_data "language" (Json.Str "")) as [e|[]];
      try discriminate.
    intros [= _ <- _]. lia.
  - intros [= _ <- _]. lia.
Qed.

Lemma gist_files_count items :
  forall markdown_content n w log markdown_content' n' log',
    gist_files items markdown_content n w log
    = (inr (markdown_content', n'), log') ->
    n' = n + length (filter (fun kv => has_content (snd kv)) items).
Proof.
  induction items as [|[filename file_data] items IH];
    intros md n w log md' n' log'; cbn [gist_files filter snd].
  - intros [= _ <- _]. cbn. lia.
  - unfold bind at 1.
    destruct (gist_file filename file_data md n w log) as [[e|[md1 n1]] log1]
      eqn:Hfile; [discriminate|].
    apply gist_file_count in Hfile. cbn [fst snd]. intros Hrest.
    apply IH in Hrest. subst n1.
    destruct (has_content file_data); cbn [length]; lia.
Qed.

(** the files of a gist for which the loop writes a section *)
Definition files_with_content (gist_data : Json.value)
  : list (string * Json.value) :=
  filter (fun kv => has_content (snd kv)) (files_of gist_data).

(** X17.  When [get_gist_content] returns a document, the request has
    succeeded and the document describes the gist it asked for: its key
    is "gist_" followed by the id, its type is "gist", [file_count] is
    the number of files of the reply that have content, which is at least
    one, and [files] names every file of the reply, with or without
    content, in the order of the reply. *)
Theorem get_gist_content_document :
  forall (github_token : string) (repr : Json.value -> string)
         (describe : exn -> string)
         (gist_id gist_name : string) (w : World) (log log' : list event)
         (doc : Json.dict) (docs : list Json.dict),
    get_gist_content github_token repr describe gist_id gist_name w log
    = (inr (doc :: docs), log') ->
    exists gist_data,
      http_get w log ("https://api.github.com/gists/" ++ gist_id)
               (if nonempty github_token then Some ("token " ++ github_token)
                else None)
      = inr gist_data
      /\ docs = []
      /\ Json.dict_get doc "_key" Json.Null = Json.Str ("gist_" ++ gist_id)
      /\ Json.dict_get doc "type" Json.Null = Json.Str "gist"
      /\ Json.dict_get doc "gist_id" Json.Null = Json.Str gist_id
      /\ Json.dict_get doc "file_count" Json.Null
         = Json.Int (Z.of_nat (length (files_with_content gist_data)))
      /\ 1 <= length (files_with_content gist_data)
      /\ Json.dict_get doc "files" Json.Null
         = Json.List (map (fun kv => Json.Str (fst kv)) (files_of gist_data)).
Proof.
  intros github_token repr describe gist_id gist_name w log log' doc docs.
  unfold get_gist_content, try_except.
  destruct (gist_documents github_token repr gist_id gist_name w log)
    as [[e|documents] log1] eqn:Hrun; [discriminate|].
  intros [= -> ->]. revert Hrun.
  unfold gist_documents, bind, session_get, perform.
  cbv zeta.
  destruct (http_get w log _ _) as [e|gist_data]; [discriminate|].
  destruct gist_data as [| | | | |l|d]; try discriminate.
  cbn [lift Json.get].
  change (ret ?a ?w ?l) with (@inr exn _ a, l). cbn beta iota.
  destruct (Json.dict_get d "owner" (Json.Dict [])) as [| | | | |l|owner_data]
    eqn:Howner; try discriminate.
  cbn [lift Json.get]. unfold ret at 1. cbn beta iota.
  destruct (Json.dict_get d "files" (Json.Dict []))
    as [| | | | |l|file_items] eqn:Hfiles;
    cbn [items lift]; unfold raise; cbn beta iota; try discriminate.
  unfold ret at 1. cbn beta iota.
  match goal with
  | |- context [gist_files file_items ?md 0 w ?l] =>
      pose proof (gist_files_count file_items md 0 w l) as Hcount;
      destruct (gist_files file_items md 0 w l) as [[e|[md' n]] log2]
  end; [discriminate|].
  specialize (Hcount md' n log2 eq_refl). cbn [Nat.add] in Hcount.
  assert (Hfiles_of : files_of (Json.Dict d) = file_items)
    by (unfold files_of; cbn; now rewrite Hfiles).
  destruct n as [|n]; cbn [Nat.ltb Nat.leb].
  - unfold logger, observe, bind, ret. cbn beta iota zeta. discriminate.
  - destruct (Json.join_lines md') as [e|content]; cbn [lift];
      [discriminate|].
    unfold ret. intros [= <- <- _].
    exists (Json.Dict d). unfold files_with_content. rewrite Hfiles_of.
    rewrite <- Hcount.
    repeat (split; [reflexivity|]). split; [lia|reflexivity].
Qed.

Lemma get_gist_content_document_witness :
  exists doc gist_data,
    http_get (world_replying (inr sample_gist)) []
             "https://api.github.com/gists/abc" None
    = inr gist_data
    /\ Json.dict_get doc "file_count" Json.Null
       = Json.Int (Z.of_nat (length (files_with_content gist_data)))
    /\ Json.dict_get doc "files" Json.Null
       = Json.List [Json.Str "a.py"; Json.Str "empty.txt"; Json.Str "notes.md"].
Proof.
  destruct (get_gist_content "" sample_repr sample_describe "abc" "demo"
                             (world_replying (inr sample_gist)) [])
    as [[e|[|doc docs]] log'] eqn:Hrun; try (vm_compute in Hrun; discriminate).
  destruct (get_gist_content_document
              "" sample_repr sample_describe "abc" "demo"
              (world_replying (inr sample_gist)) [] log' doc docs Hrun)
    as (gist_data & Hreply & _ & _ & _ & _ & Hcount & _ & Hfiles).
  exists doc, gist_data. split; [exact Hreply|]. split; [exact Hcount|].
  rewrite Hfiles. cbn in Hreply. injection Hreply as <-. reflexivity.
Defined.

End ResourceProperties.

(** ** Sink: [ScoutosResource] and the collection asset *)

Module SinkProperties.
Import Py Eff.



(** X19.  [ScoutosResource.get_tables] makes one GET on the tables URL of
    the collection.  From a reply that is a JSON object it returns the
    entry "data", or an empty list when there is none; a reply of any
    other kind is returned as it is.  A failure is raised again as it
    is, and logged exactly when it is a [RequestException]. *)
Theorem get_tables_reply :
  forall (api_key : string) (describe : exn -> string)
         (collection_id : string)
         (w : ScoutosResource.World) (log : list ScoutosResource.event),
    let url :=
      "https://api.scoutos.com/v2/collections/" ++ collection_id
      ++ "/tables" in
    let reply :=
      ScoutosResource.http w log ScoutosResource.GET url None
                           ("Bearer " ++ api_key) in
    let call :=
      ScoutosResource.Request ScoutosResource.GET url None
                              ("Bearer " ++ api_key) reply in
    ScoutosResource.get_tables api_key describe collection_id w log
    = match reply with
      | inr (Json.Dict d) =>
          (inr match lookup "data" d with
               | Some data => data
               | None => Json.List []
               end,
           (log ++ [call])%list)
      | inr other => (inr other, (log ++ [call])%list)
      | inl RequestException =>
          (inl RequestException,
           (log ++ [call;
                    ScoutosResource.Log
                      LogError
                      ("Error getting tables: "
                       ++ describe RequestException)])%list)
      | inl e => (inl e, (log ++ [call])%list)
      end.
Proof.
  intros api_key describe collection_id w log url reply call.
  unfold ScoutosResource.get_tables, try_except, bind,
    ScoutosResource.request, perform, ret.
  cbv zeta. fold url. unfold ScoutosResource.authorization. fold reply.
  fold call.
  destruct reply as [e|value].
  - unfold ScoutosResource.on_request_exception.
    destruct e; try reflexivity.
    unfold bind, ScoutosResource.logger, observe, raise. cbv zeta.
    now rewrite <- app_assoc.
  - destruct value; reflexivity.
Qed.

(** *** The collection asset *)

Definition named_collection (self : GitHubRepositoriesComponent.Component)
           (collection : Json.dict) : bool :=
  Json.eq_str (Json.dict_get collection "name" Json.Null)
              (GitHubRepositoriesComponent.collection_name self).

Definition collection_error (describe : exn -> string) (e : exn)
  : CollectionAsset.event :=
  CollectionAsset.Log LogError
                      ("Error managing GitHub collection: " ++ describe e).

(** X20.  [scout_collection] lists the collections first and creates one
    only if none of those listed bears the configured name; otherwise it
    returns the id of the first that does, with status "existing", after
    that one call.  A creation carries the configured name and
    description, and the id returned is the entry "id" of its reply.
    Every failure is logged once and raised again. *)
Theorem scout_collection_creates_only_when_absent :
  forall (self : GitHubRepositoriesComponent.Component)
         (collection_description : string) (describe : exn -> string)
         (w : CollectionAsset.World) (log : list CollectionAsset.event),
    let listing := CollectionAsset.scoutos_get_collections w log in
    exists (r : result Json.dict) (rest : list CollectionAsset.event),
      CollectionAsset.scout_collection self collection_description describe
                                       w log
      = (r, (log ++ CollectionAsset.GetCollections listing :: rest)%list)
      /\ match listing with
         | inl e => r = inl e /\ rest = [collection_error describe e]
         | inr collections =>
             match List.find (named_collection self) collections with
             | Some existing_collection =>
                 rest = []
                 /\ r = inr [("collection_id",
                              Json.dict_get existing_collection "id" Json.Null);
                             ("status", Json.Str "existing")]
             | None =>
                 exists reply,
                   (forall collection, In collection collections ->
                      Json.dict_get collection "name" Json.Null
                      <> Json.Str
                           (GitHubRepositoriesComponent.collection_name self))
                   /\ hd_error rest
                      = Some (CollectionAsset.CreateCollection
                                (GitHubRepositoriesComponent.collection_name
                                   self)
                                collection_description reply)
                   /\ match r with
                      | inr result =>
                          rest = [CollectionAsset.CreateCollection
                                    (GitHubRepositoriesComponent.collection_name
                                       self)
                                    collection_description reply]
                          /\ exists created collection_id,
                              reply = inr created
                              /\ Json.get created "id" Json.Null
                                 = inr collection_id
                              /\ result = [("collection_id", collection_id);
                                           ("status", Json.Str "created")]
                      | inl e =>
                          rest = [CollectionAsset.CreateCollection
                                    (GitHubRepositoriesComponent.collection_name
                                       self)
                                    collection_description reply;
                                  collection_error describe e]
                      end
             end
         end.
Proof.
  intros self collection_description describe w log listing.
  unfold CollectionAsset.scout_collection, try_except, bind,
    CollectionAsset.get_collections, CollectionAsset.create_collection,
    perform, CollectionAsset.logger, observe, CollectionAsset.lift, ret,
    raise.
  cbv zeta. fold listing. fold (named_collection self).
  destruct listing as [e|collections].
  - eexists _, _. rewrite <- app_assoc. split; [reflexivity|].
    split; reflexivity.
  - destruct (List.find (named_collection self) collections)
      as [[|kv existing_collection]|] eqn:Hfind.
    + apply find_some in Hfind as [_ H]. discriminate H.
    + eexists _, []. split; [reflexivity|]. split; reflexivity.
    + assert (Habsent : forall collection, In collection collections ->
                Json.dict_get collection "name" Json.Null
                <> Json.Str (GitHubRepositoriesComponent.collection_name self)).
      { intros collection Hin Hname.
        pose proof (find_none _ _ Hfind collection Hin) as H.
        unfold named_collection in H. rewrite Hname in H. cbn in H.
        now rewrite String.eqb_refl in H. }
      match goal with
      | |- context [CollectionAsset.scoutos_create_collection ?w ?l ?n ?d] =>
          destruct (CollectionAsset.scoutos_create_collection w l n d)
            as [e|created] eqn:Hcreate
      end.
      * eexists _, [_; _]. repeat rewrite <- app_assoc. cbn [app].
        split; [reflexivity|]. eexists.
        split; [exact Habsent|]. split; reflexivity.
      * destruct (Json.get created "id" Json.Null) as [e|collection_id]
          eqn:Hid.
        -- eexists _, [_; _]. repeat rewrite <- app_assoc. cbn [app].
           split; [reflexivity|]. eexists.
           split; [exact Habsent|]. split; reflexivity.
        -- eexists _, [_]. repeat rewrite <- app_assoc. cbn [app].
           split; [reflexivity|]. eexists.
           split; [exact Habsent|]. split; [reflexivity|].
           split; [reflexivity|]. exists created, collection_id.
           now repeat split.
Qed.

End SinkProperties.
